(** * crackmes.one: content lifecycle, counters and upload path construction

    A shallow embedding of the Go packages [model], [controller] and
    [storage] of crackmes.one.  The store behind the [database] package is a
    record of collections (lists of documents, in insertion order), handlers
    and model functions are computations in a state monad over a [World]
    which also holds the disk, the session flashes and a trace of the
    effects that were performed. *)

From Stdlib Require Import String Ascii List ZArith NArith Lia Bool Arith.
From Stdlib Require Import Permutation Sorted.
Import ListNotations.

Local Open Scope string_scope.
Local Open Scope list_scope.

(* ------------------------------------------------------------------ *)
(** ** Identifiers and time *)

(** [primitive.ObjectID] is a 12 byte value; it is kept as the number the
    96 bits denote.  [NilObjectID] is the zero value. *)
Definition ObjectID := N.

Definition NilObjectID : ObjectID := 0%N.

Definition hex_digit (d : N) : ascii :=
  if (d <? 10)%N then ascii_of_N (48 + d) else ascii_of_N (87 + d).

Fixpoint hex_digits (n : nat) (v : N) (acc : string) : string :=
  match n with
  | O => acc
  | S n' => hex_digits n' (v / 16)%N (String (hex_digit (v mod 16)%N) acc)
  end.

(** [ObjectID.Hex]: the 24 lowercase hexadecimal digits of the identifier. *)
Definition Hex (o : ObjectID) : string := hex_digits 24 o "".

Definition hex_value (c : ascii) : option N :=
  let n := N_of_ascii c in
  if ((48 <=? n) && (n <=? 57))%N then Some (n - 48)%N
  else if ((97 <=? n) && (n <=? 102))%N then Some (n - 87)%N
  else if ((65 <=? n) && (n <=? 70))%N then Some (n - 55)%N
  else None.

Fixpoint hex_parse (s : string) (acc : N) : option N :=
  match s with
  | EmptyString => Some acc
  | String c s' =>
      match hex_value c with
      | Some d => hex_parse s' (16 * acc + d)%N
      | None => None
      end
  end.

(** [time.Time], as a number of nanoseconds. *)
Definition Time_ := Z.

(* ------------------------------------------------------------------ *)
(** ** Errors *)

(** Go's [error] values that occur in the packages; [nil] is [None] of
    [option error]. *)
Inductive error : Type :=
| ErrUnavailable              (* model.ErrUnavailable *)
| ErrNoResult                 (* model.ErrNoResult *)
| ErrNoDocuments              (* mongo.ErrNoDocuments *)
| ErrInvalidHex               (* primitive.ErrInvalidHex *)
| ErrDriver                   (* any other failure reported by the driver *)
| ErrIO                       (* a failed read or write of a file *)
| ErrNew (msg : string).      (* errors.New(msg) *)

Definition error_eq_dec (a b : error) : {a = b} + {a <> b}.
Proof. decide equality; apply string_dec. Defined.

(** [err.Error()] *)
Definition Error (e : error) : string :=
  match e with
  | ErrUnavailable => "database is unavailable"
  | ErrNoResult => "result not found"
  | ErrNoDocuments => "mongo: no documents in result"
  | ErrInvalidHex => "the provided hex string is not a valid ObjectID"
  | ErrDriver => "driver error"
  | ErrIO => "input/output error"
  | ErrNew msg => msg
  end.

(** [primitive.ObjectIDFromHex]: 24 hexadecimal digits, or the nil
    identifier and an error. *)
Definition ObjectIDFromHex (s : string) : ObjectID * option error :=
  if Nat.eqb (String.length s) 24 then
    match hex_parse s 0%N with
    | Some v => (v, None)
    | None => (NilObjectID, Some ErrInvalidHex)
    end
  else (NilObjectID, Some ErrInvalidHex).

(* ------------------------------------------------------------------ *)
(** ** Documents (package [model]) *)

Record User : Type := mkUser {
  User_ObjectId : ObjectID;
  User_HexId : string;
  User_Name : string;
  User_Email : string;
  User_Password : string;
  User_Visible : bool;
  User_Deleted : bool;
  User_NbCrackmes : Z;
  User_NbSolutions : Z;
  User_NbComments : Z
}.

(** The fields of [Crackme] that the functions below read; the two
    floating point ratings are left out. *)
Record Crackme : Type := mkCrackme {
  Crackme_ObjectId : ObjectID;
  Crackme_HexId : string;
  Crackme_Name : string;
  Crackme_Info : string;
  Crackme_Lang : string;
  Crackme_Arch : string;
  Crackme_Author : string;
  Crackme_CreatedAt : Time_;
  Crackme_Visible : bool;
  Crackme_Deleted : bool;
  Crackme_NbSolutions : Z;
  Crackme_NbComments : Z;
  Crackme_Platform : string
}.

Record Solution : Type := mkSolution {
  Solution_ObjectId : ObjectID;
  Solution_HexId : string;
  Solution_Info : string;
  Solution_CrackmeId : ObjectID;
  Solution_CrackmeHexId : string;
  Solution_CrackmeName : string;
  Solution_CreatedAt : Time_;
  Solution_Author : string;
  Solution_Visible : bool;
  Solution_Deleted : bool
}.

Record Comment : Type := mkComment {
  Comment_ObjectId : ObjectID;
  Comment_Content : string;
  Comment_Author : string;
  Comment_CrackMeHexId : string;
  Comment_CrackmeName : string;
  Comment_CreatedAt : Time_;
  Comment_Visible : bool;
  Comment_Deleted : bool
}.

Record Notification : Type := mkNotification {
  Notification_Recipient : string;
  Notification_Message : string;
  Notification_CreatedAt : Time_
}.

(** Zero values, as [User{}], [Crackme{}], [Solution{}]. *)
Definition zeroUser : User :=
  mkUser NilObjectID "" "" "" "" false false 0%Z 0%Z 0%Z.

Definition zeroCrackme : Crackme :=
  mkCrackme NilObjectID "" "" "" "" "" "" 0%Z false false 0%Z 0%Z "".

Definition zeroSolution : Solution :=
  mkSolution NilObjectID "" "" NilObjectID "" "" 0%Z "" false false.

(** Comparison of two [Solution] structs with [==]. *)
Definition Solution_eq_dec (a b : Solution) : {a = b} + {a <> b}.
Proof.
  decide equality;
    try apply string_dec; try apply N.eq_dec; try apply Z.eq_dec;
    try apply bool_dec.
Defined.

(* ------------------------------------------------------------------ *)
(** ** The world *)

(** The collections of the database, each in insertion order. *)
Record Store : Type := mkStore {
  user : list User;
  crackme : list Crackme;
  solution : list Solution;
  comment : list Comment;
  notification : list Notification
}.

(** Effects, in the order in which they are performed. *)
Inductive Event : Type :=
| EvDriver (op collection : string)   (* a call into the store driver *)
| EvReadAll                           (* io.ReadAll on the uploaded file *)
| EvWriteFile (path : string)         (* os.WriteFile *)
| EvLog (line : string).              (* log.Println *)

Inductive FlashClass : Type := FlashError | FlashSuccess.

Record Flash : Type := mkFlash {
  Flash_Message : string;
  Flash_Class : FlashClass
}.

(** [storage.Info] *)
Record Info : Type := mkInfo {
  CrackmePath : string;
  SolutionPath : string
}.

Record World : Type := mkWorld {
  connection : bool;                 (* what database.CheckConnection() answers *)
  db : Store;
  fresh : ObjectID;                  (* next value of primitive.NewObjectID() *)
  clock : Time_;                     (* time.Now() *)
  config : Info;                     (* storage.config *)
  disk : list (string * string);     (* files written: path and content *)
  disk_ok : bool;                    (* whether os.WriteFile succeeds *)
  flashes : list Flash;              (* session flashes, oldest first *)
  trace : list Event                 (* effects, oldest first *)
}.

(** How often the payload of an upload was read into memory. *)
Definition is_ReadAll (e : Event) : bool :=
  match e with
  | EvReadAll => true
  | _ => false
  end.

Definition payload_reads (w : World) : nat :=
  length (filter is_ReadAll (trace w)).

(** What the rejection of an upload leaves alone: the reads of the
    payload, the disk, the stored solutions. *)
Definition upload_footprint (w : World)
  : nat * list (string * string) * list Solution :=
  (payload_reads w, disk w, solution (db w)).

(** The upload footprint together with the session flashes. *)
Definition upload_state (w : World)
  : nat * list (string * string) * list Solution * list Flash :=
  (upload_footprint w, flashes w).

(** The storage configuration and the files on disk. *)
Definition files_of (w : World) : Info * list (string * string) :=
  (config w, disk w).

(** The crackme collection, which holds the counters. *)
Definition crackmes_of (w : World) : list Crackme := crackme (db w).

(* ------------------------------------------------------------------ *)
(** ** Computations *)

(** A Go function of the packages is a state transformer of the world. *)
Definition M (A : Type) : Type := World -> A * World.

Definition ret {A : Type} (a : A) : M A := fun w => (a, w).

Definition bind {A B : Type} (m : M A) (k : A -> M B) : M B :=
  fun w => let (a, w') := m w in k a w'.

Declare Scope go_scope.
Delimit Scope go_scope with go.

Notation "x <- m ;; k" := (bind m (fun x => k))
  (at level 61, m at next level, right associativity) : go_scope.
Notation "' pat <- m ;; k" := (bind m (fun x => match x with pat => k end))
  (at level 61, pat pattern, m at next level, right associativity) : go_scope.
Notation "m ;; k" := (bind m (fun _ => k))
  (at level 61, right associativity) : go_scope.

Local Open Scope go_scope.

Definition with_db (s : Store) (w : World) : World :=
  mkWorld (connection w) s (fresh w) (clock w) (config w)
          (disk w) (disk_ok w) (flashes w) (trace w).

Definition emit (e : Event) : M unit :=
  fun w => (tt, mkWorld (connection w) (db w) (fresh w) (clock w) (config w)
                        (disk w) (disk_ok w) (flashes w) (trace w ++ [e])).

(** [log.Println] *)
Definition Println (line : string) : M unit := emit (EvLog line).

Definition Println_err (err : option error) : M unit :=
  match err with
  | Some e => Println (Error e)
  | None => Println "<nil>"
  end.

(** [database.CheckConnection] *)
Definition CheckConnection : M bool := fun w => (connection w, w).

(** [primitive.NewObjectID] *)
Definition NewObjectID : M ObjectID :=
  fun w => (fresh w,
            mkWorld (connection w) (db w) (fresh w + 1)%N (clock w) (config w)
                    (disk w) (disk_ok w) (flashes w) (trace w)).

(** [time.Now] *)
Definition Now : M Time_ :=
  fun w => (clock w,
            mkWorld (connection w) (db w) (fresh w) (clock w + 1)%Z (config w)
                    (disk w) (disk_ok w) (flashes w) (trace w)).

(** [sess.AddFlash] *)
Definition AddFlash (f : Flash) : M unit :=
  fun w => (tt, mkWorld (connection w) (db w) (fresh w) (clock w) (config w)
                        (disk w) (disk_ok w) (flashes w ++ [f]) (trace w)).

(** [os.WriteFile] *)
Definition WriteFile (path data : string) : M (option error) :=
  emit (EvWriteFile path) ;;
  fun w =>
    if disk_ok w then
      (None, mkWorld (connection w) (db w) (fresh w) (clock w) (config w)
                     (disk w ++ [(path, data)]) (disk_ok w) (flashes w) (trace w))
    else (Some ErrIO, w).

(** [storage.GetSolutionPath] *)
Definition GetSolutionPath : M string := fun w => (SolutionPath (config w), w).

(** [storage.GetCrackmePath] *)
Definition GetCrackmePath : M string := fun w => (CrackmePath (config w), w).

(** [storage.Configure]: the two roots from the environment, with their
    defaults. *)
Definition Configure (Getenv : string -> string) : Info :=
  let crackmePath := Getenv "CRACKME_STORAGE_PATH" in
  let crackmePath := if crackmePath =? "" then "tmp/crackme" else crackmePath in
  let solutionPath := Getenv "SOLUTION_STORAGE_PATH" in
  let solutionPath := if solutionPath =? "" then "tmp/solution" else solutionPath in
  mkInfo crackmePath solutionPath.

(* ------------------------------------------------------------------ *)
(** ** The store driver *)

(** A handle on one collection:
    [database.Mongo.Database(...).Collection(name)]. *)
Record Collection (A : Type) : Type := mkCollection {
  coll_name : string;
  coll_get : Store -> list A;
  coll_set : list A -> Store -> Store
}.

Arguments coll_name {A} _.
Arguments coll_get {A} _ _.
Arguments coll_set {A} _ _ _.

Definition Collection_user : Collection User :=
  mkCollection User "user" user
    (fun l s => mkStore l (crackme s) (solution s) (comment s) (notification s)).

Definition Collection_crackme : Collection Crackme :=
  mkCollection Crackme "crackme" crackme
    (fun l s => mkStore (user s) l (solution s) (comment s) (notification s)).

Definition Collection_solution : Collection Solution :=
  mkCollection Solution "solution" solution
    (fun l s => mkStore (user s) (crackme s) l (comment s) (notification s)).

Definition Collection_comment : Collection Comment :=
  mkCollection Comment "comment" comment
    (fun l s => mkStore (user s) (crackme s) (solution s) l (notification s)).

Definition Collection_notification : Collection Notification :=
  mkCollection Notification "notification" notification
    (fun l s => mkStore (user s) (crackme s) (solution s) (comment s) l).

(** Every driver call is recorded in the trace.  A call made while there is
    no connection cannot succeed; whatever form its failure takes (the
    client handle is nil), it is rendered as [ErrDriver] and leaves the
    store alone. *)
Definition driver {A R : Type} (op : string) (c : Collection A)
    (failed : R) (run : list A -> R * list A) : M (R * option error) :=
  emit (EvDriver op (coll_name c)) ;;
  fun w =>
    if connection w then
      let (r, docs) := run (coll_get c (db w)) in
      ((r, None), with_db (coll_set c docs (db w)) w)
    else ((failed, Some ErrDriver), w).

Definition CountDocuments {A : Type} (c : Collection A) (filter : A -> bool)
  : M (Z * option error) :=
  driver "CountDocuments" c 0%Z
    (fun docs => (Z.of_nat (length (List.filter filter docs)), docs)).

Definition EstimatedDocumentCount {A : Type} (c : Collection A)
  : M (Z * option error) :=
  driver "EstimatedDocumentCount" c 0%Z
    (fun docs => (Z.of_nat (length docs), docs)).

(** [FindOne(...).Decode(&result)]: the first matching document in natural
    order is decoded into [result]; when there is none the result keeps its
    zero value and the error is [mongo.ErrNoDocuments]. *)
Definition FindOne {A : Type} (c : Collection A) (filter : A -> bool) (zero : A)
  : M (A * option error) :=
  '(found, err) <- driver "FindOne" c None
                     (fun docs => (List.find filter docs, docs)) ;;
  match err, found with
  | Some e, _ => ret (zero, Some e)
  | None, Some d => ret (d, None)
  | None, None => ret (zero, Some ErrNoDocuments)
  end.

(** [options.Find()] with [SetSort] and [SetLimit]. *)
Record FindOptions (A : Type) : Type := mkFindOptions {
  opt_sort : list A -> list A;
  opt_limit : Z
}.

Arguments opt_sort {A} _ _.
Arguments opt_limit {A} _.

Definition options_Find {A : Type} : FindOptions A :=
  mkFindOptions A (fun l => l) 0%Z.

Definition SetSort {A : Type} (sort : list A -> list A) (o : FindOptions A)
  : FindOptions A :=
  mkFindOptions A sort (opt_limit o).

Definition SetLimit {A : Type} (n : Z) (o : FindOptions A) : FindOptions A :=
  mkFindOptions A (opt_sort o) n.

(** A limit of zero means no limit. *)
Definition apply_limit {A : Type} (n : Z) (l : list A) : list A :=
  if (0 <? n)%Z then firstn (Z.to_nat n) l else l.

(** [Find] followed by [cursor.All]: the matching documents, sorted, cut at
    the limit. *)
Definition Find {A : Type} (c : Collection A) (filter : A -> bool)
    (opts : FindOptions A) : M (list A * option error) :=
  driver "Find" c []
    (fun docs =>
       (apply_limit (opt_limit opts) (opt_sort opts (List.filter filter docs)),
        docs)).

Definition InsertOne {A : Type} (c : Collection A) (doc : A)
  : M (unit * option error) :=
  driver "InsertOne" c tt (fun docs => (tt, docs ++ [doc])).

Fixpoint update_first {A : Type} (filter : A -> bool) (update : A -> A)
    (docs : list A) : Z * list A :=
  match docs with
  | [] => (0%Z, [])
  | d :: rest =>
      if filter d then (1%Z, update d :: rest)
      else let (n, rest') := update_first filter update rest in (n, d :: rest')
  end.

(** [UpdateOne]: the result is the MatchedCount. *)
Definition UpdateOne {A : Type} (c : Collection A) (filter : A -> bool)
    (update : A -> A) : M (Z * option error) :=
  driver "UpdateOne" c 0%Z (update_first filter update).

(** Equality conditions of a [bson.M] filter.  A field tagged [omitempty]
    is absent from a stored document when it holds the zero value, and an
    absent field matches no equality condition. *)
Definition bson_string_omitempty (field query : string) : bool :=
  negb (field =? "") && (field =? query).

Definition bson_oid_omitempty (field query : ObjectID) : bool :=
  negb (field =? NilObjectID)%N && (field =? query)%N.

Definition bson_bool (field query : bool) : bool := Bool.eqb field query.

(** Sorting of a result set on a key: a stable insertion sort, [leb a b]
    saying that [a] may come before [b]. *)
Fixpoint insert_by {A : Type} (leb : A -> A -> bool) (x : A) (l : list A)
  : list A :=
  match l with
  | [] => [x]
  | y :: l' => if leb x y then x :: y :: l' else y :: insert_by leb x l'
  end.

Fixpoint sort_by {A : Type} (leb : A -> A -> bool) (l : list A) : list A :=
  match l with
  | [] => []
  | x :: l' => insert_by leb x (sort_by leb l')
  end.

(* ------------------------------------------------------------------ *)
(** ** Regular expressions of the store

    [primitive.Regex] conditions are evaluated by the store's regular
    expression engine.  The fragment that is modelled has the two anchors,
    the dot and literal characters, with the option [i]; a pattern with
    any other metacharacter is not compiled. *)

Record Regex : Type := mkRegex {
  Pattern : string;
  Options : string
}.

Inductive ReItem : Type :=
| ReChar (c : ascii)
| ReAny.

Record ReProg : Type := mkReProg {
  re_bol : bool;
  re_items : list ReItem;
  re_eol : bool;
  re_icase : bool
}.

Definition is_meta (c : ascii) : bool :=
  existsb (Ascii.eqb c) (list_ascii_of_string "\^$.|?*+()[]{}").

Fixpoint re_parse (s : string) : option (list ReItem * bool) :=
  match s with
  | EmptyString => Some ([], false)
  | String c s' =>
      if (c =? "$")%char then
        (if s' =? "" then Some ([], true) else None)
      else if (c =? ".")%char then
        match re_parse s' with
        | Some (items, eol) => Some (ReAny :: items, eol)
        | None => None
        end
      else if is_meta c then None
      else
        match re_parse s' with
        | Some (items, eol) => Some (ReChar c :: items, eol)
        | None => None
        end
  end.

Definition re_body (bol icase : bool) (s : string) : option ReProg :=
  match re_parse s with
  | Some (items, eol) => Some (mkReProg bol items eol icase)
  | None => None
  end.

Definition re_anchored (icase : bool) (s : string) : option ReProg :=
  match s with
  | String "^" s' => re_body true icase s'
  | _ => re_body false icase s
  end.

Definition re_compile (r : Regex) : option ReProg :=
  if Options r =? "" then re_anchored false (Pattern r)
  else if Options r =? "i" then re_anchored true (Pattern r)
  else None.

Definition to_lower (c : ascii) : ascii :=
  let n := N_of_ascii c in
  if ((65 <=? n) && (n <=? 90))%N then ascii_of_N (n + 32) else c.

Definition re_char (icase : bool) (a b : ascii) : bool :=
  if icase then (to_lower a =? to_lower b)%char else (a =? b)%char.

Definition newline : ascii := ascii_of_N 10.

Definition re_item (icase : bool) (it : ReItem) (c : ascii) : bool :=
  match it with
  | ReChar a => re_char icase a c
  | ReAny => negb (c =? newline)%char
  end.

(** The dollar matches at the end of the subject and before a newline that
    ends it. *)
Fixpoint re_here (icase : bool) (items : list ReItem) (eol : bool) (s : string)
  : bool :=
  match items with
  | [] => if eol then (s =? "") || (s =? String newline "") else true
  | it :: items' =>
      match s with
      | EmptyString => false
      | String c s' => re_item icase it c && re_here icase items' eol s'
      end
  end.

Fixpoint re_search (icase : bool) (items : list ReItem) (eol : bool)
    (s : string) : bool :=
  re_here icase items eol s ||
  match s with
  | EmptyString => false
  | String _ s' => re_search icase items eol s'
  end.

Definition re_exec (p : ReProg) (s : string) : bool :=
  if re_bol p then re_here (re_icase p) (re_items p) (re_eol p) s
  else re_search (re_icase p) (re_items p) (re_eol p) s.

(** A regular expression condition on a field tagged [omitempty]. *)
Definition bson_regex_omitempty (p : ReProg) (field : string) : bool :=
  negb (field =? "") && re_exec p field.

(** [FindOne] with a [primitive.Regex] condition: the pattern is compiled
    by the store; one that is refused (or lies outside the modelled
    fragment) makes the call fail. *)
Definition FindOne_regex {A : Type} (c : Collection A) (field : A -> string)
    (r : Regex) (zero : A) : M (A * option error) :=
  match re_compile r with
  | Some p => FindOne c (fun d => bson_regex_omitempty p (field d)) zero
  | None =>
      emit (EvDriver "FindOne" (coll_name c)) ;;
      ret (zero, Some ErrDriver)
  end.

(* ------------------------------------------------------------------ *)
(** ** Package [model] *)

(** Modelled from the spec: [standardizeError] is not among the sources.
    The driver's "no documents" error becomes the standardized not-found
    signal [ErrNoResult]; every other error (and [nil]) is passed on. *)
Definition standardizeError (err : option error) : option error :=
  match err with
  | Some ErrNoDocuments => Some ErrNoResult
  | _ => err
  end.

(** *** user.go *)

Definition CountUsers : M (Z * option error) :=
  ok <- CheckConnection ;;
  if ok then
    '(nb, err) <- CountDocuments Collection_user (fun _ => true) ;;
    ret (nb, standardizeError err)
  else ret (0%Z, standardizeError (Some ErrUnavailable)).

Definition UserByName (name : string) : M (User * option error) :=
  ok <- CheckConnection ;;
  if ok then
    '(result, err) <- FindOne_regex Collection_user User_Name
                        (mkRegex ("^" ++ name ++ "$") "i") zeroUser ;;
    ret (result, standardizeError err)
  else ret (zeroUser, standardizeError (Some ErrUnavailable)).

Definition UserByMail (email : string) : M (User * option error) :=
  ok <- CheckConnection ;;
  if ok then
    '(result, err) <- FindOne_regex Collection_user User_Email
                        (mkRegex ("^" ++ email ++ "$") "i") zeroUser ;;
    ret (result, standardizeError err)
  else ret (zeroUser, standardizeError (Some ErrUnavailable)).

Definition UserByHexId (hexid : string) : M (User * option error) :=
  ok <- CheckConnection ;;
  if ok then
    '(result, err) <- FindOne Collection_user
                        (fun u => bson_string_omitempty (User_HexId u) hexid)
                        zeroUser ;;
    ret (result, standardizeError err)
  else ret (zeroUser, standardizeError (Some ErrUnavailable)).

Definition AllUsersVisible : M (list User * option error) :=
  ok <- CheckConnection ;;
  if ok then
    Find Collection_user (fun u => bson_bool (User_Visible u) true) options_Find
  else ret ([], Some ErrUnavailable).

Definition UserCreate (name email password : string) : M (option error) :=
  ok <- CheckConnection ;;
  if ok then
    objId <- NewObjectID ;;
    let user :=
      mkUser objId (Hex objId) name email password true false 0%Z 0%Z 0%Z in
    '(_, err) <- InsertOne Collection_user user ;;
    ret (standardizeError err)
  else ret (standardizeError (Some ErrUnavailable)).

Definition set_Password (p : string) (u : User) : User :=
  mkUser (User_ObjectId u) (User_HexId u) (User_Name u) (User_Email u) p
         (User_Visible u) (User_Deleted u)
         (User_NbCrackmes u) (User_NbSolutions u) (User_NbComments u).

Definition UpdateUserPassword (username hashedPassword : string)
  : M (option error) :=
  if username =? "" then ret (Some (ErrNew "username cannot be empty"))
  else if hashedPassword =? "" then
    ret (Some (ErrNew "hashed password cannot be empty"))
  else
    '(MatchedCount, err) <-
       UpdateOne Collection_user
         (fun u => bson_string_omitempty (User_Name u) username)
         (set_Password hashedPassword) ;;
    match err with
    | Some e => ret (Some e)
    | None =>
        if (MatchedCount =? 0)%Z then
          ret (Some (ErrNew "no user found with the provided username"))
        else ret None
    end.

(** *** crackme.go and notification.go *)

(** Modelled from the spec: [CrackmeByHexId] is not among the sources.
    It is the find-by-hex-id accessor of the crackme collection: the
    matching record, or the zero record and the not-found signal, or the
    unavailability signal when there is no connection. *)
Definition CrackmeByHexId (hexid : string) : M (Crackme * option error) :=
  ok <- CheckConnection ;;
  if ok then
    '(result, err) <- FindOne Collection_crackme
                        (fun c => bson_string_omitempty (Crackme_HexId c) hexid)
                        zeroCrackme ;;
    ret (result, standardizeError err)
  else ret (zeroCrackme, standardizeError (Some ErrUnavailable)).

(** Modelled from the spec: [NotificationAdd] is not among the sources.
    It appends a notification (recipient, message text, created-at) to the
    notification collection. *)
Definition NotificationAdd (recipient message : string) : M (option error) :=
  ok <- CheckConnection ;;
  if ok then
    now <- Now ;;
    '(_, err) <- InsertOne Collection_notification
                   (mkNotification recipient message now) ;;
    ret (standardizeError err)
  else ret (standardizeError (Some ErrUnavailable)).

(** *** comment.go *)

Definition CountCommentsByUser (username : string) : M (Z * option error) :=
  ok <- CheckConnection ;;
  if ok then
    '(nb, err) <- CountDocuments Collection_comment
                    (fun c => bson_string_omitempty (Comment_Author c) username) ;;
    ret (nb, standardizeError err)
  else ret (0%Z, standardizeError (Some ErrUnavailable)).

Definition CountCommentsByCrackme (crackmehexid : string)
  : M (Z * option error) :=
  ok <- CheckConnection ;;
  if ok then
    '(nb, err) <- CountDocuments Collection_comment
                    (fun c =>
                       bson_string_omitempty (Comment_CrackMeHexId c) crackmehexid
                       && bson_bool (Comment_Visible c) true) ;;
    ret (nb, standardizeError err)
  else ret (0%Z, standardizeError (Some ErrUnavailable)).

(** The sort key [{"created_at", -1}] on comments. *)
Definition Comment_created_at_desc (a b : Comment) : bool :=
  (Comment_CreatedAt b <=? Comment_CreatedAt a)%Z.

(** The sort key [{"created_at", 1}] on comments. *)
Definition Comment_created_at_asc (a b : Comment) : bool :=
  (Comment_CreatedAt a <=? Comment_CreatedAt b)%Z.

(** The filter [bson.M{"author": name, "visible": true}] on comments. *)
Definition by_author_visible (name : string) (c : Comment) : bool :=
  bson_string_omitempty (Comment_Author c) name
  && bson_bool (Comment_Visible c) true.

Definition CommentsByUser (name : string) : M (list Comment * option error) :=
  ok <- CheckConnection ;;
  if ok then
    let opts :=
      SetLimit 50 (SetSort (sort_by Comment_created_at_desc) options_Find) in
    Find Collection_comment (by_author_visible name) opts
  else ret ([], Some ErrUnavailable).

Definition CommentsByCrackMe (crackmehexid : string)
  : M (list Comment * option error) :=
  ok <- CheckConnection ;;
  if ok then
    let opts := SetSort (sort_by Comment_created_at_asc) options_Find in
    Find Collection_comment
      (fun c => bson_string_omitempty (Comment_CrackMeHexId c) crackmehexid
                && bson_bool (Comment_Visible c) true)
      opts
  else ret ([], Some ErrUnavailable).

Definition CommentCreate (content username crackmehexid : string)
  : M (option error) :=
  '(crackme, err) <- CrackmeByHexId crackmehexid ;;
  match err with
  | Some _ => ret (standardizeError err)
  | None =>
      ok <- CheckConnection ;;
      if ok then
        objId <- NewObjectID ;;
        now <- Now ;;
        let comment :=
          mkComment objId content username crackmehexid (Crackme_Name crackme)
                    now true false in
        '(_, err) <- InsertOne Collection_comment comment ;;
        ret (standardizeError err)
      else ret (standardizeError (Some ErrUnavailable))
  end.

(** *** solution.go *)

Definition CountSolutions : M (Z * option error) :=
  ok <- CheckConnection ;;
  if ok then
    '(nb, err) <- EstimatedDocumentCount Collection_solution ;;
    ret (nb, standardizeError err)
  else ret (0%Z, standardizeError (Some ErrUnavailable)).

Definition CountSolutionsByUser (username : string) : M (Z * option error) :=
  ok <- CheckConnection ;;
  if ok then
    '(nb, err) <- CountDocuments Collection_solution
                    (fun s => bson_string_omitempty (Solution_Author s) username
                              && bson_bool (Solution_Visible s) true) ;;
    ret (nb, standardizeError err)
  else ret (0%Z, standardizeError (Some ErrUnavailable)).

(** The error of [ObjectIDFromHex] is overwritten by the one of the count. *)
Definition CountSolutionsByCrackme (crackmehexid : string)
  : M (Z * option error) :=
  ok <- CheckConnection ;;
  if ok then
    let '(objid, _) := ObjectIDFromHex crackmehexid in
    '(nb, err) <- CountDocuments Collection_solution
                    (fun s => bson_oid_omitempty (Solution_CrackmeId s) objid
                              && bson_bool (Solution_Visible s) true) ;;
    ret (nb, standardizeError err)
  else ret (0%Z, standardizeError (Some ErrUnavailable)).

Definition SolutionByHexId (hexid : string) : M (Solution * option error) :=
  ok <- CheckConnection ;;
  if ok then
    FindOne Collection_solution
      (fun s => bson_string_omitempty (Solution_HexId s) hexid
                && bson_bool (Solution_Visible s) true)
      zeroSolution
  else ret (zeroSolution, Some ErrUnavailable).

(** The sort key [{"created_at", -1}] on solutions. *)
Definition Solution_created_at_desc (a b : Solution) : bool :=
  (Solution_CreatedAt b <=? Solution_CreatedAt a)%Z.

Definition SolutionsByUser (username : string)
  : M (list Solution * option error) :=
  ok <- CheckConnection ;;
  if ok then
    let opts := SetSort (sort_by Solution_created_at_desc) options_Find in
    Find Collection_solution
      (fun s => bson_string_omitempty (Solution_Author s) username
                && bson_bool (Solution_Visible s) true)
      opts
  else ret ([], Some ErrUnavailable).

Definition SolutionsByUserAndCrackMe (username crackmehexid : string)
  : M (Solution * option error) :=
  '(crackme, _) <- CrackmeByHexId crackmehexid ;;
  ok <- CheckConnection ;;
  if ok then
    FindOne Collection_solution
      (fun s => bson_oid_omitempty (Solution_CrackmeId s) (Crackme_ObjectId crackme)
                && bson_string_omitempty (Solution_Author s) username)
      zeroSolution
  else ret (zeroSolution, Some ErrUnavailable).

Definition SolutionsByCrackme (crackme : ObjectID)
  : M (list Solution * option error) :=
  ok <- CheckConnection ;;
  if ok then
    Find Collection_solution
      (fun s => bson_oid_omitempty (Solution_CrackmeId s) crackme
                && bson_bool (Solution_Visible s) true)
      options_Find
  else ret ([], Some ErrUnavailable).

Definition SolutionCreate (info username crackmehexid : string)
  : M (option error) :=
  '(crackme, err) <- CrackmeByHexId crackmehexid ;;
  match err with
  | Some _ => ret (standardizeError err)
  | None =>
      ok <- CheckConnection ;;
      if ok then
        objId <- NewObjectID ;;
        now <- Now ;;
        let solution :=
          mkSolution objId (Hex objId) info (Crackme_ObjectId crackme)
                     (Crackme_HexId crackme) (Crackme_Name crackme) now
                     username false false in
        '(_, err) <- InsertOne Collection_solution solution ;;
        ret (standardizeError err)
      else ret (standardizeError (Some ErrUnavailable))
  end.

(* ------------------------------------------------------------------ *)
(** ** Paths (packages [path/filepath] and [strings], on Unix)

    A path is cut into its elements at the separators; [Clean] works on
    the elements as the library documents it: empty and [.] elements are
    dropped, an inner [..] removes the element before it, a [..] that
    begins a rooted path is dropped, and one that begins a relative path
    is kept. *)

Definition Separator : ascii := "/"%char.

Definition IsPathSeparator (c : ascii) : bool := (c =? Separator)%char.

(** The elements of a path, empty ones included: there is one more element
    than there are separators. *)
Fixpoint split_slash (s : string) : list string :=
  match s with
  | EmptyString => [""]
  | String c s' =>
      if IsPathSeparator c then "" :: split_slash s'
      else
        match split_slash s' with
        | e :: rest => String c e :: rest
        | [] => [String c ""]
        end
  end.

(** [strings.Join(elems, "/")] *)
Fixpoint join_slash (elems : list string) : string :=
  match elems with
  | [] => ""
  | [e] => e
  | e :: rest => e ++ String Separator (join_slash rest)
  end.

Definition rooted (path : string) : bool :=
  match path with
  | String c _ => IsPathSeparator c
  | EmptyString => false
  end.

(** The loop of [Clean]: [dotdot] counts the [..] elements that lead the
    output and cannot be removed, [out] holds the elements written after
    them, the last one first. *)
Fixpoint clean_elems (is_rooted : bool) (elems : list string)
    (dotdot : nat) (out : list string) : nat * list string :=
  match elems with
  | [] => (dotdot, out)
  | e :: rest =>
      if e =? "" then clean_elems is_rooted rest dotdot out
      else if e =? "." then clean_elems is_rooted rest dotdot out
      else if e =? ".." then
        match out with
        | _ :: out' => clean_elems is_rooted rest dotdot out'
        | [] =>
            if is_rooted then clean_elems is_rooted rest dotdot out
            else clean_elems is_rooted rest (S dotdot) out
        end
      else clean_elems is_rooted rest dotdot (e :: out)
  end.

Definition clean_output (is_rooted : bool) (dotdot : nat) (out : list string)
  : string :=
  let body := join_slash (repeat ".." dotdot ++ rev out) in
  if is_rooted then String Separator body
  else if body =? "" then "." else body.

(** [filepath.Clean] *)
Definition Clean (path : string) : string :=
  if path =? "" then "."
  else
    let (dotdot, out) := clean_elems (rooted path) (split_slash path) 0 [] in
    clean_output (rooted path) dotdot out.

(** [filepath.Join]: leading empty elements are skipped, the others are
    joined with separators and cleaned. *)
Fixpoint Join (elem : list string) : string :=
  match elem with
  | [] => ""
  | e :: rest => if e =? "" then Join rest else Clean (join_slash elem)
  end.

Fixpoint strip_trailing_slashes (s : string) : string :=
  match s with
  | EmptyString => ""
  | String c s' =>
      let r := strip_trailing_slashes s' in
      if IsPathSeparator c && (r =? "") then "" else String c r
  end.

(** [filepath.Base]: the last element of the path, trailing separators
    removed first. *)
Definition Base (path : string) : string :=
  if path =? "" then "."
  else
    let path := strip_trailing_slashes path in
    let path := last (split_slash path) "" in
    if path =? "" then String Separator "" else path.

(** [strings.HasPrefix] *)
Definition HasPrefix (s prefix : string) : bool := String.prefix prefix s.

(** Where a path leads in a directory tree without links: a directory is
    the list of names from the root of the file system down to it. *)
Fixpoint walk (dir : list string) (elems : list string) : list string :=
  match elems with
  | [] => dir
  | e :: rest =>
      if e =? "" then walk dir rest
      else if e =? "." then walk dir rest
      else if e =? ".." then walk (removelast dir) rest
      else walk (dir ++ [e]) rest
  end.

Definition location (cwd : list string) (path : string) : list string :=
  walk (if rooted path then [] else cwd) (split_slash path).

(** A plain name: an element that [walk] descends into. *)
Definition plain_name (e : string) : bool :=
  negb (e =? "") && negb (e =? ".") && negb (e =? "..").

(* ------------------------------------------------------------------ *)
(** ** Package [controller] *)

(** What a handler sends back. *)
Inductive Reply : Type :=
| Render (name : string) (vars : list (string * string))   (* v.Render(w) *)
| CrackMePage (hexid : string)                             (* CrackMeGET(w, r) *)
| Redirect (url : string)                                  (* http.Redirect *)
| Body (text : string)                                     (* io.WriteString(w, text) *)
| NoReply.                                                 (* a bare return *)

(** [multipart.FileHeader] *)
Record FileHeader : Type := mkFileHeader {
  Filename : string;
  Size : Z
}.

(** What [UploadSolutionPOST] reads from the request and the session.
    [up_file] is the outcome of [r.FormFile("file")]: nothing when it
    fails, else the header and the stream, the stream being what
    [io.ReadAll] will get out of it (nothing when the read fails). *)
Record UploadRequest : Type := mkUploadRequest {
  up_name : string;                                (* sess.Values["name"] *)
  up_hexidcrackme : string;                        (* params.ByName("hexidcrackme") *)
  up_info : string;                                (* r.FormValue("info") *)
  up_file : option (FileHeader * option string);
  up_recaptcha : bool                              (* recaptcha.Verified(r) *)
}.

(** What [LeaveCommentPOST] reads from the request and the session. *)
Record CommentRequest : Type := mkCommentRequest {
  cm_name : string;                                (* sess.Values["name"] *)
  cm_hexid : string;                               (* params.ByName("hexid") *)
  cm_comment : string;                             (* r.FormValue("comment") *)
  cm_recaptcha : bool                              (* recaptcha.Verified(r) *)
}.

(** [io.ReadAll] on the uploaded file. *)
Definition ReadAll (file : option string) : M (string * option error) :=
  emit EvReadAll ;;
  match file with
  | Some data => ret (data, None)
  | None => ret ("", Some ErrIO)
  end.

(** Modelled from the spec: [view.Validate] is not among the sources.  A
    required field is missing when its form value is empty. *)
Definition Validate (form : list (string * string)) (required : list string)
  : bool * string :=
  match List.find
          (fun f => match List.find (fun kv => fst kv =? f) form with
                    | Some kv => snd kv =? ""
                    | None => true
                    end) required with
  | Some f => (false, f)
  | None => (true, "")
  end.

Section Controller.

(** The two functions of the [sanitize] package that the handlers call;
    the package is not part of the repository. *)
Variable sanitize_HTML : string -> string.
Variable sanitize_Name : string -> string.

Definition UploadSolutionGET (hexidcrackme : string) : M Reply :=
  '(crackme, _) <- CrackmeByHexId hexidcrackme ;;
  ret (Render "solution/create"
         [("hexidcrackme", hexidcrackme);
          ("username", Crackme_Author crackme);
          ("crackmename", Crackme_Name crackme)]).

(** The name under which an upload is stored, and the path it is joined
    to: lines 107 to 116 of [UploadSolutionPOST]. *)
Definition stored_name (username hexid filename : string) : string :=
  let filename := Base filename in
  let filename := sanitize_Name filename in
  username ++ "+++" ++ hexid ++ "+++" ++ filename.

Definition stored_path (root username hexid filename : string) : string :=
  Join [root; stored_name username hexid filename].

Definition UploadSolutionPOST (r : UploadRequest) : M Reply :=
  let hexidcrackme := up_hexidcrackme r in
  let username := up_name r in
  let info := up_info r in
  let info := sanitize_HTML info in
  '(solution, _) <- SolutionsByUserAndCrackMe username hexidcrackme ;;
  let emptysol := zeroSolution in
  if Solution_eq_dec solution emptysol then
    if negb (up_recaptcha r) then
      AddFlash (mkFlash "reCAPTCHA invalid!" FlashError) ;;
      UploadSolutionGET hexidcrackme
    else
      match up_file r with
      | None =>
          AddFlash (mkFlash "Field missing: file" FlashError) ;;
          Println "missing file" ;;
          UploadSolutionGET hexidcrackme
      | Some (header, file) =>
          if (Size header >? 5000000)%Z then
            AddFlash (mkFlash "This file is too large !" FlashError) ;;
            UploadSolutionGET hexidcrackme
          else
            '(data, err) <- ReadAll file ;;
            match err with
            | Some e => ret (Body (Error e))
            | None =>
                err <- SolutionCreate info username hexidcrackme ;;
                '(solution, _) <-
                   SolutionsByUserAndCrackMe username hexidcrackme ;;
                match err with
                | Some _ => Println_err err
                | None => ret tt
                end ;;
                root <- GetSolutionPath ;;
                let safePath :=
                  stored_path root username (Solution_HexId solution)
                              (Filename header) in
                root' <- GetSolutionPath ;;
                if negb (HasPrefix (Clean safePath)
                                   (root' ++ String Separator "")) then
                  Println "invalid or unsafe file path detected" ;;
                  AddFlash (mkFlash "Invalid file path" FlashError) ;;
                  ret NoReply
                else
                  err <- WriteFile safePath data ;;
                  match err with
                  | Some e =>
                      Println (Error e) ;;
                      AddFlash
                        (mkFlash
                           "An error occurred on the server. Please try again later."
                           FlashError) ;;
                      ret (Body (Error e))
                  | None =>
                      '(crackme, err2) <- CrackmeByHexId hexidcrackme ;;
                      match err2 with
                      | None =>
                          err2 <- NotificationAdd username
                                    ("Your solution for '"
                                       ++ Crackme_Name crackme
                                       ++ "' is waiting approval!") ;;
                          match err2 with
                          | Some _ => Println_err err2
                          | None => ret tt
                          end
                      | Some _ => Println_err err2
                      end ;;
                      AddFlash
                        (mkFlash "Solution uploaded! Should be available soon."
                                 FlashSuccess) ;;
                      ret (Redirect ("/user/" ++ username))
                  end
            end
      end
  else
    AddFlash
      (mkFlash "You've already submitted a solution to this crackme"
               FlashError) ;;
    UploadSolutionGET hexidcrackme.

Definition LeaveCommentPOST (r : CommentRequest) : M Reply :=
  let crackmehexid := cm_hexid r in
  let '(validate, missingField) :=
    Validate [("comment", cm_comment r)] ["comment"] in
  if negb validate then
    AddFlash (mkFlash ("Field missing: " ++ missingField) FlashError) ;;
    ret (CrackMePage crackmehexid)
  else if negb (cm_recaptcha r) then
    AddFlash (mkFlash "reCAPTCHA invalid!" FlashError) ;;
    ret (CrackMePage crackmehexid)
  else
    let username := cm_name r in
    let comment := cm_comment r in
    let comment := sanitize_HTML comment in
    err <- CommentCreate comment username crackmehexid ;;
    match err with
    | Some _ =>
        Println_err err ;;
        AddFlash
          (mkFlash "Comment creation failed. Please try again later."
                   FlashError) ;;
        ret (CrackMePage crackmehexid)
    | None =>
        '(crackme, err) <- CrackmeByHexId crackmehexid ;;
        (if match err with None => true | Some _ => false end
            && negb (Crackme_Author crackme =? username)
         then
           err <- NotificationAdd (Crackme_Author crackme)
                    ("New comment on your crackme '" ++ Crackme_Name crackme
                       ++ "' by: " ++ username) ;;
           match err with
           | Some _ => Println_err err
           | None => ret tt
           end
         else Println_err err) ;;
        AddFlash (mkFlash "Comment uploaded!" FlashSuccess) ;;
        ret (Redirect ("/crackme/" ++ crackmehexid))
    end.

End Controller.

(* ------------------------------------------------------------------ *)
(** ** Package [controller]: accounts *)

(** What the account handlers send back: [http.Error], a written status
    with a body, a redirect, or the registration form. *)
Inductive Answer : Type :=
| HttpError (message : string) (code : Z)       (* http.Error(w, message, code) *)
| Written (code : Z) (body : string)            (* w.WriteHeader(code); w.Write(body) *)
| Found (url : string)                          (* http.Redirect(w, r, url, http.StatusFound) *)
| RegisterForm (name email : string).           (* RegisterGET(w, r) *)

(** What [ResetPasswordWithCurrentPOST] reads from the request and the
    session.  [pw_name] is [sess.Values["name"].(string)]: nothing when the
    value is absent or not a string. *)
Record PasswordRequest : Type := mkPasswordRequest {
  pw_name : option string;
  pw_current : string;            (* r.FormValue("current_password") *)
  pw_new : string;                (* r.FormValue("new_password") *)
  pw_verify : string              (* r.FormValue("new_password_verify") *)
}.

(** What [RegisterPOST] reads from the request and the session.
    [reg_attempt] is [sess.Values["register_attempt"]]. *)
Record RegisterRequest : Type := mkRegisterRequest {
  reg_attempt : option Z;
  reg_name : string;              (* r.FormValue("name") *)
  reg_email : string;             (* r.FormValue("email") *)
  reg_password : string;          (* r.FormValue("password") *)
  reg_recaptcha : bool            (* recaptcha.Verified(r) *)
}.

Section Accounts.

(** The [passhash] package, [view.AuthorizedCharsOnly] and
    [strings.ToLower]: none of them is among the sources. *)
Variable MatchString : string -> string -> bool.
Variable HashString : string -> string * option error.
Variable AuthorizedCharsOnly : string -> bool.
Variable ToLower : string -> string.

Definition ResetPasswordWithCurrentPOST (r : PasswordRequest) : M Answer :=
  match pw_name r with
  | None => ret (HttpError "User not logged in or session invalid" 401)
  | Some username =>
      if username =? "" then
        ret (HttpError "User not logged in or session invalid" 401)
      else
        let currentPassword := pw_current r in
        let newPassword := pw_new r in
        let newPasswordVerify := pw_verify r in
        if (newPassword =? "") || (newPasswordVerify =? "") then
          ret (HttpError "New password fields cannot be empty" 400)
        else if negb (newPassword =? newPasswordVerify) then
          ret (HttpError "Passwords do not match" 400)
        else if (String.length newPassword <? 8)%nat then
          ret (HttpError "New password must be at least 8 characters long" 400)
        else
          '(user, err) <- UserByName username ;;
          match err with
          | Some e =>
              Println ("Error: User not found: " ++ Error e) ;;
              ret (HttpError "User not found" 400)
          | None =>
              if negb (MatchString (User_Password user) currentPassword) then
                ret (HttpError "Current password is incorrect" 401)
              else
                let '(hashedNewPassword, err) := HashString newPassword in
                match err with
                | Some e =>
                    Println ("Error hashing new password: " ++ Error e) ;;
                    ret (HttpError "Could not hash new password" 500)
                | None =>
                    err <- UpdateUserPassword username hashedNewPassword ;;
                    match err with
                    | Some e =>
                        Println ("Error updating user password: " ++ Error e) ;;
                        ret (HttpError "Could not update password" 500)
                    | None =>
                        ret (Written 200
                               "Password has been successfully updated")
                    end
                end
          end
  end.

(** [RegisterGET]: the form, refilled with the name and the email of the
    request. *)
Definition RegisterGET (r : RegisterRequest) : M Answer :=
  ret (RegisterForm (reg_name r) (reg_email r)).

Definition RegisterPOST (r : RegisterRequest) : M Answer :=
  if match reg_attempt r with
     | Some n => (5 <=? n)%Z
     | None => false
     end
  then
    Println "Brute force register prevented" ;;
    ret (Found "/register")
  else
    let '(validate, missingField) :=
      Validate [("name", reg_name r); ("email", reg_email r);
                ("password", reg_password r)]
               ["name"; "email"; "password"] in
    if negb validate then
      AddFlash (mkFlash ("Field missing: " ++ missingField) FlashError) ;;
      RegisterGET r
    else if negb (reg_recaptcha r) then
      AddFlash (mkFlash "reCAPTCHA invalid!" FlashError) ;;
      RegisterGET r
    else
      let name := reg_name r in
      let email := ToLower (reg_email r) in
      let '(password, errp) := HashString (reg_password r) in
      if negb (AuthorizedCharsOnly name) || negb (AuthorizedCharsOnly email)
      then
        AddFlash (mkFlash "Non allowed chars" FlashError) ;;
        RegisterGET r
      else
        match errp with
        | Some e =>
            Println (Error e) ;;
            AddFlash
              (mkFlash
                 "An error occurred on the server. Please try again later."
                 FlashError) ;;
            ret (Found "/register")
        | None =>
            '(_, errmail) <- UserByMail email ;;
            if match errmail with
               | Some ErrNoResult => false
               | _ => true
               end
            then
              AddFlash
                (mkFlash ("Account already exists for: " ++ email) FlashError) ;;
              RegisterGET r
            else
              '(_, err) <- UserByName name ;;
              match err with
              | Some ErrNoResult =>
                  ex <- UserCreate name email password ;;
                  match ex with
                  | Some e =>
                      Println (Error e) ;;
                      AddFlash
                        (mkFlash
                           "An error occurred on the server. Please try again later."
                           FlashError) ;;
                      RegisterGET r
                  | None =>
                      AddFlash
                        (mkFlash ("Account created successfully for: " ++ name)
                                 FlashSuccess) ;;
                      ret (Found "/login")
                  end
              | Some e =>
                  Println (Error e) ;;
                  AddFlash
                    (mkFlash
                       "An error occurred on the server. Please try again later."
                       FlashError) ;;
                  RegisterGET r
              | None =>
                  AddFlash
                    (mkFlash ("Account already exists for: " ++ name)
                             FlashError) ;;
                  RegisterGET r
              end
        end.

End Accounts.

(* ------------------------------------------------------------------ *)
(** ** Package [controller]: the pages of the users *)

(** [model.SolutionExtended]: a solution with the hex id and the name of
    its crackme. *)
Record SolutionExtended : Type := mkSolutionExtended {
  Ext_Solution : Solution;
  Ext_Crackmeshexid : string;
  Ext_Crackmename : string
}.

(** What the pages of user.go and index.go send back: [Error404],
    [Error500] (two handlers that are not among the sources), or a rendered
    view with its variables. *)
Inductive Page : Type :=
| Error404
| Error500
| IndexRead (nbusers nbsolutions nbcrackmes : Z)
| UserRead (username : string) (NbCrackmes NbSolutions NbComments : Z)
           (crackmes : list Crackme) (solutions : list SolutionExtended)
           (comments : list Comment) (viewingOwnPage : bool)
| UsersRead (users : list User).

(** [type By func(p1, p2 *model.User) bool] *)
Definition By : Type := User -> User -> bool.

(** [By.Sort]: [sort.Sort] with the closure as [Less].  The result has no
    two users out of order; among the orders that [sort.Sort] may give, the
    model takes the one that keeps equal users in place. *)
Definition By_Sort (by_ : By) (users : list User) : list User :=
  sort_by (fun p1 p2 => negb (by_ p2 p1)) users.

(** The assignments [user.NbSolutions = nbSolutions] and so on. *)
Definition set_counts (nbCrackmes nbSolutions nbComments : Z) (u : User)
  : User :=
  mkUser (User_ObjectId u) (User_HexId u) (User_Name u) (User_Email u)
         (User_Password u) (User_Visible u) (User_Deleted u)
         nbCrackmes nbSolutions nbComments.

Section UserPages.

(** Three accessors of crackme.go, which is not among the sources. *)
Variable CrackmesByUser : string -> M (list Crackme * option error).
Variable CountCrackmesByUser : string -> M (Z * option error).
Variable CountCrackmes : M (Z * option error).

Definition IndexGET : M Page :=
  '(nbusers, err) <- CountUsers ;;
  match err with
  | Some _ => Println_err err ;; ret Error500
  | None =>
  '(nbcrackmes, err) <- CountCrackmes ;;
  match err with
  | Some _ => Println_err err ;; ret Error500
  | None =>
  '(nbsolutions, err) <- CountSolutions ;;
  match err with
  | Some _ => Println_err err ;; ret Error500
  | None => ret (IndexRead nbusers nbsolutions nbcrackmes)
  end end end.

(** The loop of [UserGET] over the solutions; nothing when it returned
    with [Error500]. *)
Fixpoint UserGET_solutions (solutions : list Solution)
  : M (option (list SolutionExtended)) :=
  match solutions with
  | [] => ret (Some [])
  | s :: rest =>
      let Crackmeshexid := Hex (Solution_CrackmeId s) in
      '(tmpcrackme, err) <- CrackmeByHexId Crackmeshexid ;;
      match err with
      | Some _ => Println_err err ;; ret None
      | None =>
          rest' <- UserGET_solutions rest ;;
          match rest' with
          | Some solutionsext =>
              ret (Some (mkSolutionExtended s Crackmeshexid
                                            (Crackme_Name tmpcrackme)
                           :: solutionsext))
          | None => ret None
          end
      end
  end.

(** [sess] is [sess.Values["name"]]. *)
Definition UserGET (name : string) (sess : option string) : M Page :=
  '(user, err) <- UserByName name ;;
  match err with
  | Some _ => Println_err err ;; ret Error404
  | None =>
  let actualUsername := User_Name user in
  '(crackmes, err) <- CrackmesByUser actualUsername ;;
  match err with
  | Some _ => Println_err err ;; ret Error500
  | None =>
  '(nbCrackmes, err) <- CountCrackmesByUser actualUsername ;;
  match err with
  | Some _ => Println_err err ;; ret Error500
  | None =>
  '(nbSolutions, err) <- CountSolutionsByUser actualUsername ;;
  match err with
  | Some _ => Println_err err ;; ret Error500
  | None =>
  '(nbComments, err) <- CountCommentsByUser actualUsername ;;
  match err with
  | Some _ => Println_err err ;; ret Error500
  | None =>
  '(solutions, err) <- SolutionsByUser actualUsername ;;
  match err with
  | Some _ => Println_err err ;; ret Error500
  | None =>
  '(comments, err) <- CommentsByUser actualUsername ;;
  match err with
  | Some _ => Println_err err ;; ret Error500
  | None =>
  solutionsext <- UserGET_solutions solutions ;;
  match solutionsext with
  | None => ret Error500
  | Some solutionsext =>
      let sessionUsername :=
        match sess with
        | Some n => n
        | None => ""
        end in
      let viewingOwnPage :=
        negb (sessionUsername =? "") && (sessionUsername =? actualUsername) in
      let user := set_counts nbCrackmes nbSolutions nbComments user in
      ret (UserRead (User_Name user) (User_NbCrackmes user)
                    (User_NbSolutions user) (User_NbComments user)
                    crackmes solutionsext comments viewingOwnPage)
  end end end end end end end end.

(** The loop of [UsersGET]: the counts are assigned to the loop variable,
    which is a copy of the element; the slice is left as it is.  The
    answer, when the loop returned early. *)
Fixpoint UsersGET_counts (users : list User) : M (option Page) :=
  match users with
  | [] => ret None
  | user :: rest =>
      '(nbSolutions, err) <- CountSolutionsByUser (User_Name user) ;;
      match err with
      | Some _ => Println_err err ;; ret (Some Error500)
      | None =>
      '(nbComments, err) <- CountCommentsByUser (User_Name user) ;;
      match err with
      | Some _ => Println_err err ;; ret (Some Error500)
      | None =>
      '(nbCrackmes, err) <- CountCrackmesByUser (User_Name user) ;;
      match err with
      | Some _ => Println_err err ;; ret (Some Error500)
      | None =>
          let user := set_counts nbCrackmes nbSolutions nbComments user in
          UsersGET_counts rest
      end end end
  end.

Definition UsersGET : M Page :=
  '(users, err) <- AllUsersVisible ;;
  let name : By := fun p1 p2 => (User_Name p1 <? User_Name p2)%string in
  let users := By_Sort name users in
  match err with
  | Some _ => Println_err err ;; ret Error500
  | None =>
      returned <- UsersGET_counts users ;;
      match returned with
      | Some page => ret page
      | None => ret (UsersRead users)
      end
  end.

End UserPages.

(* ------------------------------------------------------------------ *)
(** ** Vocabulary of the properties *)

(** [keeps f m]: running [m] does not change what [f] reads off the
    world. *)
Definition keeps {A X : Type} (f : World -> X) (m : M A) : Prop :=
  forall w, f (snd (m w)) = f w.

(** [wp m Q w]: the answer of [m] in [w] and the world it leaves satisfy
    [Q]. *)
Definition wp {A : Type} (m : M A) (Q : A -> World -> Prop) (w : World)
  : Prop :=
  Q (fst (m w)) (snd (m w)).

(** A rejected upload: the form is shown again with one more error flash;
    the payload was not read, nothing was written to disk and no solution
    was stored. *)
Definition rejected_with (msg : string) (w : World) (reply : Reply)
    (w' : World) : Prop :=
  upload_footprint w' = upload_footprint w /\
  (exists vars, reply = Render "solution/create" vars) /\
  flashes w' = flashes w ++ [mkFlash msg FlashError].

Definition rejected_upload (w : World) (reply : Reply) (w' : World) : Prop :=
  exists msg, rejected_with msg w reply w'.

(** What an upload does to the disk: the storage configuration stays, and
    either no file is written and the answer is not the redirect of a
    success, or one file is written, at a path that passed the prefix
    check against the storage root, and the answer is that redirect. *)
Definition upload_outcome (sanitize_Name : string -> string)
    (r : UploadRequest) (w : World) (reply : Reply) (w' : World) : Prop :=
  config w' = config w /\
  ((disk w' = disk w /\ forall url, reply <> Redirect url) \/
   exists hexid header data,
     up_file r = Some (header, Some data) /\
     HasPrefix
       (Clean (stored_path sanitize_Name (SolutionPath (config w)) (up_name r)
                           hexid (Filename header)))
       (SolutionPath (config w) ++ String Separator "") = true /\
     disk w' =
       disk w ++
       [(stored_path sanitize_Name (SolutionPath (config w)) (up_name r)
                     hexid (Filename header), data)] /\
     reply = Redirect ("/user/" ++ up_name r)).

(** An element without a separator. *)
Fixpoint no_slash (e : string) : bool :=
  match e with
  | EmptyString => true
  | String c e' => negb (IsPathSeparator c) && no_slash e'
  end.

(** An element that [Clean] writes to its output after the leading [..]
    elements. *)
Definition kept_name (e : string) : Prop :=
  plain_name e = true /\ no_slash e = true.

(** An element that is not empty and holds no separator. *)
Definition solid (e : string) : Prop := e <> "" /\ no_slash e = true.

(** A name in lower case, a name without a metacharacter of regular
    expressions, and the pattern items of such a name. *)
Fixpoint lower (s : string) : string :=
  match s with
  | EmptyString => ""
  | String c s' => String (to_lower c) (lower s')
  end.

Fixpoint literal_name (s : string) : bool :=
  match s with
  | EmptyString => true
  | String c s' => negb (is_meta c) && literal_name s'
  end.

Fixpoint literal_items (s : string) : list ReItem :=
  match s with
  | EmptyString => []
  | String c s' => ReChar c :: literal_items s'
  end.

(* ------------------------------------------------------------------ *)
(** ** Sample data *)

(** Modelled from the spec: the [sanitize] package is not part of the
    repository.  File name sanitization removes the characters outside an
    explicit allow-list; the list here has the letters, the digits, the
    dash and the dot. *)
Definition allowed_in_name (c : ascii) : bool :=
  let n := N_of_ascii c in
  (((48 <=? n) && (n <=? 57)) || ((65 <=? n) && (n <=? 90))
   || ((97 <=? n) && (n <=? 122)) || (n =? 45) || (n =? 46))%N.

Fixpoint keep_allowed (s : string) : string :=
  match s with
  | EmptyString => ""
  | String c s' =>
      if allowed_in_name c then String c (keep_allowed s') else keep_allowed s'
  end.

Definition no_env (name : string) : string := "".

Definition sample_crackme : Crackme :=
  mkCrackme 0x507f1f77bcf86cd799439011%N "507f1f77bcf86cd799439011"
            "keygenme" "" "C" "x86" "bob" 100%Z true false 0%Z 0%Z "Linux".

Definition sample_store : Store := mkStore [] [sample_crackme] [] [] [].

(** A world with a connection, the default storage roots and a crackme by
    bob. *)
Definition sample_world : World :=
  mkWorld true sample_store 0x507f191e810c19729de860ea%N 1000%Z
          (Configure no_env) [] true [] [].

(** The same world without a connection to the store. *)
Definition offline_world : World :=
  mkWorld false sample_store 0x507f191e810c19729de860ea%N 1000%Z
          (Configure no_env) [] true [] [].

Definition elvis : User :=
  mkUser 0x507f1f77bcf86cd799439012%N "507f1f77bcf86cd799439012" "elvis"
         "elvis@example.com" "hash" true false 0%Z 0%Z 0%Z.

Definition elvis_world : World :=
  mkWorld true (mkStore [elvis] [] [] [] []) 1%N 1000%Z
          (Configure no_env) [] true [] [].

(** A comment and a solution on the sample crackme that are both visible
    and deleted. *)
Definition deleted_comment : Comment :=
  mkComment 7%N "nice one" "alice" "507f1f77bcf86cd799439011" "keygenme"
            500%Z true true.

Definition deleted_solution : Solution :=
  mkSolution 8%N (Hex 8%N) "writeup" 0x507f1f77bcf86cd799439011%N
             "507f1f77bcf86cd799439011" "keygenme" 600%Z "alice" true true.

Definition deleted_world : World :=
  mkWorld true
          (mkStore [] [sample_crackme] [deleted_solution] [deleted_comment] [])
          9%N 1000%Z (Configure no_env) [] true [] [].

(** The same document with its deleted flag set to [b]. *)
Definition set_Comment_Deleted (b : bool) (c : Comment) : Comment :=
  mkComment (Comment_ObjectId c) (Comment_Content c) (Comment_Author c)
            (Comment_CrackMeHexId c) (Comment_CrackmeName c)
            (Comment_CreatedAt c) (Comment_Visible c) b.

Definition set_Solution_Deleted (b : bool) (s : Solution) : Solution :=
  mkSolution (Solution_ObjectId s) (Solution_HexId s) (Solution_Info s)
             (Solution_CrackmeId s) (Solution_CrackmeHexId s)
             (Solution_CrackmeName s) (Solution_CreatedAt s)
             (Solution_Author s) (Solution_Visible s) b.

(** Sixty visible comments by alice, created one after the other. *)
Definition numbered_comment (i : nat) : Comment :=
  mkComment (N.of_nat i) "well done" "alice" "507f1f77bcf86cd799439011"
            "keygenme" (Z.of_nat i) true false.

Definition busy_world : World :=
  mkWorld true
          (mkStore [] [sample_crackme] [] (map numbered_comment (seq 1 60)) [])
          61%N 1000%Z (Configure no_env) [] true [] [].

(** An upload by alice for the sample crackme whose header declares [n]
    bytes. *)
Definition upload_of_size (n : Z) : UploadRequest :=
  mkUploadRequest "alice" "507f1f77bcf86cd799439011" "writeup"
                  (Some (mkFileHeader "solve.zip" n, Some "data")) true.

(** The world after alice has uploaded a first solution for the sample
    crackme, and the record that upload stored. *)
Definition after_first_upload : World :=
  snd (UploadSolutionPOST (fun s => s) keep_allowed (upload_of_size 4)
                          sample_world).

Definition first_solution : Solution :=
  mkSolution 0x507f191e810c19729de860ea%N "507f191e810c19729de860ea"
             "writeup" 0x507f1f77bcf86cd799439011%N
             "507f1f77bcf86cd799439011" "keygenme" 1000%Z "alice" false false.

(** An upload by alice for a crackme that does not exist. *)
Definition upload_for_unknown_crackme : UploadRequest :=
  mkUploadRequest "alice" "ffffffffffffffffffffffff" "writeup"
                  (Some (mkFileHeader "solve.zip" 4, Some "data")) true.

(** An upload by alice whose file name climbs out of the directory. *)
Definition traversal_upload : UploadRequest :=
  mkUploadRequest "alice" "507f1f77bcf86cd799439011" "writeup"
                  (Some (mkFileHeader "../../etc/passwd" 4, Some "data")) true.

(* ------------------------------------------------------------------ *)
(** ** Vocabulary of the further properties *)

(** The filter of [CrackmeByHexId]. *)
Definition crackme_with_hexid (hexid : string) (c : Crackme) : bool :=
  bson_string_omitempty (Crackme_HexId c) hexid.

(** The record that [SolutionCreate] stores for a crackme. *)
Definition new_solution (w : World) (info username : string) (c : Crackme)
  : Solution :=
  mkSolution (fresh w) (Hex (fresh w)) info (Crackme_ObjectId c)
             (Crackme_HexId c) (Crackme_Name c) (clock w) username false false.

(** The record that [CommentCreate] stores. *)
Definition new_comment (w : World) (content username crackmehexid : string)
    (c : Crackme) : Comment :=
  mkComment (fresh w) content username crackmehexid (Crackme_Name c) (clock w)
            true false.

(** The record that [UserCreate] stores. *)
Definition new_user (w : World) (name email password : string) : User :=
  mkUser (fresh w) (Hex (fresh w)) name email password true false 0%Z 0%Z 0%Z.

(** The filters of the accessors of solution.go and comment.go. *)
Definition visible_by_author (username : string) (s : Solution) : bool :=
  bson_string_omitempty (Solution_Author s) username
  && bson_bool (Solution_Visible s) true.

Definition visible_of_crackme (objid : ObjectID) (s : Solution) : bool :=
  bson_oid_omitempty (Solution_CrackmeId s) objid
  && bson_bool (Solution_Visible s) true.

Definition visible_with_hexid (hexid : string) (s : Solution) : bool :=
  bson_string_omitempty (Solution_HexId s) hexid
  && bson_bool (Solution_Visible s) true.

Definition visible_on_crackme (hexid : string) (c : Comment) : bool :=
  bson_string_omitempty (Comment_CrackMeHexId c) hexid
  && bson_bool (Comment_Visible c) true.

Definition by_user_on_crackme (username : string) (objid : ObjectID)
    (s : Solution) : bool :=
  bson_oid_omitempty (Solution_CrackmeId s) objid
  && bson_string_omitempty (Solution_Author s) username.

(** The filter of [UserByHexId]. *)
Definition user_with_hexid (hexid : string) (u : User) : bool :=
  bson_string_omitempty (User_HexId u) hexid.

(** The filter of [CountCommentsByUser]. *)
Definition by_author (username : string) (c : Comment) : bool :=
  bson_string_omitempty (Comment_Author c) username.

(** The five collections and the disk. *)
Definition stored_of (w : World)
  : list User * list Crackme * list Solution * list Comment
    * list Notification * list (string * string) :=
  (user (db w), crackme (db w), solution (db w), comment (db w),
   notification (db w), disk w).

(** The same world with another trace. *)
Definition retrace (w : World) (t : list Event) : World :=
  mkWorld (connection w) (db w) (fresh w) (clock w) (config w) (disk w)
          (disk_ok w) (flashes w) t.

(** A registration form that is complete and passes the checks made before
    the store is asked. *)
Definition well_formed_registration
    (HashString : string -> string * option error)
    (AuthorizedCharsOnly : string -> bool) (ToLower : string -> string)
    (r : RegisterRequest) : Prop :=
  (forall n, reg_attempt r = Some n -> (n < 5)%Z) /\
  reg_name r <> "" /\ reg_email r <> "" /\ reg_password r <> "" /\
  reg_recaptcha r = true /\
  AuthorizedCharsOnly (reg_name r) = true /\
  AuthorizedCharsOnly (ToLower (reg_email r)) = true /\
  snd (HashString (reg_password r)) = None.

(** What a run of [RegisterPOST] comes to. *)
Definition registration_outcome
    (HashString : string -> string * option error)
    (AuthorizedCharsOnly : string -> bool) (ToLower : string -> string)
    (r : RegisterRequest) (w : World) (answer : Answer) (w' : World) : Prop :=
  connection w' = connection w /\
  crackme (db w') = crackme (db w) /\ solution (db w') = solution (db w) /\
  comment (db w') = comment (db w) /\
  notification (db w') = notification (db w) /\
  (answer <> Found "/login" /\ user (db w') = user (db w) \/
   answer = Found "/login" /\
   connection w = true /\
   well_formed_registration HashString AuthorizedCharsOnly ToLower r /\
   snd (fst (UserByMail (ToLower (reg_email r)) w)) = Some ErrNoResult /\
   snd (fst (UserByName (reg_name r) w)) = Some ErrNoResult /\
   user (db w') =
     user (db w)
     ++ [new_user w (reg_name r) (ToLower (reg_email r))
                  (fst (HashString (reg_password r)))] /\
   flashes w' =
     flashes w
     ++ [mkFlash ("Account created successfully for: " ++ reg_name r)
                 FlashSuccess]).

(** The calls to the driver that a world has seen. *)
Definition is_driver_call (e : Event) : bool :=
  match e with
  | EvDriver _ _ => true
  | _ => false
  end.

Definition driver_calls (w : World) : list Event :=
  filter is_driver_call (trace w).

(** An address whose only metacharacter is the dot, and the pattern items
    it is compiled to: the dot is read as a wildcard. *)
Fixpoint dotted_name (s : string) : bool :=
  match s with
  | EmptyString => true
  | String c s' => ((c =? ".")%char || negb (is_meta c)) && dotted_name s'
  end.

Fixpoint dotted_items (s : string) : list ReItem :=
  match s with
  | EmptyString => []
  | String c s' =>
      (if (c =? ".")%char then ReAny else ReChar c) :: dotted_items s'
  end.

(** An accessor that, with a connection, answers without an error and
    changes nothing but the trace. *)
Definition reads_only {A B : Type} (f : A -> M (B * option error)) : Prop :=
  forall a w, connection w = true ->
              exists b t, f a w = ((b, None), retrace w t).

(** An accessor of the model that, with a connection, answers without an
    error, changes nothing but the trace, and answers the same whatever the
    trace is. *)
Definition plain_read {A B : Type} (f : A -> M (B * option error)) : Prop :=
  forall a w, connection w = true ->
    (exists t, snd (f a w) = retrace w t) /\
    snd (fst (f a w)) = None /\
    forall t, fst (f a (retrace w t)) = fst (f a w).

(** The crackme of a solution is stored under the hex form of the
    identifier that the solution holds. *)
Definition crackme_stored (w : World) (s : Solution) : Prop :=
  exists c,
    find (crackme_with_hexid (Hex (Solution_CrackmeId s))) (crackme (db w))
      = Some c.

(** The flag [viewingOwnPage] of [UserGET]. *)
Definition own_page (sess : option string) (actualUsername : string) : bool :=
  match sess with
  | Some sessionUsername =>
      negb (sessionUsername =? "") && (sessionUsername =? actualUsername)
  | None => false
  end.

(* ------------------------------------------------------------------ *)
(** ** Further sample data *)

(** A world whose disk refuses every write. *)
Definition full_disk_world : World :=
  mkWorld true sample_store 0x507f191e810c19729de860ea%N 1000%Z
          (Configure no_env) [] false [] [].

(** A stand-in for the [passhash] package, which is not among the sources:
    the hash of a password is the password after a marker. *)
Definition marked_hash (password : string) : string * option error :=
  (("hash:" ++ password)%string, None).

Definition marked_match (hash password : string) : bool :=
  hash =? fst (marked_hash password).

Definition hashed_elvis_world : World :=
  mkWorld true
          (mkStore [set_Password "hash:old secret" elvis] [] [] [] [])
          1%N 1000%Z (Configure no_env) [] true [] [].

(** A stand-in for [view.AuthorizedCharsOnly], which is not among the
    sources; [lower] stands in for [strings.ToLower]. *)
Definition any_chars (s : string) : bool := true.

Definition sample_registration : RegisterRequest :=
  mkRegisterRequest None "Elvis" "King@Example.com" "secret" true.

(** Stand-ins for the two accessors of crackme.go, for the examples: the
    crackmes whose author is the user, and their number. *)
Definition sample_CrackmesByUser (username : string)
  : M (list Crackme * option error) :=
  fun w => ((filter (fun c => Crackme_Author c =? username) (crackme (db w)),
             None), w).

Definition sample_CountCrackmesByUser (username : string)
  : M (Z * option error) :=
  fun w => ((Z.of_nat
               (length (filter (fun c => Crackme_Author c =? username)
                               (crackme (db w)))), None), w).

(** Two visible users, stored out of order, with counters that are not
    zero. *)
Definition zed : User :=
  mkUser 0x507f1f77bcf86cd799439013%N "507f1f77bcf86cd799439013" "zed"
         "zed@example.com" "hash" true false 5%Z 6%Z 7%Z.

Definition two_users_world : World :=
  mkWorld true (mkStore [zed; elvis] [sample_crackme] [] [] []) 1%N 1000%Z
          (Configure no_env) [] true [] [].

(** A visible solution of elvis for a crackme that is not stored. *)
Definition dangling_solution : Solution :=
  mkSolution 9%N (Hex 9%N) "writeup" 0x507f1f77bcf86cd7994390ff%N
             "507f1f77bcf86cd7994390ff" "gone" 700%Z "elvis" true false.

Definition dangling_world : World :=
  mkWorld true (mkStore [elvis] [sample_crackme] [dangling_solution] [] [])
          10%N 1000%Z (Configure no_env) [] true [] [].

(** A stand-in for [CountCrackmes], for the examples. *)
Definition sample_CountCrackmes : M (Z * option error) :=
  fun w => ((Z.of_nat (length (crackme (db w))), None), w).

(* ================================================================== *)
(** * Properties *)

(** ** Running computations *)

Lemma bind_run {A B : Type} (m : M A) (k : A -> M B) (w : World) :
  bind m k w = k (fst (m w)) (snd (m w)).
Proof. unfold bind. destruct (m w); reflexivity. Qed.

Lemma driver_connected {A R : Type} (op : string) (c : Collection A)
    (failed : R) (run : list A -> R * list A) (w : World) :
  connection w = true ->
  driver op c failed run w =
    ((fst (run (coll_get c (db w))), None),
     mkWorld true (coll_set c (snd (run (coll_get c (db w)))) (db w))
             (fresh w) (clock w) (config w) (disk w) (disk_ok w) (flashes w)
             (trace w ++ [EvDriver op (coll_name c)])).
Proof.
  intros Hc. unfold driver, bind, emit, with_db. cbn. rewrite Hc.
  destruct (run (coll_get c (db w))); reflexivity.
Qed.

Lemma driver_offline {A R : Type} (op : string) (c : Collection A)
    (failed : R) (run : list A -> R * list A) (w : World) :
  connection w = false ->
  driver op c failed run w =
    ((failed, Some ErrDriver),
     mkWorld false (db w) (fresh w) (clock w) (config w) (disk w) (disk_ok w)
             (flashes w) (trace w ++ [EvDriver op (coll_name c)])).
Proof.
  intros Hc. unfold driver, bind, emit. cbn. rewrite Hc. reflexivity.
Qed.

(** ** Sorting *)

Section Sorting.

Context {A : Type} (leb : A -> A -> bool).

Hypothesis leb_total : forall a b, leb a b = true \/ leb b a = true.
Hypothesis leb_trans :
  forall a b c, leb a b = true -> leb b c = true -> leb a c = true.

Lemma insert_by_perm (x : A) (l : list A) :
  Permutation (insert_by leb x l) (x :: l).
Proof.
  induction l as [|y l IH]; cbn.
  - apply Permutation_refl.
  - destruct (leb x y).
    + apply Permutation_refl.
    + eapply perm_trans; [apply perm_skip, IH | apply perm_swap].
Qed.

Lemma sort_by_perm (l : list A) : Permutation (sort_by leb l) l.
Proof.
  induction l as [|x l IH]; cbn.
  - apply perm_nil.
  - eapply perm_trans; [apply insert_by_perm | apply perm_skip, IH].
Qed.

Lemma insert_by_sorted (x : A) (l : list A) :
  StronglySorted (fun a b => leb a b = true) l ->
  StronglySorted (fun a b => leb a b = true) (insert_by leb x l).
Proof.
  induction 1 as [|y l Hs IH Hall]; cbn.
  - repeat constructor.
  - destruct (leb x y) eqn:Hxy.
    + constructor; [constructor; assumption|].
      constructor; [assumption|].
      eapply Forall_impl; [|exact Hall].
      intros z Hz. eapply leb_trans; eassumption.
    + constructor; [exact IH|].
      assert (Hyx : leb y x = true).
      { destruct (leb_total x y) as [H|H]; [congruence | exact H]. }
      eapply Permutation_Forall.
      * apply Permutation_sym, insert_by_perm.
      * constructor; assumption.
Qed.

Lemma sort_by_sorted (l : list A) :
  StronglySorted (fun a b => leb a b = true) (sort_by leb l).
Proof.
  induction l as [|x l IH]; cbn.
  - constructor.
  - apply insert_by_sorted, IH.
Qed.

End Sorting.

Lemma StronglySorted_app_inv {A : Type} (R : A -> A -> Prop) (l1 l2 : list A) :
  StronglySorted R (l1 ++ l2) ->
  StronglySorted R l1 /\ forall a b, In a l1 -> In b l2 -> R a b.
Proof.
  induction l1 as [|x l1 IH]; cbn; intros Hs.
  - split; [constructor | intros a b []].
  - inversion Hs as [|? ? Hs' Hall]; subst.
    destruct (IH Hs') as [IH1 IH2].
    apply Forall_app in Hall. destruct Hall as [Hall1 Hall2].
    split; [constructor; assumption|].
    intros a b [<-|Ha] Hb.
    + rewrite Forall_forall in Hall2. apply Hall2, Hb.
    + apply IH2; assumption.
Qed.

Lemma StronglySorted_weaken {A : Type} (R R' : A -> A -> Prop) (l : list A) :
  (forall a b, R a b -> R' a b) ->
  StronglySorted R l -> StronglySorted R' l.
Proof.
  intros Himp. induction 1 as [|x l Hs IH Hall]; constructor.
  - exact IH.
  - eapply Forall_impl; [|exact Hall]. intros b. apply Himp.
Qed.

Lemma In_firstn {A : Type} (n : nat) (l : list A) (x : A) :
  In x (firstn n l) -> In x l.
Proof.
  intros Hin. rewrite <- (firstn_skipn n l). apply in_or_app. left. exact Hin.
Qed.

(** ** Listing the comments of a user *)

Lemma CommentsByUser_connected (name : string) (w : World) :
  connection w = true ->
  fst (CommentsByUser name w) =
    (firstn 50 (sort_by Comment_created_at_desc
                  (filter (by_author_visible name) (comment (db w)))),
     None).
Proof.
  intros Hc. unfold CommentsByUser. rewrite bind_run.
  unfold CheckConnection at 1. cbn [fst snd]. rewrite Hc.
  unfold Find. rewrite driver_connected by exact Hc. reflexivity.
Qed.

Lemma created_at_desc_total (a b : Comment) :
  Comment_created_at_desc a b = true \/ Comment_created_at_desc b a = true.
Proof. unfold Comment_created_at_desc. lia. Qed.

Lemma created_at_desc_trans (a b c : Comment) :
  Comment_created_at_desc a b = true -> Comment_created_at_desc b c = true ->
  Comment_created_at_desc a c = true.
Proof. unfold Comment_created_at_desc. lia. Qed.

Lemma by_author_visible_spec (name : string) (c : Comment) :
  by_author_visible name c = true ->
  Comment_Author c = name /\ Comment_Visible c = true.
Proof.
  unfold by_author_visible, bson_string_omitempty, bson_bool.
  rewrite !andb_true_iff. intros [[_ Ha] Hv].
  apply String.eqb_eq in Ha. apply eqb_prop in Hv. auto.
Qed.

(** C10. [CommentsByUser] answers, without an error, the 50 newest visible
    comments of the author, newest first: at most 50 of them, exactly 50
    when more exist, each one a visible comment of the store written by
    that author, in descending order of creation; the matching comments
    that are left out are no newer than any comment that is returned. *)
Theorem CommentsByUser_newest_fifty (name : string) (w : World) :
  connection w = true ->
  let result := fst (fst (CommentsByUser name w)) in
  let err := snd (fst (CommentsByUser name w)) in
  let matching := filter (by_author_visible name) (comment (db w)) in
  err = None /\
  length result <= 50 /\
  length result = Nat.min 50 (length matching) /\
  (forall c, In c result ->
     In c (comment (db w)) /\ Comment_Author c = name /\
     Comment_Visible c = true) /\
  StronglySorted
    (fun a b => (Comment_CreatedAt b <= Comment_CreatedAt a)%Z) result /\
  exists omitted,
    Permutation matching (result ++ omitted) /\
    forall r o, In r result -> In o omitted ->
      (Comment_CreatedAt o <= Comment_CreatedAt r)%Z.
Proof.
  intros Hc. cbv zeta. rewrite (CommentsByUser_connected name w Hc).
  cbn [fst snd].
  set (matching := filter (by_author_visible name) (comment (db w))).
  set (sorted := sort_by Comment_created_at_desc matching).
  assert (Hperm : Permutation sorted matching) by apply sort_by_perm.
  assert (Hsorted :
            StronglySorted (fun a b => Comment_created_at_desc a b = true)
                           sorted).
  { apply sort_by_sorted;
      [apply created_at_desc_total | apply created_at_desc_trans]. }
  rewrite <- (firstn_skipn 50 sorted) in Hsorted.
  apply StronglySorted_app_inv in Hsorted. destruct Hsorted as [Hs1 Hs2].
  split; [reflexivity|].
  split; [apply firstn_le_length|].
  split.
  { rewrite length_firstn. rewrite (Permutation_length Hperm). reflexivity. }
  split.
  { intros c Hin. apply In_firstn in Hin.
    apply (Permutation_in _ Hperm) in Hin. unfold matching in Hin.
    apply filter_In in Hin. destruct Hin as [Hin Hf].
    apply by_author_visible_spec in Hf. tauto. }
  split.
  { eapply StronglySorted_weaken; [|exact Hs1].
    intros a b Hab. unfold Comment_created_at_desc in Hab. lia. }
  exists (skipn 50 sorted). split.
  - rewrite firstn_skipn. apply Permutation_sym, Hperm.
  - intros r o Hr Ho. specialize (Hs2 r o Hr Ho).
    unfold Comment_created_at_desc in Hs2. lia.
Qed.

Lemma CommentsByUser_newest_fifty_witness :
  connection busy_world = true /\
  length (fst (fst (CommentsByUser "alice" busy_world))) = 50 /\
  Forall (fun c => (11 <= Comment_CreatedAt c)%Z)
         (fst (fst (CommentsByUser "alice" busy_world))).
Proof.
  split; [reflexivity|].
  pose proof (CommentsByUser_newest_fifty "alice" busy_world eq_refl) as H.
  cbv zeta in H. destruct H as (_ & _ & Hlen & _ & _ & _).
  split; [exact Hlen|].
  vm_compute. repeat constructor; discriminate.
Defined.

(** ** Counting the solutions and comments of a crackme *)

Lemma filter_map_length {A : Type} (f : A -> bool) (g : A -> A) (l : list A) :
  (forall x, f (g x) = f x) ->
  length (filter f (map g l)) = length (filter f l).
Proof.
  intros Hfg. induction l as [|x l IH]; cbn; [reflexivity|].
  rewrite Hfg. destruct (f x); cbn; rewrite IH; reflexivity.
Qed.

Lemma CountCommentsByCrackme_connected (hex : string) (w : World) :
  connection w = true ->
  fst (CountCommentsByCrackme hex w) =
    (Z.of_nat
       (length
          (filter (fun c =>
                     bson_string_omitempty (Comment_CrackMeHexId c) hex
                     && bson_bool (Comment_Visible c) true)
                  (comment (db w)))),
     None).
Proof.
  intros Hc. unfold CountCommentsByCrackme. rewrite bind_run.
  unfold CheckConnection at 1. cbn [fst snd]. rewrite Hc.
  rewrite bind_run. unfold CountDocuments.
  rewrite driver_connected by exact Hc. reflexivity.
Qed.

Lemma CountSolutionsByCrackme_connected (hex : string) (w : World) :
  connection w = true ->
  fst (CountSolutionsByCrackme hex w) =
    (Z.of_nat
       (length
          (filter (fun s =>
                     bson_oid_omitempty (Solution_CrackmeId s)
                                        (fst (ObjectIDFromHex hex))
                     && bson_bool (Solution_Visible s) true)
                  (solution (db w)))),
     None).
Proof.
  intros Hc. unfold CountSolutionsByCrackme. rewrite bind_run.
  unfold CheckConnection at 1. cbn [fst snd]. rewrite Hc.
  destruct (ObjectIDFromHex hex) as [objid e]. cbn [fst].
  rewrite bind_run. unfold CountDocuments.
  rewrite driver_connected by exact Hc. reflexivity.
Qed.

(** C4, as stated, fails: in [deleted_world] every solution and every
    comment is deleted, and both counts of the crackme are 1. *)
Lemma counts_by_crackme_include_deleted :
  fst (CountCommentsByCrackme "507f1f77bcf86cd799439011" deleted_world)
    = (1%Z, None) /\
  fst (CountSolutionsByCrackme "507f1f77bcf86cd799439011" deleted_world)
    = (1%Z, None) /\
  Forall (fun c => Comment_Deleted c = true) (comment (db deleted_world)) /\
  Forall (fun s => Solution_Deleted s = true) (solution (db deleted_world)).
Proof. repeat split; repeat constructor. Qed.

(** C4, amended. With a connection, [CountCommentsByCrackme] and
    [CountSolutionsByCrackme] count exactly the entities of the crackme
    whose visible flag is set.  The deleted flag is not consulted: setting
    it in any way on the stored entities leaves both counts as they are, so
    a deleted entity is left out only when it is not visible. *)
Theorem counts_by_crackme_follow_visible (hex : string) (w : World) :
  connection w = true ->
  fst (CountCommentsByCrackme hex w) =
    (Z.of_nat
       (length
          (filter (fun c =>
                     bson_string_omitempty (Comment_CrackMeHexId c) hex
                     && Comment_Visible c)
                  (comment (db w)))),
     None) /\
  fst (CountSolutionsByCrackme hex w) =
    (Z.of_nat
       (length
          (filter (fun s =>
                     bson_oid_omitempty (Solution_CrackmeId s)
                                        (fst (ObjectIDFromHex hex))
                     && Solution_Visible s)
                  (solution (db w)))),
     None) /\
  forall (dc : Comment -> bool) (ds : Solution -> bool),
    let w' :=
      with_db
        (mkStore (user (db w)) (crackme (db w))
                 (map (fun s => set_Solution_Deleted (ds s) s) (solution (db w)))
                 (map (fun c => set_Comment_Deleted (dc c) c) (comment (db w)))
                 (notification (db w)))
        w in
    fst (CountCommentsByCrackme hex w') = fst (CountCommentsByCrackme hex w) /\
    fst (CountSolutionsByCrackme hex w') = fst (CountSolutionsByCrackme hex w).
Proof.
  intros Hc.
  rewrite (CountCommentsByCrackme_connected hex w Hc).
  rewrite (CountSolutionsByCrackme_connected hex w Hc).
  split; [|split].
  - do 3 f_equal. apply filter_ext. intros c. unfold bson_bool.
    destruct (Comment_Visible c); reflexivity.
  - do 3 f_equal. apply filter_ext. intros s. unfold bson_bool.
    destruct (Solution_Visible s); reflexivity.
  - intros dc ds w'.
    rewrite (CountCommentsByCrackme_connected hex w') by exact Hc.
    rewrite (CountSolutionsByCrackme_connected hex w') by exact Hc.
    unfold w'. cbn [db with_db comment solution].
    split; do 2 f_equal; apply filter_map_length; intros x; reflexivity.
Qed.

Lemma counts_by_crackme_follow_visible_witness :
  connection deleted_world = true /\
  fst (CountCommentsByCrackme "507f1f77bcf86cd799439011" deleted_world) =
    (1%Z, None).
Proof.
  split; [reflexivity|].
  exact (proj1 (counts_by_crackme_follow_visible
                  "507f1f77bcf86cd799439011" deleted_world eq_refl)).
Defined.

(** ** Parts of the world that a computation leaves alone *)


Lemma keeps_ret {A X : Type} (f : World -> X) (a : A) : keeps f (ret a).
Proof. intros w. reflexivity. Qed.

Lemma keeps_bind {A B X : Type} (f : World -> X) (m : M A) (k : A -> M B) :
  keeps f m -> (forall a, keeps f (k a)) -> keeps f (bind m k).
Proof.
  intros Hm Hk w. rewrite bind_run. rewrite Hk. apply Hm.
Qed.

Create HintDb keeps discriminated.

(** A primitive computation keeps [f] when that shows by running it: on
    either answer of the connection or of the disk. *)
Ltac keeps_prim :=
  let w := fresh "w" in
  intros w;
  unfold FindOne, Find, InsertOne, CountDocuments, UpdateOne,
    EstimatedDocumentCount, driver, WriteFile, ReadAll, Println_err, Println,
    AddFlash, emit, NewObjectID, Now, bind, ret;
  cbn;
  repeat match goal with
         | |- context [match ?x with _ => _ end] => destruct x; cbn
         end;
  cbv [crackmes_of files_of upload_state upload_footprint payload_reads];
  cbn [trace disk db solution crackme config flashes];
  rewrite ?filter_app; cbn; rewrite ?app_nil_r;
  reflexivity.

(** One step of a proof of [keeps]: a known computation, a primitive one,
    a bind, or a case distinction. *)
Ltac keeps_step :=
  first
    [ apply keeps_ret
    | solve [ auto with keeps ]
    | solve [ keeps_prim ]
    | apply keeps_bind; [| intros ? ]
    | match goal with
      | |- keeps _ (match ?x with _ => _ end) => destruct x
      end ].

Ltac keeps_auto := cbv zeta; repeat keeps_step.

(** ** Comment creation and the comment counter *)

Lemma keeps_crackmes_CrackmeByHexId (hexid : string) :
  keeps crackmes_of (CrackmeByHexId hexid).
Proof. unfold CrackmeByHexId. keeps_auto. Qed.

Lemma keeps_crackmes_NotificationAdd (recipient message : string) :
  keeps crackmes_of (NotificationAdd recipient message).
Proof. unfold NotificationAdd. keeps_auto. Qed.

#[export] Hint Resolve keeps_crackmes_CrackmeByHexId
  keeps_crackmes_NotificationAdd : keeps.

Lemma keeps_crackmes_CommentCreate (content username crackmehexid : string) :
  keeps crackmes_of (CommentCreate content username crackmehexid).
Proof. unfold CommentCreate. keeps_auto. Qed.

#[export] Hint Resolve keeps_crackmes_CommentCreate : keeps.

Lemma keeps_crackmes_LeaveCommentPOST (sanitize_HTML : string -> string)
    (r : CommentRequest) :
  keeps crackmes_of (LeaveCommentPOST sanitize_HTML r).
Proof. unfold LeaveCommentPOST. keeps_auto. Qed.

(** C3, on the code: neither [CommentCreate] nor [LeaveCommentPOST] ever
    writes to the crackme collection, so no creation of a comment changes
    [NbComments].  On the sample world a comment by alice is created, the
    handler reports success, the comment is stored, and the counter of the
    crackme is still 0. *)
Theorem comment_creation_leaves_NbComments :
  (forall content username crackmehexid w,
     crackme (db (snd (CommentCreate content username crackmehexid w)))
       = crackme (db w)) /\
  (forall sanitize_HTML r w,
     crackme (db (snd (LeaveCommentPOST sanitize_HTML r w)))
       = crackme (db w)) /\
  let r :=
    mkCommentRequest "alice" "507f1f77bcf86cd799439011" "well done" true in
  let w' := snd (LeaveCommentPOST (fun s => s) r sample_world) in
  fst (CommentCreate "well done" "alice" "507f1f77bcf86cd799439011"
                     sample_world) = None /\
  fst (LeaveCommentPOST (fun s => s) r sample_world)
    = Redirect "/crackme/507f1f77bcf86cd799439011" /\
  map Comment_CrackMeHexId (comment (db w')) = ["507f1f77bcf86cd799439011"] /\
  map Crackme_NbComments (crackme (db w')) = [0%Z].
Proof.
  split; [|split].
  - intros. apply keeps_crackmes_CommentCreate.
  - intros. apply keeps_crackmes_LeaveCommentPOST.
  - repeat split; reflexivity.
Qed.

(** ** Operations without a connection *)

(** X1.  The operations of user.go, comment.go and solution.go that ask
    [CheckConnection] first give the unavailability signal without calling
    the driver, with a zero result, and leave the world as it is. *)
Lemma guarded_operations_fail_fast (w : World) (a b c : string)
    (o : ObjectID) :
  connection w = false ->
  CountUsers w = ((0%Z, Some ErrUnavailable), w) /\
  UserByName a w = ((zeroUser, Some ErrUnavailable), w) /\
  UserByMail a w = ((zeroUser, Some ErrUnavailable), w) /\
  UserByHexId a w = ((zeroUser, Some ErrUnavailable), w) /\
  AllUsersVisible w = (([], Some ErrUnavailable), w) /\
  UserCreate a b c w = (Some ErrUnavailable, w) /\
  CountCommentsByUser a w = ((0%Z, Some ErrUnavailable), w) /\
  CountCommentsByCrackme a w = ((0%Z, Some ErrUnavailable), w) /\
  CommentsByUser a w = (([], Some ErrUnavailable), w) /\
  CommentsByCrackMe a w = (([], Some ErrUnavailable), w) /\
  CommentCreate a b c w = (Some ErrUnavailable, w) /\
  CountSolutions w = ((0%Z, Some ErrUnavailable), w) /\
  CountSolutionsByUser a w = ((0%Z, Some ErrUnavailable), w) /\
  CountSolutionsByCrackme a w = ((0%Z, Some ErrUnavailable), w) /\
  SolutionByHexId a w = ((zeroSolution, Some ErrUnavailable), w) /\
  SolutionsByUser a w = (([], Some ErrUnavailable), w) /\
  SolutionsByUserAndCrackMe a b w = ((zeroSolution, Some ErrUnavailable), w) /\
  SolutionsByCrackme o w = (([], Some ErrUnavailable), w) /\
  SolutionCreate a b c w = (Some ErrUnavailable, w).
Proof.
  intros Hc.
  repeat split;
    cbv [CountUsers UserByName UserByMail UserByHexId AllUsersVisible
         UserCreate CountCommentsByUser CountCommentsByCrackme CommentsByUser
         CommentsByCrackMe CommentCreate CountSolutions CountSolutionsByUser
         CountSolutionsByCrackme SolutionByHexId SolutionsByUser
         SolutionsByUserAndCrackMe SolutionsByCrackme SolutionCreate
         CrackmeByHexId CheckConnection bind ret standardizeError];
    rewrite ?Hc; reflexivity.
Qed.

Lemma guarded_operations_fail_fast_witness :
  connection offline_world = false /\
  CountUsers offline_world = ((0%Z, Some ErrUnavailable), offline_world) /\
  SolutionCreate "writeup" "alice" "507f1f77bcf86cd799439011" offline_world
    = (Some ErrUnavailable, offline_world).
Proof.
  pose proof (guarded_operations_fail_fast offline_world "writeup" "alice"
                "507f1f77bcf86cd799439011" 0%N eq_refl) as H.
  split; [reflexivity|]. split; [apply H|]. apply H.
Defined.

(** C7, on the code: [UpdateUserPassword] does not ask [CheckConnection].
    In every world without a connection, for every non-empty user name and
    password hash, the update is sent to the driver all the same and the
    error that comes back is not the unavailability signal, whereas
    [CountUsers] in the same world answers [ErrUnavailable] without a
    driver call. *)
Theorem UpdateUserPassword_calls_driver_offline
    (c1 : ascii) (username : string) (c2 : ascii) (hashedPassword : string)
    (s : Store) (next : ObjectID) (now : Time_) (cfg : Info)
    (files : list (string * string)) (ok : bool) (fl : list Flash)
    (tr : list Event) :
  let w := mkWorld false s next now cfg files ok fl tr in
  UpdateUserPassword (String c1 username) (String c2 hashedPassword) w =
    (Some ErrDriver,
     mkWorld false s next now cfg files ok fl
             (tr ++ [EvDriver "UpdateOne" "user"])) /\
  CountUsers w = ((0%Z, Some ErrUnavailable), w).
Proof. split; reflexivity. Qed.

(** ** Looking a user up by name *)

Lemma re_parse_literal (s : string) :
  literal_name s = true ->
  re_parse (s ++ "$") = Some (literal_items s, true).
Proof.
  induction s as [|c s IH]; cbn; [reflexivity|].
  intros H. apply andb_true_iff in H. destruct H as [Hc Hs].
  apply negb_true_iff in Hc.
  destruct (c =? "$")%char eqn:E1.
  { apply Ascii.eqb_eq in E1. subst c. discriminate Hc. }
  destruct (c =? ".")%char eqn:E2.
  { apply Ascii.eqb_eq in E2. subst c. discriminate Hc. }
  rewrite Hc, (IH Hs). reflexivity.
Qed.

Lemma re_here_literal (s t : string) :
  lower s = lower t -> re_here true (literal_items s) true t = true.
Proof.
  revert t. induction s as [|c s IH]; intros [|d t] H; cbn in *;
    try discriminate; [reflexivity|].
  injection H as Hc Hs. unfold re_char. rewrite Hc, Ascii.eqb_refl.
  apply IH, Hs.
Qed.

Lemma UserByName_ignores_case (name : string) (u : User) (rest : list User)
    (w : World) :
  connection w = true ->
  user (db w) = u :: rest ->
  literal_name name = true ->
  User_Name u <> "" ->
  lower name = lower (User_Name u) ->
  fst (UserByName name w) = (u, None).
Proof.
  intros Hconn Husers Hlit Hne Hlow.
  destruct w as [conn [us cs ss cms ns] fr cl cfg dk ok fl tr].
  cbn [connection db user] in *. subst conn us.
  unfold UserByName, FindOne_regex, re_compile. cbn [Options Pattern String.eqb Ascii.eqb Bool.eqb].
  cbn [append re_anchored]. unfold re_body. rewrite (re_parse_literal name Hlit).
  unfold FindOne, driver, bind, CheckConnection, emit, ret. cbn.
  unfold bson_regex_omitempty, re_exec. cbn [re_bol re_icase re_items re_eol].
  rewrite (re_here_literal name (User_Name u) Hlow).
  apply String.eqb_neq in Hne. rewrite Hne. reflexivity.
Qed.

(** C2, on the code: [UserByName] and [UserByMail] hand the name to the
    store as the pattern of a regular expression with the option [i].  For
    every name without metacharacters, the lookup answers the first stored
    user when the two names are equal up to the case of their letters.  So
    a lookup for Elvis (or ELVIS) answers the stored user elvis, and so does
    the pattern [e.vis], whose dot is read as a wildcard. *)
Theorem UserByName_folds_case :
  (forall name u rest w,
     connection w = true -> user (db w) = u :: rest ->
     literal_name name = true -> User_Name u <> "" ->
     lower name = lower (User_Name u) ->
     fst (UserByName name w) = (u, None)) /\
  User_Name elvis = "elvis" /\
  fst (UserByName "Elvis" elvis_world) = (elvis, None) /\
  fst (UserByName "ELVIS" elvis_world) = (elvis, None) /\
  fst (UserByName "e.vis" elvis_world) = (elvis, None) /\
  fst (UserByMail "Elvis@Example.com" elvis_world) = (elvis, None).
Proof.
  split; [exact UserByName_ignores_case|]. repeat split; reflexivity.
Qed.

(** ** Stepping through a computation *)


Lemma wp_bind {A B : Type} (m : M A) (k : A -> M B) (Q : B -> World -> Prop)
    (w : World) :
  wp m (fun a w' => wp (k a) Q w') w -> wp (bind m k) Q w.
Proof. unfold wp. rewrite bind_run. auto. Qed.

Lemma wp_keeps {A X : Type} (f : World -> X) (m : M A)
    (Q : A -> World -> Prop) (w : World) :
  keeps f m -> (forall a w', f w' = f w -> Q a w') -> wp m Q w.
Proof. intros Hk HQ. unfold wp. apply HQ. apply Hk. Qed.

(** ** The size guard of an upload *)

Lemma keeps_upload_state_CrackmeByHexId (hexid : string) :
  keeps upload_state (CrackmeByHexId hexid).
Proof. unfold CrackmeByHexId. keeps_auto. Qed.

#[export] Hint Resolve keeps_upload_state_CrackmeByHexId : keeps.

Lemma keeps_upload_state_SolutionsByUserAndCrackMe (username hexid : string) :
  keeps upload_state (SolutionsByUserAndCrackMe username hexid).
Proof. unfold SolutionsByUserAndCrackMe. keeps_auto. Qed.


Lemma reject_with (msg hexid : string) (w0 w : World) :
  upload_state w = upload_state w0 ->
  wp (AddFlash (mkFlash msg FlashError) ;; UploadSolutionGET hexid)
     (rejected_with msg w0) w.
Proof.
  intros Hf. apply wp_bind. unfold wp at 1. cbn [AddFlash fst snd].
  unfold UploadSolutionGET. apply wp_bind.
  eapply wp_keeps; [apply keeps_upload_state_CrackmeByHexId|].
  intros [c e] w' Hw'. unfold wp. cbn [ret fst snd].
  unfold rejected_with, upload_state, upload_footprint, payload_reads in *.
  cbn [flashes trace disk db] in Hw'.
  injection Hw' as Hr Hd Hs Hfl. injection Hf as Hr0 Hd0 Hs0 Hfl0.
  split; [|split].
  - rewrite Hr, Hd, Hs, Hr0, Hd0, Hs0. reflexivity.
  - eexists. reflexivity.
  - congruence.
Qed.

Lemma reject_upload (msg hexid : string) (w0 w : World) :
  upload_state w = upload_state w0 ->
  wp (AddFlash (mkFlash msg FlashError) ;; UploadSolutionGET hexid)
     (rejected_upload w0) w.
Proof.
  intros Hf. exists msg. apply (reject_with msg hexid w0 w Hf).
Qed.

Lemma reject_upload_missing_file (hexid : string) (w0 w : World) :
  upload_state w = upload_state w0 ->
  wp (AddFlash (mkFlash "Field missing: file" FlashError) ;;
      Println "missing file" ;; UploadSolutionGET hexid)
     (rejected_upload w0) w.
Proof.
  intros Hf. apply wp_bind. unfold wp at 1. cbn [AddFlash fst snd].
  apply wp_bind. unfold wp at 1. cbn [Println emit fst snd].
  unfold UploadSolutionGET. apply wp_bind.
  eapply wp_keeps; [apply keeps_upload_state_CrackmeByHexId|].
  intros [c e] w' Hw'. unfold wp. cbn [ret fst snd].
  unfold rejected_upload, rejected_with, upload_state, upload_footprint,
    payload_reads in *.
  cbn [flashes trace disk db] in Hw'. rewrite filter_app in Hw'.
  cbn [filter is_ReadAll] in Hw'. rewrite app_nil_r in Hw'.
  injection Hw' as Hr Hd Hs Hfl. injection Hf as Hr0 Hd0 Hs0 Hfl0.
  eexists. split; [|split].
  - rewrite Hr, Hd, Hs, Hr0, Hd0, Hs0. reflexivity.
  - eexists. reflexivity.
  - rewrite Hfl, Hfl0. reflexivity.
Qed.

(** An upload whose declared size is over the ceiling is rejected. *)
Lemma oversized_upload_rejected (sanitize_HTML sanitize_Name : string -> string)
    (r : UploadRequest) (header : FileHeader) (file : option string)
    (w : World) :
  up_file r = Some (header, file) ->
  (Size header > 5000000)%Z ->
  wp (UploadSolutionPOST sanitize_HTML sanitize_Name r) (rejected_upload w) w.
Proof.
  intros Hfile Hsize. unfold UploadSolutionPOST. cbv zeta. apply wp_bind.
  eapply wp_keeps; [apply keeps_upload_state_SolutionsByUserAndCrackMe|].
  intros [sol e] w1 Hw1.
  destruct (Solution_eq_dec sol zeroSolution); [|apply reject_upload, Hw1].
  destruct (negb (up_recaptcha r)); [apply reject_upload, Hw1|].
  rewrite Hfile.
  destruct (Size header >? 5000000)%Z eqn:Hgt; [apply reject_upload, Hw1|].
  exfalso. lia.
Qed.

Lemma keeps_reads_CrackmeByHexId (hexid : string) :
  keeps payload_reads (CrackmeByHexId hexid).
Proof. unfold CrackmeByHexId. keeps_auto. Qed.

#[export] Hint Resolve keeps_reads_CrackmeByHexId : keeps.

Lemma keeps_reads_SolutionsByUserAndCrackMe (username hexid : string) :
  keeps payload_reads (SolutionsByUserAndCrackMe username hexid).
Proof. unfold SolutionsByUserAndCrackMe. keeps_auto. Qed.

Lemma keeps_reads_SolutionCreate (info username hexid : string) :
  keeps payload_reads (SolutionCreate info username hexid).
Proof. unfold SolutionCreate. keeps_auto. Qed.

Lemma keeps_reads_NotificationAdd (recipient message : string) :
  keeps payload_reads (NotificationAdd recipient message).
Proof. unfold NotificationAdd. keeps_auto. Qed.

#[export] Hint Resolve keeps_reads_SolutionsByUserAndCrackMe
  keeps_reads_SolutionCreate keeps_reads_NotificationAdd : keeps.

(** An upload within the ceiling that passed the earlier checks gets its
    payload read, once. *)
Lemma admissible_upload_read (sanitize_HTML sanitize_Name : string -> string)
    (r : UploadRequest) (header : FileHeader) (file : option string)
    (w : World) :
  up_file r = Some (header, file) ->
  (Size header <= 5000000)%Z ->
  up_recaptcha r = true ->
  fst (fst (SolutionsByUserAndCrackMe (up_name r) (up_hexidcrackme r) w))
    = zeroSolution ->
  wp (UploadSolutionPOST sanitize_HTML sanitize_Name r)
     (fun _ w' => payload_reads w' = S (payload_reads w)) w.
Proof.
  intros Hfile Hsize Hcaptcha Hnone.
  unfold UploadSolutionPOST. cbv zeta. apply wp_bind. unfold wp at 1.
  pose proof (keeps_reads_SolutionsByUserAndCrackMe
                (up_name r) (up_hexidcrackme r) w) as Hw1.
  destruct (SolutionsByUserAndCrackMe (up_name r) (up_hexidcrackme r) w)
    as [[sol e] w1].
  cbn [fst snd] in *. subst sol.
  destruct (Solution_eq_dec zeroSolution zeroSolution); [|contradiction].
  rewrite Hcaptcha, Hfile. cbn [negb].
  destruct (Size header >? 5000000)%Z eqn:Hgt; [exfalso; lia|].
  apply wp_bind. unfold wp at 1.
  set (w2 := snd (ReadAll file w1)).
  assert (Hw2 : payload_reads w2 = S (payload_reads w)).
  { rewrite <- Hw1. unfold w2, payload_reads. destruct file; cbn;
      rewrite filter_app, length_app; cbn; lia. }
  rewrite <- Hw2.
  eapply wp_keeps with (f := payload_reads); [|intros; assumption].
  destruct (fst (ReadAll file w1)) as [data err]. keeps_auto.
Qed.



(** ** Notification of the author on a new comment *)

(** Unfolds the model functions and the primitives, down to the searches
    in the collections. *)
Ltac run_model :=
  cbv [LeaveCommentPOST Validate CommentCreate SolutionCreate CrackmeByHexId
       NotificationAdd SolutionsByUserAndCrackMe FindOne InsertOne driver bind
       ret CheckConnection emit with_db standardizeError coll_get coll_set
       coll_name Collection_crackme Collection_comment Collection_solution
       Collection_notification NewObjectID Now AddFlash Println Println_err
       fst snd connection db crackme comment trace fresh clock config disk
       disk_ok flashes user solution notification cm_comment cm_recaptcha
       cm_name cm_hexid up_name up_hexidcrackme negb].

Ltac run_model_in H :=
  cbv [LeaveCommentPOST Validate CommentCreate SolutionCreate CrackmeByHexId
       NotificationAdd SolutionsByUserAndCrackMe FindOne InsertOne driver bind
       ret CheckConnection emit with_db standardizeError coll_get coll_set
       coll_name Collection_crackme Collection_comment Collection_solution
       Collection_notification NewObjectID Now AddFlash Println Println_err
       fst snd connection db crackme comment trace fresh clock config disk
       disk_ok flashes user solution notification cm_comment cm_recaptcha
       cm_name cm_hexid up_name up_hexidcrackme negb] in H.

(** C9. When the creation of a comment succeeds, the crackme is found
    again, and a notification for its author is added exactly when the
    author is not the commenting user: the notification collection grows by
    that one message, or stays as it was when commenter and author are the
    same.  The handler then redirects to the page of the crackme. *)
Theorem comment_notifies_author (sanitize_HTML : string -> string)
    (r : CommentRequest) (w : World) :
  cm_comment r <> "" ->
  cm_recaptcha r = true ->
  fst (CommentCreate (sanitize_HTML (cm_comment r)) (cm_name r) (cm_hexid r) w)
    = None ->
  exists c,
    fst (CrackmeByHexId (cm_hexid r) w) = (c, None) /\
    fst (LeaveCommentPOST sanitize_HTML r w)
      = Redirect ("/crackme/" ++ cm_hexid r) /\
    notification (db (snd (LeaveCommentPOST sanitize_HTML r w))) =
      notification (db w) ++
      (if Crackme_Author c =? cm_name r then []
       else [mkNotification (Crackme_Author c)
               ("New comment on your crackme '" ++ Crackme_Name c
                  ++ "' by: " ++ cm_name r)
               (clock w + 1)%Z]).
Proof.
  intros Hcomment Hcaptcha Hcreate.
  destruct r as [name hexid text captcha].
  cbn [cm_comment cm_recaptcha cm_name cm_hexid] in *. subst captcha.
  destruct w as [conn [us cs ss cms ns] fr cl cfg dk ok fl tr].
  destruct conn; [|discriminate Hcreate].
  destruct (text =? "") eqn:Htext;
    [apply String.eqb_eq in Htext; contradiction|].
  run_model_in Hcreate. run_model.
  cbn [find fst snd String.eqb Ascii.eqb Bool.eqb]. rewrite Htext.
  destruct (find (fun c => bson_string_omitempty (Crackme_HexId c) hexid) cs)
    as [c|] eqn:Hfind; [|discriminate Hcreate].
  exists c. split; [reflexivity|].
  rewrite Hfind. cbn [andb negb].
  destruct (Crackme_Author c =? name) eqn:Hauthor; cbn; rewrite ?app_nil_r;
    split; reflexivity.
Qed.

Lemma comment_notifies_author_witness :
  exists c,
    fst (CrackmeByHexId "507f1f77bcf86cd799439011" sample_world) = (c, None) /\
    fst (LeaveCommentPOST (fun s => s)
           (mkCommentRequest "alice" "507f1f77bcf86cd799439011" "well done"
                             true) sample_world)
      = Redirect "/crackme/507f1f77bcf86cd799439011" /\
    notification
      (db (snd (LeaveCommentPOST (fun s => s)
                  (mkCommentRequest "alice" "507f1f77bcf86cd799439011"
                                    "well done" true) sample_world))) =
      [mkNotification "bob"
         "New comment on your crackme 'keygenme' by: alice" 1001%Z].
Proof.
  destruct (comment_notifies_author (fun s => s)
              (mkCommentRequest "alice" "507f1f77bcf86cd799439011" "well done"
                                true) sample_world)
    as (c & Hc & Hreply & Hnotif);
    [discriminate | reflexivity | reflexivity |].
  exists c. split; [exact Hc|]. split; [exact Hreply|].
  rewrite Hnotif. injection Hc as <-. reflexivity.
Defined.

(** ** A second solution by the same author *)

Lemma SolutionsByUserAndCrackMe_finds (username hexid : string) (w : World)
    (c : Crackme) (s : Solution) :
  connection w = true ->
  fst (CrackmeByHexId hexid w) = (c, None) ->
  In s (solution (db w)) ->
  Solution_CrackmeId s = Crackme_ObjectId c ->
  Crackme_ObjectId c <> NilObjectID ->
  Solution_Author s = username ->
  username <> "" ->
  fst (fst (SolutionsByUserAndCrackMe username hexid w)) <> zeroSolution.
Proof.
  intros Hconn Hc Hin Hid Hnil Hauthor Hname.
  destruct w as [conn [us cs ss cms ns] fr cl cfg dk ok fl tr].
  cbn [connection db solution] in *. subst conn.
  run_model_in Hc. run_model.
  destruct (find (fun c0 => bson_string_omitempty (Crackme_HexId c0) hexid) cs)
    as [c'|] eqn:Hfind; [|discriminate Hc].
  injection Hc as ->.
  set (f := fun s0 : Solution =>
              bson_oid_omitempty (Solution_CrackmeId s0) (Crackme_ObjectId c)
              && bson_string_omitempty (Solution_Author s0) username).
  assert (Hfs : f s = true).
  { unfold f, bson_oid_omitempty, bson_string_omitempty.
    rewrite Hid, Hauthor, N.eqb_refl, String.eqb_refl.
    apply N.eqb_neq in Hnil. apply String.eqb_neq in Hname.
    rewrite Hnil, Hname. reflexivity. }
  destruct (find f ss) as [s'|] eqn:Hs'.
  - apply find_some in Hs'. destruct Hs' as [_ Hfs']. cbn.
    intros ->. discriminate Hfs'.
  - exfalso. pose proof (find_none f ss Hs' s Hin) as Hno. congruence.
Qed.



(** ** An upload whose solution record could not be stored *)

(** C5, on the code: [UploadSolutionPOST] logs the error of
    [SolutionCreate] and goes on.  For a crackme that does not exist the
    creation fails with the not-found signal and stores nothing, and still
    the file is written (with an empty identifier in its name), the success
    flash is set and the user is redirected; the same happens without a
    connection.  [LeaveCommentPOST] on the same crackme stops at the error
    of [CommentCreate] with an error flash. *)
Theorem failed_SolutionCreate_still_writes :
  let r := upload_for_unknown_crackme in
  let success :=
    mkFlash "Solution uploaded! Should be available soon." FlashSuccess in
  let w1 := snd (UploadSolutionPOST (fun s => s) keep_allowed r sample_world) in
  let w2 := snd (UploadSolutionPOST (fun s => s) keep_allowed r offline_world) in
  let w3 :=
    snd (LeaveCommentPOST (fun s => s)
           (mkCommentRequest "alice" "ffffffffffffffffffffffff" "well done"
                             true) sample_world) in
  fst (SolutionCreate "writeup" "alice" "ffffffffffffffffffffffff" sample_world)
    = Some ErrNoResult /\
  fst (UploadSolutionPOST (fun s => s) keep_allowed r sample_world)
    = Redirect "/user/alice" /\
  solution (db w1) = [] /\
  disk w1 = [("tmp/solution/alice++++++solve.zip", "data")] /\
  flashes w1 = [success] /\
  fst (SolutionCreate "writeup" "alice" "ffffffffffffffffffffffff"
                      offline_world) = Some ErrUnavailable /\
  fst (UploadSolutionPOST (fun s => s) keep_allowed r offline_world)
    = Redirect "/user/alice" /\
  disk w2 = [("tmp/solution/alice++++++solve.zip", "data")] /\
  flashes w2 = [success] /\
  flashes w3 =
    [mkFlash "Comment creation failed. Please try again later." FlashError] /\
  comment (db w3) = [].
Proof. vm_compute. repeat split; reflexivity. Qed.

(** ** Paths *)

Example Clean_examples :
  Clean "a//b/./c/.." = "a/b" /\ Clean "../a/../.." = "../.." /\
  Clean "/../a" = "/a" /\ Clean "a/.." = "." /\ Clean "/" = "/" /\
  Clean "tmp/solution/../../etc/passwd" = "etc/passwd".
Proof. repeat split; reflexivity. Qed.

Example Base_examples :
  Base "../../etc/passwd" = "passwd" /\ Base "a/b//" = "b" /\
  Base "///" = "/" /\ Base "" = "." /\ Base "solve.zip" = "solve.zip".
Proof. repeat split; reflexivity. Qed.

(** A root made of [..] alone: a name that climbs passes the prefix check
    and leads out of the root. *)
Example dotdot_root_corner :
  Join [".."; "../x+++h+++f"] = "../../x+++h+++f" /\
  HasPrefix (Clean "../../x+++h+++f") "../" = true /\
  location ["a"; "b"; "c"] ".." = ["a"; "b"] /\
  location ["a"; "b"; "c"] "../../x+++h+++f" = ["a"; "x+++h+++f"].
Proof. repeat split; reflexivity. Qed.

Example Join_examples :
  Join ["tmp/solution"; "alice+++x+++solve.zip"]
    = "tmp/solution/alice+++x+++solve.zip" /\
  Join [".."; "../x"] = "../../x" /\ Join [""; "a"] = "a".
Proof. repeat split; reflexivity. Qed.

Lemma append_nil_r (s : string) : (s ++ "")%string = s.
Proof. induction s; cbn; congruence. Qed.

Lemma append_assoc (a b c : string) :
  ((a ++ b) ++ c)%string = (a ++ (b ++ c))%string.
Proof. induction a; cbn; congruence. Qed.

Lemma prefix_app (a b : string) :
  String.prefix a b = true <-> exists t, b = (a ++ t)%string.
Proof.
  revert b. induction a as [|c a IH]; intros b.
  - split; [intros _; exists b; reflexivity | intros _; destruct b; reflexivity].
  - destruct b as [|d b]; cbn.
    + split; [discriminate | intros [t Ht]; discriminate].
    + destruct (ascii_dec c d) as [->|Hne].
      * rewrite IH. split; intros [t Ht]; exists t; congruence.
      * split; [discriminate | intros [t Ht]; congruence].
Qed.

Lemma split_slash_not_nil (s : string) : split_slash s <> [].
Proof.
  induction s as [|c s IH]; cbn; [discriminate|].
  destruct (IsPathSeparator c); [discriminate|].
  destruct (split_slash s); [contradiction | discriminate].
Qed.

Lemma split_slash_app (a b : string) :
  split_slash (a ++ String Separator b)%string
    = split_slash a ++ split_slash b.
Proof.
  induction a as [|c a IH]; cbn.
  - reflexivity.
  - rewrite IH. destruct (IsPathSeparator c); [reflexivity|].
    pose proof (split_slash_not_nil a) as Hne.
    destruct (split_slash a); [contradiction | reflexivity].
Qed.

Lemma split_slash_no_slash (s : string) :
  Forall (fun e => no_slash e = true) (split_slash s).
Proof.
  induction s as [|c s IH]; cbn.
  - repeat constructor.
  - destruct (IsPathSeparator c) eqn:Hc.
    + constructor; [reflexivity | exact IH].
    + pose proof (split_slash_not_nil s) as Hne.
      destruct (split_slash s) as [|e rest]; [contradiction|].
      inversion IH; subst. constructor; [|assumption].
      cbn. rewrite Hc. assumption.
Qed.

Lemma split_slash_single (e : string) :
  no_slash e = true -> split_slash e = [e].
Proof.
  induction e as [|c e IH]; cbn; [reflexivity|].
  intros H. apply andb_true_iff in H. destruct H as [Hc He].
  apply negb_true_iff in Hc. rewrite Hc, (IH He). reflexivity.
Qed.

Lemma split_join_slash (elems : list string) :
  elems <> [] -> Forall (fun e => no_slash e = true) elems ->
  split_slash (join_slash elems) = elems.
Proof.
  induction elems as [|e rest IH]; [contradiction|].
  intros _ Hall. inversion Hall as [|? ? He Hrest]; subst.
  destruct rest as [|e' rest'].
  - cbn. apply split_slash_single, He.
  - change (join_slash (e :: e' :: rest'))
      with (e ++ String Separator (join_slash (e' :: rest')))%string.
    rewrite split_slash_app, (split_slash_single e He), IH;
      [reflexivity | discriminate | assumption].
Qed.

Lemma join_slash_cons (e : string) (rest : list string) :
  rest <> [] ->
  join_slash (e :: rest) = (e ++ String Separator (join_slash rest))%string.
Proof. destruct rest; [contradiction | reflexivity]. Qed.

Lemma join_split_slash (s : string) : join_slash (split_slash s) = s.
Proof.
  induction s as [|c s IH]; [reflexivity|].
  pose proof (split_slash_not_nil s) as Hne.
  cbn [split_slash].
  destruct (IsPathSeparator c) eqn:Hc.
  - rewrite join_slash_cons by exact Hne. rewrite IH.
    unfold IsPathSeparator in Hc. apply Ascii.eqb_eq in Hc. subst c.
    reflexivity.
  - destruct (split_slash s) as [|e rest] eqn:Hs; [contradiction|].
    destruct rest as [|e' rest'].
    + cbn in *. congruence.
    + rewrite join_slash_cons in * by discriminate.
      cbn [append]. congruence.
Qed.

Lemma plain_name_tests (e : string) :
  plain_name e = true ->
  (e =? "") = false /\ (e =? ".") = false /\ (e =? "..") = false.
Proof.
  unfold plain_name. rewrite !andb_true_iff, !negb_true_iff. tauto.
Qed.

Lemma clean_elems_kept (is_rooted : bool) (elems : list string) :
  Forall (fun e => no_slash e = true) elems ->
  forall dotdot out,
    Forall kept_name out -> (is_rooted = true -> dotdot = 0) ->
    Forall kept_name (snd (clean_elems is_rooted elems dotdot out)) /\
    (is_rooted = true -> fst (clean_elems is_rooted elems dotdot out) = 0).
Proof.
  induction 1 as [|e rest He Hrest IH]; intros dotdot out Hout Hdd; cbn.
  - auto.
  - destruct (e =? "") eqn:E1; [apply IH; assumption|].
    destruct (e =? ".") eqn:E2; [apply IH; assumption|].
    destruct (e =? "..") eqn:E3.
    + destruct out as [|o out'].
      * destruct is_rooted; apply IH; auto. discriminate.
      * apply IH; [|assumption]. inversion Hout; assumption.
    + apply IH; [|assumption]. constructor; [|assumption].
      split; [|assumption]. unfold plain_name. rewrite E1, E2, E3. reflexivity.
Qed.

Lemma clean_elems_plain (is_rooted : bool) (elems : list string) :
  Forall (fun e => plain_name e = true) elems ->
  forall dotdot out,
    clean_elems is_rooted elems dotdot out = (dotdot, rev elems ++ out).
Proof.
  induction 1 as [|e rest He Hrest IH]; intros dotdot out; cbn.
  - reflexivity.
  - destruct (plain_name_tests e He) as (E1 & E2 & E3).
    rewrite E1, E2, E3, IH, <- app_assoc. reflexivity.
Qed.

Lemma clean_elems_dotdots (n : nat) (elems : list string) (dotdot : nat) :
  clean_elems false (repeat ".." n ++ elems) dotdot []
    = clean_elems false elems (n + dotdot) [].
Proof.
  revert dotdot. induction n as [|n IH]; intros dotdot; cbn.
  - reflexivity.
  - rewrite IH. f_equal. lia.
Qed.

Lemma Clean_form (path : string) :
  path <> "" ->
  exists dotdot out,
    Clean path = clean_output (rooted path) dotdot out /\
    Forall kept_name out /\ (rooted path = true -> dotdot = 0).
Proof.
  intros Hne. unfold Clean.
  destruct (path =? "") eqn:E; [apply String.eqb_eq in E; contradiction|].
  pose proof (clean_elems_kept (rooted path) (split_slash path)
                (split_slash_no_slash path) 0 [] (Forall_nil _)
                (fun _ => eq_refl)) as [Hout Hdd].
  destruct (clean_elems (rooted path) (split_slash path) 0 []) as [dotdot out].
  exists dotdot, out. cbn in *. auto.
Qed.

Lemma kept_name_rev (out : list string) :
  Forall kept_name out -> Forall kept_name (rev out).
Proof. intros H. apply Forall_rev, H. Qed.

Lemma kept_no_slash (l : list string) :
  Forall kept_name l -> Forall (fun e => no_slash e = true) l.
Proof. apply Forall_impl. intros e [_ H]. exact H. Qed.

Lemma kept_plain (l : list string) :
  Forall kept_name l -> Forall (fun e => plain_name e = true) l.
Proof. apply Forall_impl. intros e [H _]. exact H. Qed.

(** The output of [Clean] on a rooted path, cut into elements. *)
Lemma split_clean_output_rooted (out : list string) :
  Forall kept_name out ->
  split_slash (clean_output true 0 out)
    = "" :: match rev out with [] => [""] | _ :: _ => rev out end.
Proof.
  intros Hout. unfold clean_output. cbn [repeat app].
  change (String Separator (join_slash (rev out)))
    with ("" ++ String Separator (join_slash (rev out)))%string.
  rewrite split_slash_app. cbn [split_slash app]. f_equal.
  destruct (rev out) as [|e l] eqn:Hrev; [reflexivity|].
  rewrite <- Hrev. apply split_join_slash.
  - rewrite Hrev. discriminate.
  - apply kept_no_slash, kept_name_rev, Hout.
Qed.

Lemma kept_solid (e : string) : kept_name e -> solid e.
Proof.
  intros [Hp Hs]. split; [|exact Hs].
  intros ->. discriminate Hp.
Qed.

Lemma dotdot_solid : solid "..".
Proof. split; [discriminate | reflexivity]. Qed.

Lemma solid_dotdots_kept (dotdot : nat) (out : list string) :
  Forall kept_name out -> Forall solid (repeat ".." dotdot ++ rev out).
Proof.
  intros Hout. apply Forall_app. split.
  - apply Forall_forall. intros e He. apply repeat_spec in He. subst e.
    apply dotdot_solid.
  - apply Forall_rev. eapply Forall_impl; [|exact Hout]. apply kept_solid.
Qed.

Lemma join_slash_solid (e : string) (rest : list string) :
  solid e ->
  join_slash (e :: rest) <> "" /\ rooted (join_slash (e :: rest)) = false.
Proof.
  intros [Hne Hns]. destruct e as [|c e']; [contradiction|].
  cbn in Hns. apply andb_true_iff in Hns. destruct Hns as [Hc _].
  apply negb_true_iff in Hc.
  destruct rest; cbn; (split; [discriminate | exact Hc]).
Qed.

Lemma solid_no_slash (l : list string) :
  Forall solid l -> Forall (fun e => no_slash e = true) l.
Proof. apply Forall_impl. intros e [_ H]. exact H. Qed.

(** The output of [Clean] on a relative path. *)
Lemma clean_output_relative (dotdot : nat) (out : list string) :
  Forall kept_name out ->
  let elems := repeat ".." dotdot ++ rev out in
  (elems = [] -> clean_output false dotdot out = ".") /\
  (elems <> [] ->
   clean_output false dotdot out = join_slash elems /\
   join_slash elems <> "" /\
   rooted (join_slash elems) = false /\
   split_slash (join_slash elems) = elems).
Proof.
  intros Hout elems. pose proof (solid_dotdots_kept dotdot out Hout) as Hsolid.
  fold elems in Hsolid. unfold clean_output. fold elems. split.
  - intros ->. reflexivity.
  - intros Hne. destruct elems as [|e rest] eqn:He; [contradiction|].
    inversion Hsolid as [|? ? Hsol Hrest]; subst.
    destruct (join_slash_solid e rest Hsol) as [Hj Hr].
    destruct (join_slash (e :: rest) =? "") eqn:E;
      [apply String.eqb_eq in E; contradiction|].
    repeat split; try assumption.
    apply split_join_slash; [discriminate | apply solid_no_slash, Hsolid].
Qed.

Lemma Clean_clean_output (is_rooted : bool) (dotdot : nat) (out : list string) :
  Forall kept_name out -> (is_rooted = true -> dotdot = 0) ->
  Clean (clean_output is_rooted dotdot out) = clean_output is_rooted dotdot out.
Proof.
  intros Hout Hdd. destruct is_rooted.
  - rewrite (Hdd eq_refl).
    assert (Hsplit := split_clean_output_rooted out Hout).
    unfold Clean. cbn [clean_output] in *.
    change (String Separator (join_slash (repeat ".." 0 ++ rev out)) =? "")
      with false.
    cbn [rooted IsPathSeparator Separator Ascii.eqb Bool.eqb].
    change (IsPathSeparator Separator) with true. cbv iota.
    cbn [repeat app] in *. rewrite Hsplit. cbn [clean_elems String.eqb].
    destruct (rev out) as [|e l] eqn:Hrev.
    + cbn. apply (f_equal (@rev string)) in Hrev. rewrite rev_involutive in Hrev.
      subst out. reflexivity.
    + rewrite <- Hrev.
      rewrite (clean_elems_plain true (rev out)).
      * rewrite rev_involutive, app_nil_r. cbn. reflexivity.
      * apply kept_plain, kept_name_rev, Hout.
  - destruct (clean_output_relative dotdot out Hout) as [Hnil Hcons].
    destruct (repeat ".." dotdot ++ rev out) as [|e rest] eqn:Hl.
    + rewrite (Hnil eq_refl). reflexivity.
    + destruct Hcons as (Hy & Hne & Hr & Hs); [discriminate|].
      rewrite Hy. unfold Clean.
      destruct (join_slash (e :: rest) =? "") eqn:E;
        [apply String.eqb_eq in E; contradiction|].
      rewrite Hr, Hs, <- Hl, clean_elems_dotdots.
      rewrite (clean_elems_plain false (rev out));
        [|apply kept_plain, kept_name_rev, Hout].
      rewrite rev_involutive, app_nil_r, Nat.add_0_r.
      unfold clean_output. rewrite Hl.
      destruct (join_slash (e :: rest) =? "") eqn:E';
        [discriminate | reflexivity].
Qed.

(** [Clean] is idempotent. *)
Lemma Clean_idempotent (path : string) : Clean (Clean path) = Clean path.
Proof.
  destruct (string_dec path "") as [->|Hne]; [reflexivity|].
  destruct (Clean_form path Hne) as (dotdot & out & -> & Hout & Hdd).
  apply Clean_clean_output; assumption.
Qed.

Lemma walk_app (dir : list string) (l1 l2 : list string) :
  walk dir (l1 ++ l2) = walk (walk dir l1) l2.
Proof.
  revert dir. induction l1 as [|e l1 IH]; intros dir; cbn; [reflexivity|].
  destruct (e =? ""); [apply IH|].
  destruct (e =? "."); [apply IH|].
  destruct (e =? ".."); apply IH.
Qed.

Lemma walk_plain (dir : list string) (l : list string) :
  Forall (fun e => plain_name e = true) l -> walk dir l = dir ++ l.
Proof.
  intros Hl. revert dir. induction Hl as [|e l He Hl IH]; intros dir; cbn.
  - rewrite app_nil_r. reflexivity.
  - destruct (plain_name_tests e He) as (E1 & E2 & E3).
    rewrite E1, E2, E3, IH, <- app_assoc. reflexivity.
Qed.

Lemma rooted_app (a b : string) :
  a <> "" -> rooted (a ++ b)%string = rooted a.
Proof. destruct a; [contradiction | reflexivity]. Qed.

Lemma split_slash_empty (s : string) : split_slash s = [""] -> s = "".
Proof.
  intros H. rewrite <- (join_split_slash s), H. reflexivity.
Qed.

Lemma Forall_suffix {A : Type} (P : A -> Prop) (l1 l2 : list A) :
  Forall P (l1 ++ l2) -> Forall P l2.
Proof. intros H. apply Forall_app in H. tauto. Qed.

Lemma Join_two (root name : string) :
  root <> "" -> Join [root; name] = Clean (root ++ String Separator name).
Proof.
  intros Hne. cbn [Join].
  destruct (root =? "") eqn:E; [apply String.eqb_eq in E; contradiction|].
  reflexivity.
Qed.

(** The elements of a cleaned path that has [root] and a separator as a
    prefix: those of the root, then plain names only, provided the root is
    not made of [..] elements alone. *)
Lemma cleaned_under_root (path root tail : string) :
  path <> "" -> root <> "" ->
  Clean path = (root ++ String Separator tail)%string ->
  tail <> "" /\
  ((exists e, In e (split_slash root) /\ e <> "..") ->
   Forall (fun e => plain_name e = true) (split_slash tail)).
Proof.
  intros Hpath Hroot Hclean.
  destruct (Clean_form path Hpath) as (dotdot & out & Hform & Hout & Hdd).
  assert (Hsplit : split_slash (Clean path)
                   = split_slash root ++ split_slash tail).
  { rewrite Hclean. apply split_slash_app. }
  pose proof (split_slash_not_nil root) as Hr.
  pose proof (split_slash_not_nil tail) as Ht.
  rewrite Hform in Hsplit. destruct (rooted path).
  - rewrite (Hdd eq_refl) in Hsplit.
    rewrite (split_clean_output_rooted out Hout) in Hsplit.
    destruct (split_slash root) as [|r0 rs] eqn:Hsr; [contradiction|].
    cbn [app] in Hsplit. injection Hsplit as Hr0 Hrest.
    destruct (rev out) as [|e l] eqn:Hrev.
    + exfalso. destruct rs as [|r1 rs'].
      * apply Hroot, split_slash_empty. rewrite Hsr, <- Hr0. reflexivity.
      * cbn in Hrest. injection Hrest as _ Hnil.
        destruct rs'; destruct (split_slash tail); try discriminate;
          contradiction.
    + assert (Hplain : Forall (fun e => plain_name e = true) (rs ++ split_slash tail)).
      { rewrite <- Hrest, <- Hrev. apply kept_plain, kept_name_rev, Hout. }
      apply Forall_suffix in Hplain. split.
      * intros ->. cbn in Hplain. inversion Hplain as [|? ? Hbad]; subst.
        discriminate Hbad.
      * intros _. exact Hplain.
  - destruct (clean_output_relative dotdot out Hout) as [Hnil Hcons].
    destruct (repeat ".." dotdot ++ rev out) as [|e l] eqn:Hl.
    + exfalso. rewrite (Hnil eq_refl) in Hsplit. cbn in Hsplit.
      destruct (split_slash root) as [|r0 [|r1 rs]];
        destruct (split_slash tail); try discriminate; contradiction.
    + destruct Hcons as (Hy & _ & _ & Hs); [discriminate|].
      rewrite Hy, Hs, <- Hl in Hsplit.
      assert (Hsolid := solid_dotdots_kept dotdot out Hout).
      split.
      * intros ->. rewrite Hsplit in Hsolid. apply Forall_suffix in Hsolid.
        cbn in Hsolid. inversion Hsolid as [|? ? [Hbad _]]; subst.
        apply Hbad. reflexivity.
      * intros (e0 & Hin & Hne).
        apply app_eq_app in Hsplit.
        destruct Hsplit as (m & [[Hdots Hsuf] | [Hroots Hsuf]]).
        -- exfalso. apply Hne. apply (repeat_spec dotdot "..").
           rewrite Hdots. apply in_or_app. left. exact Hin.
        -- assert (Hplain : Forall (fun e => plain_name e = true) (rev out))
             by apply kept_plain, kept_name_rev, Hout.
           rewrite Hsuf in Hplain. apply Forall_suffix in Hplain. exact Hplain.
Qed.

(** A path that [Join] built from a root and a name and that passes the
    prefix check of the upload handler. *)
Lemma guarded_path (root name : string) :
  root <> "" ->
  HasPrefix (Clean (Join [root; name])) (root ++ String Separator "") = true ->
  Clean (Join [root; name]) = Join [root; name] /\
  exists tail,
    tail <> "" /\
    Join [root; name] = (root ++ String Separator tail)%string /\
    ((exists e, In e (split_slash root) /\ e <> "..") ->
     Forall (fun e => plain_name e = true) (split_slash tail) /\
     forall cwd,
       location cwd (Join [root; name])
         = location cwd root ++ split_slash tail).
Proof.
  intros Hroot Hguard. rewrite (Join_two root name Hroot) in *.
  rewrite Clean_idempotent in Hguard. split; [apply Clean_idempotent|].
  unfold HasPrefix in Hguard. apply prefix_app in Hguard.
  destruct Hguard as [tail Htail]. rewrite append_assoc in Htail.
  cbn [append] in Htail. exists tail.
  assert (Hpath : (root ++ String Separator name)%string <> "").
  { destruct root; [contradiction | discriminate]. }
  destruct (cleaned_under_root _ root tail Hpath Hroot Htail) as [Hne Hplain].
  split; [exact Hne|]. split; [exact Htail|].
  intros Hsome. specialize (Hplain Hsome). split; [exact Hplain|].
  intros cwd. unfold location. rewrite Htail, split_slash_app, walk_app.
  rewrite (rooted_app root _ Hroot). apply walk_plain, Hplain.
Qed.

Local Open Scope go_scope.

(** ** Where an upload is written *)

Lemma keeps_files_CrackmeByHexId (hexid : string) :
  keeps files_of (CrackmeByHexId hexid).
Proof. unfold CrackmeByHexId. keeps_auto. Qed.

#[export] Hint Resolve keeps_files_CrackmeByHexId : keeps.

Lemma keeps_files_SolutionsByUserAndCrackMe (username hexid : string) :
  keeps files_of (SolutionsByUserAndCrackMe username hexid).
Proof. unfold SolutionsByUserAndCrackMe. keeps_auto. Qed.

Lemma keeps_files_SolutionCreate (info username hexid : string) :
  keeps files_of (SolutionCreate info username hexid).
Proof. unfold SolutionCreate. keeps_auto. Qed.

Lemma keeps_files_NotificationAdd (recipient message : string) :
  keeps files_of (NotificationAdd recipient message).
Proof. unfold NotificationAdd. keeps_auto. Qed.

Lemma keeps_files_UploadSolutionGET (hexid : string) :
  keeps files_of (UploadSolutionGET hexid).
Proof. unfold UploadSolutionGET. keeps_auto. Qed.

#[export] Hint Resolve keeps_files_SolutionsByUserAndCrackMe
  keeps_files_SolutionCreate keeps_files_NotificationAdd
  keeps_files_UploadSolutionGET : keeps.

(** A computation that keeps the files and does not answer with a
    redirect leaves the upload without a written file. *)
Lemma wp_nothing_written (sanitize_Name : string -> string)
    (r : UploadRequest) (w0 w : World) (m : M Reply) :
  files_of w = files_of w0 ->
  keeps files_of m ->
  (forall w1 url, fst (m w1) <> Redirect url) ->
  wp m (upload_outcome sanitize_Name r w0) w.
Proof.
  intros Hw Hkeep Hreply. unfold wp, upload_outcome.
  specialize (Hkeep w). rewrite Hw in Hkeep. unfold files_of in Hkeep.
  injection Hkeep as Hc Hd. split; [exact Hc|]. left. split; [exact Hd|].
  apply Hreply.
Qed.

Lemma UploadSolutionGET_renders (hexid : string) (w : World) (url : string) :
  fst (UploadSolutionGET hexid w) <> Redirect url.
Proof.
  unfold UploadSolutionGET. rewrite bind_run.
  destruct (fst (CrackmeByHexId hexid w)). discriminate.
Qed.

Lemma flash_then_form_renders (f : Flash) (hexid : string) (w : World)
    (url : string) :
  fst ((AddFlash f ;; UploadSolutionGET hexid) w) <> Redirect url.
Proof. rewrite bind_run. apply UploadSolutionGET_renders. Qed.


Lemma WriteFile_run (path data : string) (w : World) :
  WriteFile path data w =
    if disk_ok w then
      (None,
       mkWorld (connection w) (db w) (fresh w) (clock w) (config w)
               (disk w ++ [(path, data)]) true (flashes w)
               (trace w ++ [EvWriteFile path]))
    else
      (Some ErrIO,
       mkWorld (connection w) (db w) (fresh w) (clock w) (config w)
               (disk w) false (flashes w) (trace w ++ [EvWriteFile path])).
Proof.
  unfold WriteFile, bind, emit. cbn. destruct (disk_ok w) eqn:E; reflexivity.
Qed.

Lemma files_of_eq (w w0 : World) :
  files_of w = files_of w0 -> config w = config w0 /\ disk w = disk w0.
Proof. unfold files_of. intros H. injection H as Hc Hd. auto. Qed.

Lemma upload_writes_guarded (sanitize_HTML sanitize_Name : string -> string)
    (r : UploadRequest) (w : World) :
  wp (UploadSolutionPOST sanitize_HTML sanitize_Name r)
     (upload_outcome sanitize_Name r w) w.
Proof.
  unfold UploadSolutionPOST. cbv zeta. apply wp_bind.
  eapply wp_keeps; [apply keeps_files_SolutionsByUserAndCrackMe|].
  intros [sol e] w1 Hw1.
  destruct (Solution_eq_dec sol zeroSolution).
  2: { apply wp_nothing_written; [exact Hw1 | keeps_auto |].
       intros; apply flash_then_form_renders. }
  destruct (negb (up_recaptcha r)).
  { apply wp_nothing_written; [exact Hw1 | keeps_auto |].
    intros; apply flash_then_form_renders. }
  destruct (up_file r) as [[header file]|] eqn:Hfile.
  2: { apply wp_nothing_written; [exact Hw1 | keeps_auto |].
       intros. rewrite !bind_run. apply UploadSolutionGET_renders. }
  destruct (Size header >? 5000000)%Z.
  { apply wp_nothing_written; [exact Hw1 | keeps_auto |].
    intros; apply flash_then_form_renders. }
  apply wp_bind. unfold wp at 1.
  assert (Hw2 : files_of (snd (ReadAll file w1)) = files_of w).
  { rewrite <- Hw1. destruct file; reflexivity. }
  destruct file as [data|]; cbn [ReadAll bind emit ret fst] in *.
  2: { apply wp_nothing_written; [exact Hw2 | keeps_auto |].
       intros; discriminate. }
  set (w2 := snd _) in *. clearbody w2.
  apply wp_bind. eapply wp_keeps; [apply keeps_files_SolutionCreate|].
  intros err0 w3 Hw3. rewrite Hw2 in Hw3.
  apply wp_bind.
  eapply wp_keeps; [apply keeps_files_SolutionsByUserAndCrackMe|].
  intros [solution e2] w4 Hw4. rewrite Hw3 in Hw4.
  apply wp_bind.
  eapply wp_keeps with (f := files_of); [destruct err0; keeps_auto|].
  intros [] w5 Hw5. rewrite Hw4 in Hw5.
  destruct (files_of_eq w5 w Hw5) as [Hconfig Hdisk].
  apply wp_bind. unfold wp at 1. cbn [GetSolutionPath fst snd].
  apply wp_bind. unfold wp at 1. cbn [GetSolutionPath fst snd].
  rewrite Hconfig.
  destruct (HasPrefix _ _) eqn:Hguard; cbn [negb].
  2: { apply wp_nothing_written; [exact Hw5 | keeps_auto |].
       intros. rewrite !bind_run. discriminate. }
  apply wp_bind. unfold wp at 1. rewrite WriteFile_run.
  destruct (disk_ok w5); cbn [fst snd].
  2: { apply wp_nothing_written; [exact Hw5 | keeps_auto |].
       intros. rewrite !bind_run. discriminate. }
  match goal with
  | |- wp ?m _ ?w6 =>
      assert (Hkeep : files_of (snd (m w6)) = files_of w6)
        by (apply (ltac:(keeps_auto) : keeps files_of m));
      assert (Hreply : fst (m w6) = Redirect ("/user/" ++ up_name r))
  end.
  { rewrite bind_run. destruct (fst (CrackmeByHexId _ _)).
    rewrite !bind_run. reflexivity. }
  unfold wp, upload_outcome.
  apply files_of_eq in Hkeep. cbn [config disk] in Hkeep.
  destruct Hkeep as [Hc' Hd']. split; [congruence|]. right.
  exists (Solution_HexId solution), header, data.
  repeat split; try assumption. rewrite Hd', Hdisk. reflexivity.
Qed.

Lemma Configure_SolutionPath (Getenv : string -> string) :
  SolutionPath (Configure Getenv) <> "".
Proof.
  unfold Configure. cbn [SolutionPath].
  destruct (Getenv "SOLUTION_STORAGE_PATH" =? "") eqn:E.
  - discriminate.
  - apply String.eqb_neq, E.
Qed.

(** C1. With the storage roots taken from [Configure], an upload either
    writes nothing to disk, and then its answer is not the redirect of a
    success, or it writes exactly one file, at the path joined from the
    root and [{username}+++{hexid}+++{filename}] (base name, then
    [sanitize.Name]); that path is in normal form, has the root followed by
    a separator as a strict prefix and, unless the root consists of [..]
    elements only, leads from every working directory to a place below the
    one the root leads to, through plain names.  This holds for every file
    name, every user name and every sanitizer.  For the file name
    solve.zip, which the sanitizer leaves as it is, of user alice and
    identifier 507f191e810c19729de860ea, the stored name is
    alice+++507f191e810c19729de860ea+++solve.zip. *)
Theorem upload_path_contained (sanitize_HTML sanitize_Name : string -> string)
    (Getenv : string -> string) (r : UploadRequest) (w : World) :
  config w = Configure Getenv ->
  let root := SolutionPath (config w) in
  let reply := fst (UploadSolutionPOST sanitize_HTML sanitize_Name r w) in
  let w' := snd (UploadSolutionPOST sanitize_HTML sanitize_Name r w) in
  ((disk w' = disk w /\ forall url, reply <> Redirect url) \/
   exists hexid header data tail,
     let path :=
       stored_path sanitize_Name root (up_name r) hexid (Filename header) in
     up_file r = Some (header, Some data) /\
     disk w' = disk w ++ [(path, data)] /\
     reply = Redirect ("/user/" ++ up_name r) /\
     path = (root ++ String Separator tail)%string /\
     tail <> "" /\
     Clean path = path /\
     ((exists e, In e (split_slash root) /\ e <> "..") ->
      Forall (fun e => plain_name e = true) (split_slash tail) /\
      forall cwd, location cwd path = location cwd root ++ split_slash tail)) /\
  (sanitize_Name "solve.zip" = "solve.zip" ->
   stored_name sanitize_Name "alice" "507f191e810c19729de860ea" "solve.zip"
     = "alice+++507f191e810c19729de860ea+++solve.zip").
Proof.
  intros Hcfg. cbv zeta. split.
  - pose proof (upload_writes_guarded sanitize_HTML sanitize_Name r w) as H.
    unfold wp, upload_outcome in H.
    destruct H as [_ [H | (hexid & header & data & Hfile & Hguard & Hdisk
                           & Hreply)]].
    + left. exact H.
    + right. unfold stored_path in *.
      assert (Hroot : SolutionPath (config w) <> "")
        by (rewrite Hcfg; apply Configure_SolutionPath).
      destruct (guarded_path _ _ Hroot Hguard)
        as (Hclean & tail & Hne & Heq & Hinside).
      exists hexid, header, data, tail. repeat split; try assumption.
      * apply Hinside. assumption.
      * apply Hinside. assumption.
  - intros Hname. unfold stored_name.
    change (Base "solve.zip") with "solve.zip". rewrite Hname. reflexivity.
Qed.

Lemma upload_path_contained_witness :
  config sample_world = Configure no_env /\
  keep_allowed "solve.zip" = "solve.zip" /\
  stored_name keep_allowed "alice" "507f191e810c19729de860ea" "solve.zip"
    = "alice+++507f191e810c19729de860ea+++solve.zip" /\
  disk (snd (UploadSolutionPOST (fun s => s) keep_allowed traversal_upload
                                sample_world))
    = [("tmp/solution/alice+++507f191e810c19729de860ea+++passwd", "data")] /\
  forall cwd,
    location cwd "tmp/solution/alice+++507f191e810c19729de860ea+++passwd"
      = location cwd "tmp/solution"
        ++ ["alice+++507f191e810c19729de860ea+++passwd"].
Proof.
  destruct (upload_path_contained (fun s => s) keep_allowed no_env
              traversal_upload sample_world eq_refl) as [Hmain Hname].
  assert (Hd : disk (snd (UploadSolutionPOST (fun s => s) keep_allowed
                            traversal_upload sample_world))
               = [("tmp/solution/alice+++507f191e810c19729de860ea+++passwd",
                   "data")])
    by (vm_compute; reflexivity).
  split; [reflexivity|]. split; [reflexivity|].
  split; [exact (Hname eq_refl)|]. split; [exact Hd|].
  destruct Hmain as [[Hsame _] | (hexid & header & data & tail & Hmain)].
  - rewrite Hd in Hsame. discriminate Hsame.
  - cbv zeta in Hmain.
    change (SolutionPath (config sample_world)) with "tmp/solution" in Hmain.
    change (up_name traversal_upload) with "alice" in Hmain.
    destruct Hmain as (_ & Hdisk & _ & Heq & _ & _ & Hinside).
    rewrite Hd in Hdisk. cbn [sample_world disk app] in Hdisk.
    injection Hdisk as Hpath _. rewrite <- Hpath in Heq, Hinside.
    cbn [append] in Heq. injection Heq as Htail. subst tail.
    destruct Hinside as [_ Hloc].
    + exists "tmp". split; [left; reflexivity | discriminate].
    + exact Hloc.
Defined.

(* ================================================================== *)
(** * Further properties of the packages *)

(** Unfolds the functions of package [model] and the primitives. *)
Ltac run_store :=
  cbv [CountUsers UserByHexId AllUsersVisible UserCreate UpdateUserPassword
       CountCommentsByUser CountCommentsByCrackme CommentsByUser
       CommentsByCrackMe CommentCreate CountSolutions CountSolutionsByUser
       CountSolutionsByCrackme SolutionByHexId SolutionsByUser
       SolutionsByUserAndCrackMe SolutionsByCrackme SolutionCreate
       CrackmeByHexId NotificationAdd FindOne Find InsertOne UpdateOne
       CountDocuments EstimatedDocumentCount driver bind ret CheckConnection
       emit with_db standardizeError coll_get coll_set coll_name
       Collection_user Collection_crackme Collection_comment
       Collection_solution Collection_notification NewObjectID Now AddFlash
       Println Println_err options_Find SetSort SetLimit opt_sort opt_limit
       fst snd connection db crackme comment trace fresh clock config disk
       disk_ok flashes user solution notification].

Ltac run_store_in H :=
  cbv [CountUsers UserByHexId AllUsersVisible UserCreate UpdateUserPassword
       CountCommentsByUser CountCommentsByCrackme CommentsByUser
       CommentsByCrackMe CommentCreate CountSolutions CountSolutionsByUser
       CountSolutionsByCrackme SolutionByHexId SolutionsByUser
       SolutionsByUserAndCrackMe SolutionsByCrackme SolutionCreate
       CrackmeByHexId NotificationAdd FindOne Find InsertOne UpdateOne
       CountDocuments EstimatedDocumentCount driver bind ret CheckConnection
       emit with_db standardizeError coll_get coll_set coll_name
       Collection_user Collection_crackme Collection_comment
       Collection_solution Collection_notification NewObjectID Now AddFlash
       Println Println_err options_Find SetSort SetLimit opt_sort opt_limit
       fst snd connection db crackme comment trace fresh clock config disk
       disk_ok flashes user solution notification] in H.

(** A world with a connection, taken apart. *)
Ltac connected w Hc :=
  let conn := fresh "conn" in
  destruct w as [conn [? ? ? ? ?] ? ? ? ? ? ? ?];
  cbn [connection] in Hc; subst conn.

Lemma bson_string_omitempty_true (field query : string) :
  bson_string_omitempty field query = true <-> field = query /\ query <> "".
Proof.
  unfold bson_string_omitempty. rewrite andb_true_iff, negb_true_iff.
  rewrite String.eqb_eq, String.eqb_neq. split.
  - intros [Hne ->]. auto.
  - intros [-> Hne]. auto.
Qed.

Lemma bson_oid_omitempty_true (field query : ObjectID) :
  bson_oid_omitempty field query = true
  <-> field = query /\ query <> NilObjectID.
Proof.
  unfold bson_oid_omitempty. rewrite andb_true_iff, negb_true_iff.
  rewrite N.eqb_eq, N.eqb_neq. split.
  - intros [Hne ->]. auto.
  - intros [-> Hne]. auto.
Qed.

Lemma find_app {A : Type} (f : A -> bool) (l1 l2 : list A) :
  find f (l1 ++ l2) =
    match find f l1 with
    | Some x => Some x
    | None => find f l2
    end.
Proof.
  induction l1 as [|x l1 IH]; cbn; [reflexivity|].
  destruct (f x); [reflexivity | exact IH].
Qed.

Lemma hex_digits_length (n : nat) (v : N) (acc : string) :
  String.length (hex_digits n v acc) = n + String.length acc.
Proof.
  revert v acc. induction n as [|n IH]; intros v acc; cbn; [reflexivity|].
  rewrite IH. cbn. lia.
Qed.

Lemma Hex_length (o : ObjectID) : String.length (Hex o) = 24.
Proof. unfold Hex. rewrite hex_digits_length. reflexivity. Qed.

Lemma Hex_not_empty (o : ObjectID) : Hex o <> "".
Proof.
  intros H. pose proof (Hex_length o) as Hl. rewrite H in Hl. discriminate Hl.
Qed.

Lemma sort_by_length {A : Type} (leb : A -> A -> bool) (l : list A) :
  length (sort_by leb l) = length l.
Proof. apply Permutation_length, sort_by_perm. Qed.

(** ** Changing a password *)

Lemma update_first_spec {A : Type} (f : A -> bool) (g : A -> A) (l : list A) :
  (Forall (fun x => f x = false) l /\ update_first f g l = (0%Z, l)) \/
  exists l1 u l2,
    l = l1 ++ u :: l2 /\ Forall (fun x => f x = false) l1 /\ f u = true /\
    update_first f g l = (1%Z, l1 ++ g u :: l2).
Proof.
  induction l as [|x l IH]; cbn.
  - left. split; [constructor | reflexivity].
  - destruct (f x) eqn:Hx.
    + right. exists [], x, l. repeat split; auto.
    + destruct IH as [[Hall Heq] | (l1 & u & l2 & Hl & Hall & Hu & Heq)].
      * left. rewrite Heq. split; [constructor; assumption | reflexivity].
      * right. exists (x :: l1), u, l2. rewrite Heq. subst l.
        repeat split; auto.
Qed.

Lemma UpdateUserPassword_connected (username hashedPassword : string)
    (w : World) :
  connection w = true -> username <> "" -> hashedPassword <> "" ->
  UpdateUserPassword username hashedPassword w =
    (let r := update_first
                (fun u => bson_string_omitempty (User_Name u) username)
                (set_Password hashedPassword) (user (db w)) in
     (if (fst r =? 0)%Z
      then Some (ErrNew "no user found with the provided username")
      else None,
      mkWorld true
        (mkStore (snd r) (crackme (db w)) (solution (db w)) (comment (db w))
                 (notification (db w)))
        (fresh w) (clock w) (config w) (disk w) (disk_ok w) (flashes w)
        (trace w ++ [EvDriver "UpdateOne" "user"]))).
Proof.
  intros Hc Hu Hp. apply String.eqb_neq in Hu. apply String.eqb_neq in Hp.
  connected w Hc.
  unfold UpdateUserPassword. rewrite Hu, Hp.
  unfold UpdateOne, driver, bind, emit, ret, with_db. cbn.
  destruct (update_first _ _ _) as [n us']. cbn.
  destruct (n =? 0)%Z; reflexivity.
Qed.

Lemma omitempty_name_false (username : string) (l : list User) :
  username <> "" ->
  Forall (fun u => bson_string_omitempty (User_Name u) username = false) l ->
  Forall (fun u => User_Name u <> username) l.
Proof.
  intros Hne. apply Forall_impl. intros u Hf Heq.
  assert (Ht : bson_string_omitempty (User_Name u) username = true)
    by (apply bson_string_omitempty_true; auto).
  congruence.
Qed.

(** X2.  [UpdateUserPassword] refuses an empty user name or an empty hash
    before any call to the store.  With a connection it looks the user up by
    the exact name: when no stored user bears it, the error says so and the
    store is as before; otherwise the first user of that name, and no other
    document, gets the new hash. *)
Theorem UpdateUserPassword_exact_name (username hashedPassword : string)
    (w : World) :
  connection w = true -> username <> "" -> hashedPassword <> "" ->
  let err := fst (UpdateUserPassword username hashedPassword w) in
  let w' := snd (UpdateUserPassword username hashedPassword w) in
  (forall p w0,
     UpdateUserPassword "" p w0
       = (Some (ErrNew "username cannot be empty"), w0)) /\
  (forall w0,
     UpdateUserPassword username "" w0
       = (Some (ErrNew "hashed password cannot be empty"), w0)) /\
  crackme (db w') = crackme (db w) /\ solution (db w') = solution (db w) /\
  comment (db w') = comment (db w) /\
  notification (db w') = notification (db w) /\
  ((Forall (fun u => User_Name u <> username) (user (db w)) /\
    err = Some (ErrNew "no user found with the provided username") /\
    user (db w') = user (db w)) \/
   exists before u after,
     user (db w) = before ++ u :: after /\
     Forall (fun v => User_Name v <> username) before /\
     User_Name u = username /\
     err = None /\
     user (db w') = before ++ set_Password hashedPassword u :: after).
Proof.
  intros Hc Hu Hp. cbv zeta.
  rewrite (UpdateUserPassword_connected username hashedPassword w Hc Hu Hp).
  cbv zeta. cbn [fst snd db user crackme solution comment notification].
  split; [reflexivity|]. split.
  { intros w0. unfold UpdateUserPassword.
    apply String.eqb_neq in Hu. rewrite Hu. reflexivity. }
  repeat (split; [reflexivity|]).
  destruct (update_first_spec
              (fun u => bson_string_omitempty (User_Name u) username)
              (set_Password hashedPassword) (user (db w)))
    as [[Hall Heq] | (l1 & u & l2 & Hl & Hall & Hfu & Heq)]; rewrite Heq; cbn.
  - left. split; [apply omitempty_name_false; assumption|]. auto.
  - right. exists l1, u, l2. apply bson_string_omitempty_true in Hfu.
    repeat split; try tauto. apply omitempty_name_false; assumption.
Qed.

Lemma UpdateUserPassword_exact_name_witness :
  fst (UpdateUserPassword "elvis" "newhash" elvis_world) = None /\
  map User_Password
      (user (db (snd (UpdateUserPassword "elvis" "newhash" elvis_world))))
    = ["newhash"] /\
  fst (UpdateUserPassword "Elvis" "newhash" elvis_world)
    = Some (ErrNew "no user found with the provided username").
Proof.
  destruct (UpdateUserPassword_exact_name "elvis" "newhash" elvis_world
              eq_refl ltac:(discriminate) ltac:(discriminate))
    as (_ & _ & _ & _ & _ & _ & [[Hall _] | (b & u & a & _ & _ & _ & Herr & _)]).
  - exfalso. inversion Hall as [|? ? Hne _]. apply Hne. reflexivity.
  - split; [exact Herr|]. split; reflexivity.
Defined.

(** ** Creating documents *)

Lemma CrackmeByHexId_connected (hexid : string) (w : World) :
  connection w = true ->
  fst (CrackmeByHexId hexid w) =
    match find (crackme_with_hexid hexid) (crackme (db w)) with
    | Some c => (c, None)
    | None => (zeroCrackme, Some ErrNoResult)
    end.
Proof.
  intros Hc. connected w Hc. run_store. unfold crackme_with_hexid.
  destruct (find _ _); reflexivity.
Qed.

Lemma CrackmeByHexId_found (hexid : string) (w : World) (c : Crackme) :
  connection w = true ->
  fst (CrackmeByHexId hexid w) = (c, None) ->
  find (crackme_with_hexid hexid) (crackme (db w)) = Some c /\
  Crackme_HexId c = hexid /\ hexid <> "".
Proof.
  intros Hc H. rewrite (CrackmeByHexId_connected hexid w Hc) in H.
  destruct (find _ _) as [c'|] eqn:Hfind; [|discriminate H].
  injection H as ->. split; [reflexivity|].
  apply find_some in Hfind. destruct Hfind as [_ Hf].
  apply bson_string_omitempty_true in Hf. exact Hf.
Qed.

Lemma SolutionCreate_connected (info username hexid : string) (w : World) :
  connection w = true ->
  SolutionCreate info username hexid w =
    match find (crackme_with_hexid hexid) (crackme (db w)) with
    | Some c =>
        (None,
         mkWorld true
           (mkStore (user (db w)) (crackme (db w))
                    (solution (db w) ++ [new_solution w info username c])
                    (comment (db w)) (notification (db w)))
           (fresh w + 1)%N (clock w + 1)%Z (config w) (disk w) (disk_ok w)
           (flashes w)
           ((trace w ++ [EvDriver "FindOne" "crackme"])
              ++ [EvDriver "InsertOne" "solution"]))
    | None =>
        (Some ErrNoResult,
         mkWorld true (db w) (fresh w) (clock w) (config w) (disk w)
                 (disk_ok w) (flashes w)
                 (trace w ++ [EvDriver "FindOne" "crackme"]))
    end.
Proof.
  intros Hc. connected w Hc. run_store. unfold crackme_with_hexid.
  destruct (find _ _); reflexivity.
Qed.

Lemma CommentCreate_connected (content username hexid : string) (w : World) :
  connection w = true ->
  CommentCreate content username hexid w =
    match find (crackme_with_hexid hexid) (crackme (db w)) with
    | Some c =>
        (None,
         mkWorld true
           (mkStore (user (db w)) (crackme (db w)) (solution (db w))
                    (comment (db w) ++ [new_comment w content username hexid c])
                    (notification (db w)))
           (fresh w + 1)%N (clock w + 1)%Z (config w) (disk w) (disk_ok w)
           (flashes w)
           ((trace w ++ [EvDriver "FindOne" "crackme"])
              ++ [EvDriver "InsertOne" "comment"]))
    | None =>
        (Some ErrNoResult,
         mkWorld true (db w) (fresh w) (clock w) (config w) (disk w)
                 (disk_ok w) (flashes w)
                 (trace w ++ [EvDriver "FindOne" "crackme"]))
    end.
Proof.
  intros Hc. connected w Hc. run_store. unfold crackme_with_hexid.
  destruct (find _ _); reflexivity.
Qed.

Lemma UserCreate_connected (name email password : string) (w : World) :
  connection w = true ->
  UserCreate name email password w =
    (None,
     mkWorld true
       (mkStore (user (db w) ++ [new_user w name email password])
                (crackme (db w)) (solution (db w)) (comment (db w))
                (notification (db w)))
       (fresh w + 1)%N (clock w) (config w) (disk w) (disk_ok w) (flashes w)
       (trace w ++ [EvDriver "InsertOne" "user"])).
Proof. intros Hc. connected w Hc. reflexivity. Qed.

Lemma CountSolutionsByUser_connected (username : string) (w : World) :
  connection w = true ->
  fst (CountSolutionsByUser username w) =
    (Z.of_nat (length (filter (visible_by_author username) (solution (db w)))),
     None).
Proof. intros Hc. connected w Hc. reflexivity. Qed.

Lemma SolutionsByUser_connected (username : string) (w : World) :
  connection w = true ->
  fst (SolutionsByUser username w) =
    (sort_by Solution_created_at_desc
       (filter (visible_by_author username) (solution (db w))),
     None).
Proof. intros Hc. connected w Hc. reflexivity. Qed.

Lemma SolutionsByCrackme_connected (objid : ObjectID) (w : World) :
  connection w = true ->
  fst (SolutionsByCrackme objid w) =
    (filter (visible_of_crackme objid) (solution (db w)), None).
Proof. intros Hc. connected w Hc. reflexivity. Qed.

Lemma CountSolutionsByCrackme_filter (hexid : string) (w : World) :
  connection w = true ->
  fst (CountSolutionsByCrackme hexid w) =
    (Z.of_nat
       (length (filter (visible_of_crackme (fst (ObjectIDFromHex hexid)))
                       (solution (db w)))),
     None).
Proof.
  intros Hc. connected w Hc. run_store.
  destruct (ObjectIDFromHex hexid). reflexivity.
Qed.

Lemma SolutionByHexId_connected (hexid : string) (w : World) :
  connection w = true ->
  fst (SolutionByHexId hexid w) =
    match find (visible_with_hexid hexid) (solution (db w)) with
    | Some s => (s, None)
    | None => (zeroSolution, Some ErrNoDocuments)
    end.
Proof.
  intros Hc. connected w Hc. run_store. unfold visible_with_hexid.
  destruct (find _ _); reflexivity.
Qed.

Lemma CountSolutions_connected (w : World) :
  connection w = true ->
  fst (CountSolutions w) = (Z.of_nat (length (solution (db w))), None).
Proof. intros Hc. connected w Hc. reflexivity. Qed.

Lemma CommentsByCrackMe_connected (hexid : string) (w : World) :
  connection w = true ->
  fst (CommentsByCrackMe hexid w) =
    (sort_by Comment_created_at_asc
       (filter (visible_on_crackme hexid) (comment (db w))),
     None).
Proof. intros Hc. connected w Hc. reflexivity. Qed.

Lemma CountCommentsByCrackme_filter (hexid : string) (w : World) :
  connection w = true ->
  fst (CountCommentsByCrackme hexid w) =
    (Z.of_nat (length (filter (visible_on_crackme hexid) (comment (db w)))),
     None).
Proof. intros Hc. connected w Hc. reflexivity. Qed.

Lemma SolutionsByUserAndCrackMe_connected (username hexid : string)
    (w : World) :
  connection w = true ->
  fst (SolutionsByUserAndCrackMe username hexid w) =
    match find (by_user_on_crackme username
                  (Crackme_ObjectId (fst (fst (CrackmeByHexId hexid w)))))
               (solution (db w)) with
    | Some s => (s, None)
    | None => (zeroSolution, Some ErrNoDocuments)
    end.
Proof.
  intros Hc. rewrite (CrackmeByHexId_connected hexid w Hc).
  connected w Hc. run_store. unfold by_user_on_crackme, crackme_with_hexid.
  destruct (find (fun c => bson_string_omitempty (Crackme_HexId c) hexid) _);
    cbn [fst Crackme_ObjectId]; destruct (find _ _); reflexivity.
Qed.

Lemma filter_app_invisible {A : Type} (f : A -> bool) (l : list A) (x : A) :
  f x = false -> filter f (l ++ [x]) = filter f l.
Proof.
  intros Hx. rewrite filter_app. cbn. rewrite Hx. apply app_nil_r.
Qed.

Lemma find_app_invisible {A : Type} (f : A -> bool) (l : list A) (x : A) :
  f x = false -> find f (l ++ [x]) = find f l.
Proof.
  intros Hx. rewrite find_app. cbn. rewrite Hx. destruct (find f l); reflexivity.
Qed.



(** X4.  With a connection, [CommentCreate] for a crackme that is found
    stores exactly one comment, visible at once and not deleted, under the
    hex id of the request and the name of the crackme.  The comment is
    counted and listed straight away: [CountCommentsByCrackme] for that hex
    id goes up by one, and [CommentsByCrackMe] holds the new comment.  When
    the crackme is not found, the error is handed back and the store stays
    as it was. *)
Theorem CommentCreate_stores_visible (content username hexid : string)
    (w : World) :
  connection w = true ->
  let err := fst (CommentCreate content username hexid w) in
  let w' := snd (CommentCreate content username hexid w) in
  match fst (CrackmeByHexId hexid w) with
  | (c, None) =>
      err = None /\
      comment (db w')
        = comment (db w) ++ [new_comment w content username hexid c] /\
      user (db w') = user (db w) /\ crackme (db w') = crackme (db w) /\
      solution (db w') = solution (db w) /\
      notification (db w') = notification (db w) /\
      fst (CountCommentsByCrackme hexid w') =
        ((fst (fst (CountCommentsByCrackme hexid w)) + 1)%Z, None) /\
      In (new_comment w content username hexid c)
         (fst (fst (CommentsByCrackMe hexid w')))
  | (_, Some e) => err = Some e /\ db w' = db w
  end.
Proof.
  intros Hc. cbv zeta.
  pose proof (CrackmeByHexId_found hexid w) as Hfound.
  rewrite (CrackmeByHexId_connected hexid w Hc) in *.
  rewrite (CommentCreate_connected content username hexid w Hc).
  destruct (find (crackme_with_hexid hexid) (crackme (db w))) as [c|];
    cbn [fst snd db]; [|split; reflexivity].
  destruct (Hfound c Hc eq_refl) as (_ & _ & Hne).
  set (w' := mkWorld _ _ _ _ _ _ _ _ _).
  assert (Hc' : connection w' = true) by reflexivity.
  assert (Hs : comment (db w')
               = comment (db w) ++ [new_comment w content username hexid c])
    by reflexivity.
  assert (Hvis : visible_on_crackme hexid
                   (new_comment w content username hexid c) = true).
  { unfold visible_on_crackme. cbn. rewrite andb_true_r.
    apply bson_string_omitempty_true. auto. }
  repeat (split; [reflexivity|]).
  split.
  { rewrite !CountCommentsByCrackme_filter by assumption. cbn [fst].
    rewrite Hs, filter_app, length_app. cbn [filter]. rewrite Hvis. cbn.
    f_equal. lia. }
  rewrite (CommentsByCrackMe_connected hexid w' Hc'). cbn [fst].
  apply (Permutation_in _ (Permutation_sym (sort_by_perm _ _))).
  rewrite Hs. apply filter_In. split; [|exact Hvis].
  apply in_or_app. right. left. reflexivity.
Qed.

Lemma CommentCreate_stores_visible_witness :
  fst (CommentCreate "well done" "alice" "507f1f77bcf86cd799439011"
                     sample_world) = None /\
  fst (CountCommentsByCrackme "507f1f77bcf86cd799439011"
         (snd (CommentCreate "well done" "alice" "507f1f77bcf86cd799439011"
                             sample_world))) = (1%Z, None).
Proof.
  pose proof (CommentCreate_stores_visible "well done" "alice"
                "507f1f77bcf86cd799439011" sample_world eq_refl) as H.
  cbv zeta in H.
  change (fst (CrackmeByHexId "507f1f77bcf86cd799439011" sample_world))
    with (sample_crackme, @None error) in H.
  cbv iota beta in H.
  destruct H as (Herr & _ & _ & _ & _ & _ & Hcount & _).
  split; [exact Herr|]. rewrite Hcount. reflexivity.
Defined.

(** X5.  Insert and lookup of a solution.  After a successful
    [SolutionCreate] by a user for a crackme, [SolutionsByUserAndCrackMe]
    answers a solution of that user for that crackme: the record just
    stored when the lookup found none before, and otherwise the same older
    record as before. *)
Theorem SolutionCreate_then_lookup (info username hexid : string) (w : World)
    (c : Crackme) :
  connection w = true ->
  fst (CrackmeByHexId hexid w) = (c, None) ->
  Crackme_ObjectId c <> NilObjectID ->
  username <> "" ->
  let w' := snd (SolutionCreate info username hexid w) in
  match fst (SolutionsByUserAndCrackMe username hexid w) with
  | (older, None) =>
      fst (SolutionsByUserAndCrackMe username hexid w') = (older, None)
  | (_, Some _) =>
      fst (SolutionsByUserAndCrackMe username hexid w')
        = (new_solution w info username c, None)
  end.
Proof.
  intros Hc Hfound Hnil Hname. cbv zeta.
  destruct (CrackmeByHexId_found hexid w c Hc Hfound) as (Hfind & _ & _).
  pose proof (SolutionCreate_connected info username hexid w Hc) as Hrun.
  rewrite Hfind in Hrun. rewrite Hrun. cbn [snd].
  set (w' := mkWorld _ _ _ _ _ _ _ _ _).
  assert (Hc' : connection w' = true) by reflexivity.
  assert (Hfound' : fst (CrackmeByHexId hexid w') = (c, None)).
  { rewrite (CrackmeByHexId_connected hexid w' Hc'). cbn [w' db crackme].
    rewrite Hfind. reflexivity. }
  rewrite (SolutionsByUserAndCrackMe_connected username hexid w Hc).
  rewrite (SolutionsByUserAndCrackMe_connected username hexid w' Hc').
  rewrite Hfound, Hfound'. cbn [fst].
  cbn [w' db solution]. rewrite find_app.
  destruct (find _ (solution (db w))) as [older|]; [reflexivity|].
  cbn [find].
  assert (Hnew : by_user_on_crackme username (Crackme_ObjectId c)
                   (new_solution w info username c) = true).
  { unfold by_user_on_crackme. cbn. apply andb_true_iff. split.
    - apply bson_oid_omitempty_true. auto.
    - apply bson_string_omitempty_true. auto. }
  rewrite Hnew. reflexivity.
Qed.

Lemma SolutionCreate_then_lookup_witness :
  fst (SolutionsByUserAndCrackMe "alice" "507f1f77bcf86cd799439011"
         (snd (SolutionCreate "writeup" "alice" "507f1f77bcf86cd799439011"
                              sample_world)))
    = (first_solution, None).
Proof.
  pose proof (SolutionCreate_then_lookup "writeup" "alice"
                "507f1f77bcf86cd799439011" sample_world sample_crackme
                eq_refl eq_refl ltac:(discriminate) ltac:(discriminate)) as H.
  cbv zeta in H.
  change (fst (SolutionsByUserAndCrackMe "alice" "507f1f77bcf86cd799439011"
                 sample_world))
    with (zeroSolution, Some ErrNoDocuments) in H.
  exact H.
Defined.

(** ** Users: insert and lookup *)

Lemma filter_all {A : Type} (l : list A) : filter (fun _ => true) l = l.
Proof. induction l as [|x l IH]; cbn; [reflexivity | rewrite IH; reflexivity]. Qed.

Lemma CountUsers_connected (w : World) :
  connection w = true ->
  fst (CountUsers w) = (Z.of_nat (length (user (db w))), None).
Proof.
  intros Hc. connected w Hc. run_store. rewrite filter_all. reflexivity.
Qed.

Lemma UserByHexId_connected (hexid : string) (w : World) :
  connection w = true ->
  fst (UserByHexId hexid w) =
    match find (user_with_hexid hexid) (user (db w)) with
    | Some u => (u, None)
    | None => (zeroUser, Some ErrNoResult)
    end.
Proof.
  intros Hc. connected w Hc. run_store. unfold user_with_hexid.
  destruct (find _ _); reflexivity.
Qed.

Lemma AllUsersVisible_connected (w : World) :
  connection w = true ->
  fst (AllUsersVisible w) =
    (filter (fun u => bson_bool (User_Visible u) true) (user (db w)), None).
Proof. intros Hc. connected w Hc. reflexivity. Qed.

Lemma find_none_iff {A : Type} (f : A -> bool) (l : list A) :
  (forall x, In x l -> f x = false) -> find f l = None.
Proof.
  induction l as [|x l IH]; cbn; intros H; [reflexivity|].
  rewrite (H x (or_introl eq_refl)). apply IH. intros y Hy. apply H. auto.
Qed.

(** X6.  With a connection [UserCreate] always succeeds: it does not look
    at the users already stored, so a name or an address in use is not
    refused here.  It appends one user, visible and not deleted, with the
    three counters at zero and the hexadecimal form of its identifier.
    When no stored user bears that hex id, [UserByHexId] finds the new user
    under it; [CountUsers] goes up by one and [AllUsersVisible] lists the
    new user. *)
Theorem UserCreate_then_UserByHexId (name email password : string)
    (w : World) :
  connection w = true ->
  (forall u, In u (user (db w)) -> User_HexId u <> Hex (fresh w)) ->
  let created := new_user w name email password in
  let w' := snd (UserCreate name email password w) in
  fst (UserCreate name email password w) = None /\
  user (db w') = user (db w) ++ [created] /\
  crackme (db w') = crackme (db w) /\ solution (db w') = solution (db w) /\
  comment (db w') = comment (db w) /\
  notification (db w') = notification (db w) /\
  fst (UserByHexId (Hex (fresh w)) w') = (created, None) /\
  fst (CountUsers w') = ((fst (fst (CountUsers w)) + 1)%Z, None) /\
  In created (fst (fst (AllUsersVisible w'))).
Proof.
  intros Hc Hfresh. cbv zeta.
  rewrite (UserCreate_connected name email password w Hc). cbn [fst snd].
  set (w' := mkWorld _ _ _ _ _ _ _ _ _).
  assert (Hc' : connection w' = true) by reflexivity.
  assert (Hu : user (db w')
               = user (db w) ++ [new_user w name email password])
    by reflexivity.
  repeat (split; [reflexivity|]).
  split.
  { rewrite (UserByHexId_connected _ w' Hc'), Hu, find_app.
    rewrite find_none_iff.
    - cbn [find]. unfold user_with_hexid at 1. cbn [new_user User_HexId].
      replace (bson_string_omitempty (Hex (fresh w)) (Hex (fresh w)))
        with true; [reflexivity|].
      symmetry. apply bson_string_omitempty_true. split; [reflexivity|].
      apply Hex_not_empty.
    - intros u Hin. unfold user_with_hexid.
      destruct (bson_string_omitempty (User_HexId u) (Hex (fresh w))) eqn:E;
        [|reflexivity].
      apply bson_string_omitempty_true in E. destruct E as [E _].
      exfalso. exact (Hfresh u Hin E). }
  split.
  { rewrite (CountUsers_connected w' Hc'), (CountUsers_connected w Hc), Hu.
    cbn [fst]. rewrite length_app. cbn. f_equal. lia. }
  rewrite (AllUsersVisible_connected w' Hc'), Hu. cbn [fst].
  apply filter_In. split; [|reflexivity].
  apply in_or_app. right. left. reflexivity.
Qed.

Lemma UserCreate_then_UserByHexId_witness :
  fst (UserCreate "elvis" "elvis@example.com" "hash" elvis_world) = None /\
  map User_Name
      (user (db (snd (UserCreate "elvis" "elvis@example.com" "hash"
                                 elvis_world))))
    = ["elvis"; "elvis"] /\
  fst (CountUsers (snd (UserCreate "elvis" "elvis@example.com" "hash"
                                   elvis_world))) = (2%Z, None).
Proof.
  destruct (UserCreate_then_UserByHexId "elvis" "elvis@example.com" "hash"
              elvis_world eq_refl) as (Herr & Hu & _ & _ & _ & _ & _ & Hn & _).
  { intros u [<-|[]]. discriminate. }
  split; [exact Herr|]. split; [rewrite Hu; reflexivity|].
  rewrite Hn. reflexivity.
Defined.

(** ** Listings and counts *)

Lemma created_at_asc_total (a b : Comment) :
  Comment_created_at_asc a b = true \/ Comment_created_at_asc b a = true.
Proof. unfold Comment_created_at_asc. lia. Qed.

Lemma created_at_asc_trans (a b c : Comment) :
  Comment_created_at_asc a b = true -> Comment_created_at_asc b c = true ->
  Comment_created_at_asc a c = true.
Proof. unfold Comment_created_at_asc. lia. Qed.

Lemma solution_desc_total (a b : Solution) :
  Solution_created_at_desc a b = true \/ Solution_created_at_desc b a = true.
Proof. unfold Solution_created_at_desc. lia. Qed.

Lemma solution_desc_trans (a b c : Solution) :
  Solution_created_at_desc a b = true -> Solution_created_at_desc b c = true ->
  Solution_created_at_desc a c = true.
Proof. unfold Solution_created_at_desc. lia. Qed.

(** X7.  [CommentsByCrackMe] answers, without an error and without a limit,
    every visible comment stored under the hex id, oldest first; their
    number is the one [CountCommentsByCrackme] gives. *)
Theorem CommentsByCrackMe_oldest_first (hexid : string) (w : World) :
  connection w = true ->
  let result := fst (fst (CommentsByCrackMe hexid w)) in
  snd (fst (CommentsByCrackMe hexid w)) = None /\
  Permutation result (filter (visible_on_crackme hexid) (comment (db w))) /\
  (forall c, In c result <->
     In c (comment (db w)) /\ Comment_CrackMeHexId c = hexid /\
     hexid <> "" /\ Comment_Visible c = true) /\
  StronglySorted
    (fun a b => (Comment_CreatedAt a <= Comment_CreatedAt b)%Z) result /\
  fst (CountCommentsByCrackme hexid w) = (Z.of_nat (length result), None).
Proof.
  intros Hc. cbv zeta. rewrite (CommentsByCrackMe_connected hexid w Hc).
  cbn [fst snd].
  set (matching := filter (visible_on_crackme hexid) (comment (db w))).
  assert (Hperm : Permutation (sort_by Comment_created_at_asc matching)
                              matching) by apply sort_by_perm.
  split; [reflexivity|]. split; [exact Hperm|]. split.
  { intros c. split.
    - intros Hin. apply (Permutation_in _ Hperm) in Hin.
      apply filter_In in Hin. destruct Hin as [Hin Hf].
      unfold visible_on_crackme in Hf. apply andb_true_iff in Hf.
      destruct Hf as [Hh Hv]. apply bson_string_omitempty_true in Hh.
      apply eqb_prop in Hv. tauto.
    - intros (Hin & Hh & Hne & Hv).
      apply (Permutation_in _ (Permutation_sym Hperm)).
      apply filter_In. split; [exact Hin|].
      unfold visible_on_crackme. apply andb_true_iff. split.
      + apply bson_string_omitempty_true. auto.
      + rewrite Hv. reflexivity. }
  split.
  { eapply StronglySorted_weaken;
      [|apply sort_by_sorted;
        [apply created_at_asc_total | apply created_at_asc_trans]].
    intros a b Hab. unfold Comment_created_at_asc in Hab. lia. }
  rewrite (CountCommentsByCrackme_filter hexid w Hc).
  rewrite (Permutation_length Hperm). reflexivity.
Qed.

Lemma CommentsByCrackMe_oldest_first_witness :
  length (fst (fst (CommentsByCrackMe "507f1f77bcf86cd799439011" busy_world)))
    = 60 /\
  fst (CountCommentsByCrackme "507f1f77bcf86cd799439011" busy_world)
    = (60%Z, None).
Proof.
  destruct (CommentsByCrackMe_oldest_first "507f1f77bcf86cd799439011"
              busy_world eq_refl) as (_ & Hperm & _ & _ & Hcount).
  split.
  - rewrite (Permutation_length Hperm). vm_compute. reflexivity.
  - rewrite Hcount, (Permutation_length Hperm). vm_compute. reflexivity.
Defined.

(** X8.  [SolutionsByUser] answers, without an error and without a limit,
    every visible solution of the author, newest first, and
    [CountSolutionsByUser] gives their number; [SolutionsByCrackme] answers
    the visible solutions of a crackme in the order of the store.  A
    solution that is not visible (one that waits for approval) is in none
    of the listings. *)
Theorem SolutionsByUser_newest_first (username : string) (objid : ObjectID)
    (w : World) :
  connection w = true ->
  let result := fst (fst (SolutionsByUser username w)) in
  let of_crackme := fst (fst (SolutionsByCrackme objid w)) in
  snd (fst (SolutionsByUser username w)) = None /\
  (forall s, In s result <->
     In s (solution (db w)) /\ Solution_Author s = username /\
     username <> "" /\ Solution_Visible s = true) /\
  StronglySorted
    (fun a b => (Solution_CreatedAt b <= Solution_CreatedAt a)%Z) result /\
  fst (CountSolutionsByUser username w) = (Z.of_nat (length result), None) /\
  of_crackme = filter (visible_of_crackme objid) (solution (db w)) /\
  (forall s, In s of_crackme -> Solution_Visible s = true).
Proof.
  intros Hc. cbv zeta. rewrite (SolutionsByUser_connected username w Hc).
  rewrite (SolutionsByCrackme_connected objid w Hc). cbn [fst snd].
  set (matching := filter (visible_by_author username) (solution (db w))).
  assert (Hperm : Permutation (sort_by Solution_created_at_desc matching)
                              matching) by apply sort_by_perm.
  split; [reflexivity|]. split.
  { intros s. split.
    - intros Hin. apply (Permutation_in _ Hperm) in Hin.
      apply filter_In in Hin. destruct Hin as [Hin Hf].
      unfold visible_by_author in Hf. apply andb_true_iff in Hf.
      destruct Hf as [Ha Hv]. apply bson_string_omitempty_true in Ha.
      apply eqb_prop in Hv. tauto.
    - intros (Hin & Ha & Hne & Hv).
      apply (Permutation_in _ (Permutation_sym Hperm)).
      apply filter_In. split; [exact Hin|].
      unfold visible_by_author. apply andb_true_iff. split.
      + apply bson_string_omitempty_true. auto.
      + rewrite Hv. reflexivity. }
  split.
  { eapply StronglySorted_weaken;
      [|apply sort_by_sorted;
        [apply solution_desc_total | apply solution_desc_trans]].
    intros a b Hab. unfold Solution_created_at_desc in Hab. lia. }
  split.
  { rewrite (CountSolutionsByUser_connected username w Hc).
    rewrite (Permutation_length Hperm). reflexivity. }
  split; [reflexivity|].
  intros s Hin. apply filter_In in Hin. destruct Hin as [_ Hf].
  unfold visible_of_crackme in Hf. apply andb_true_iff in Hf.
  destruct Hf as [_ Hv]. apply eqb_prop in Hv. exact Hv.
Qed.

Lemma SolutionsByUser_newest_first_witness :
  fst (SolutionsByUser "alice" deleted_world) = ([deleted_solution], None) /\
  fst (CountSolutionsByUser "alice" deleted_world) = (1%Z, None).
Proof.
  destruct (SolutionsByUser_newest_first "alice" 0%N deleted_world eq_refl)
    as (_ & _ & _ & Hcount & _).
  split; [reflexivity|]. rewrite Hcount. reflexivity.
Defined.

Lemma no_solution_of_nil (l : list Solution) :
  filter (visible_of_crackme NilObjectID) l = [].
Proof.
  induction l as [|s l IH]; [reflexivity|].
  cbn. unfold visible_of_crackme at 1, bson_oid_omitempty.
  destruct (Solution_CrackmeId s =? NilObjectID)%N; cbn; exact IH.
Qed.

(** X9.  [CountSolutionsByCrackme] drops the error of [ObjectIDFromHex]:
    for a hex id that is not an object identifier the count is made with
    the nil identifier, which no stored solution matches, and the answer is
    zero without an error.  For a hex id that is one, the count is the
    length of the listing [SolutionsByCrackme] of that identifier. *)
Theorem CountSolutionsByCrackme_invalid_hex (hexid : string) (w : World) :
  connection w = true ->
  match ObjectIDFromHex hexid with
  | (_, Some _) => fst (CountSolutionsByCrackme hexid w) = (0%Z, None)
  | (objid, None) =>
      fst (CountSolutionsByCrackme hexid w) =
        (Z.of_nat (length (fst (fst (SolutionsByCrackme objid w)))), None)
  end.
Proof.
  intros Hc. rewrite (CountSolutionsByCrackme_filter hexid w Hc).
  unfold ObjectIDFromHex.
  destruct (Nat.eqb (String.length hexid) 24);
    [destruct (hex_parse hexid 0) as [v|]|]; cbn [fst].
  - rewrite (SolutionsByCrackme_connected v w Hc). reflexivity.
  - rewrite no_solution_of_nil. reflexivity.
  - rewrite no_solution_of_nil. reflexivity.
Qed.

Lemma CountSolutionsByCrackme_invalid_hex_witness :
  fst (CountSolutionsByCrackme "not-a-hex-id" deleted_world) = (0%Z, None) /\
  fst (CountSolutionsByCrackme "507f1f77bcf86cd799439011" deleted_world)
    = (1%Z, None).
Proof.
  split.
  - exact (CountSolutionsByCrackme_invalid_hex "not-a-hex-id" deleted_world
             eq_refl).
  - pose proof (CountSolutionsByCrackme_invalid_hex
                  "507f1f77bcf86cd799439011" deleted_world eq_refl) as H.
    vm_compute in H. exact H.
Defined.

Lemma CountCommentsByUser_connected (username : string) (w : World) :
  connection w = true ->
  fst (CountCommentsByUser username w) =
    (Z.of_nat (length (filter (by_author username) (comment (db w)))), None).
Proof. intros Hc. connected w Hc. reflexivity. Qed.

Lemma filter_visible_le (username : string) (l : list Comment) :
  length (filter (by_author_visible username) l)
  <= length (filter (by_author username) l).
Proof.
  induction l as [|c l IH]; cbn; [lia|].
  unfold by_author_visible at 1, by_author at 1.
  destruct (bson_string_omitempty (Comment_Author c) username); cbn;
    [destruct (bson_bool (Comment_Visible c) true); cbn; lia | exact IH].
Qed.

Lemma filter_visible_lt (username : string) (l : list Comment) (c : Comment) :
  In c l -> by_author username c = true -> Comment_Visible c = false ->
  length (filter (by_author_visible username) l)
  < length (filter (by_author username) l).
Proof.
  intros Hin Ha Hv. induction l as [|d l IH]; [destruct Hin|].
  destruct Hin as [->|Hin].
  - cbn. unfold by_author_visible at 1. unfold by_author in Ha.
    rewrite Ha, Hv. cbn.
    pose proof (filter_visible_le username l). unfold by_author at 1.
    rewrite Ha. cbn. lia.
  - specialize (IH Hin). cbn.
    unfold by_author_visible at 1, by_author at 1.
    destruct (bson_string_omitempty (Comment_Author d) username); cbn;
      [destruct (bson_bool (Comment_Visible d) true); cbn; lia | exact IH].
Qed.

(** X10.  [CountCommentsByUser] counts every stored comment of the author,
    hidden ones included: its filter has the author only, while
    [CommentsByUser] lists visible comments.  So the count is never below
    the length of the listing, and it is above it as soon as one comment of
    the author is not visible. *)
Theorem CountCommentsByUser_counts_hidden (username : string) (w : World) :
  connection w = true ->
  let count := fst (fst (CountCommentsByUser username w)) in
  let listed := fst (fst (CommentsByUser username w)) in
  fst (CountCommentsByUser username w) =
    (Z.of_nat (length (filter (by_author username) (comment (db w)))), None) /\
  (Z.of_nat (length listed) <= count)%Z /\
  forall c, In c (comment (db w)) -> Comment_Author c = username ->
            username <> "" -> Comment_Visible c = false ->
            (Z.of_nat (length listed) < count)%Z.
Proof.
  intros Hc. cbv zeta.
  rewrite (CountCommentsByUser_connected username w Hc).
  rewrite (CommentsByUser_connected username w Hc). cbn [fst].
  pose proof (filter_visible_le username (comment (db w))) as Hle.
  assert (Hlen : length (firstn 50 (sort_by Comment_created_at_desc
                   (filter (by_author_visible username) (comment (db w)))))
                 <= length (filter (by_author_visible username)
                                   (comment (db w)))).
  { rewrite length_firstn, sort_by_length. lia. }
  split; [reflexivity|]. split; [lia|].
  intros c Hin Ha Hne Hv.
  assert (Hlt := filter_visible_lt username (comment (db w)) c Hin).
  unfold by_author at 1 in Hlt.
  assert (Hf : bson_string_omitempty (Comment_Author c) username = true)
    by (apply bson_string_omitempty_true; auto).
  specialize (Hlt Hf Hv). lia.
Qed.

Lemma CountCommentsByUser_counts_hidden_witness :
  fst (CountCommentsByUser "alice" busy_world) = (60%Z, None) /\
  (Z.of_nat (length (fst (fst (CommentsByUser "alice" busy_world))))
   <= fst (fst (CountCommentsByUser "alice" busy_world)))%Z.
Proof.
  destruct (CountCommentsByUser_counts_hidden "alice" busy_world eq_refl)
    as (Hcount & Hle & _).
  split; [rewrite Hcount; vm_compute; reflexivity | exact Hle].
Defined.

(** X11.  [SolutionByHexId] answers a stored solution only when it is
    visible and bears the hex id; a solution that waits for approval is not
    found.  When there is none the error is the raw "no documents" error of
    the driver: unlike [UserByHexId], which answers [ErrNoResult] in that
    case, [SolutionByHexId] does not pass its error through
    [standardizeError]. *)
Theorem SolutionByHexId_visible_only (hexid : string) (w : World) :
  connection w = true ->
  (forall s, fst (SolutionByHexId hexid w) = (s, None) ->
     In s (solution (db w)) /\ Solution_HexId s = hexid /\
     Solution_Visible s = true) /\
  ((forall s, In s (solution (db w)) -> Solution_HexId s = hexid ->
      Solution_Visible s = false) ->
   fst (SolutionByHexId hexid w) = (zeroSolution, Some ErrNoDocuments)) /\
  ((forall u, In u (user (db w)) -> User_HexId u <> hexid) ->
   fst (UserByHexId hexid w) = (zeroUser, Some ErrNoResult)).
Proof.
  intros Hc. rewrite (SolutionByHexId_connected hexid w Hc).
  rewrite (UserByHexId_connected hexid w Hc). split; [|split].
  - intros s H. destruct (find _ _) as [s'|] eqn:Hfind; [|discriminate H].
    injection H as ->. apply find_some in Hfind. destruct Hfind as [Hin Hf].
    unfold visible_with_hexid in Hf. apply andb_true_iff in Hf.
    destruct Hf as [Hh Hv]. apply bson_string_omitempty_true in Hh.
    apply eqb_prop in Hv. tauto.
  - intros Hnone. rewrite find_none_iff; [reflexivity|].
    intros s Hin. unfold visible_with_hexid.
    destruct (bson_string_omitempty (Solution_HexId s) hexid) eqn:E;
      [|reflexivity].
    apply bson_string_omitempty_true in E. destruct E as [E _].
    rewrite (Hnone s Hin E). reflexivity.
  - intros Hnone. rewrite find_none_iff; [reflexivity|].
    intros u Hin. unfold user_with_hexid.
    destruct (bson_string_omitempty (User_HexId u) hexid) eqn:E;
      [|reflexivity].
    apply bson_string_omitempty_true in E. destruct E as [E _].
    exfalso. exact (Hnone u Hin E).
Qed.

Lemma SolutionByHexId_visible_only_witness :
  In first_solution (solution (db after_first_upload)) /\
  fst (SolutionByHexId "507f191e810c19729de860ea" after_first_upload)
    = (zeroSolution, Some ErrNoDocuments) /\
  fst (UserByHexId "507f191e810c19729de860ea" after_first_upload)
    = (zeroUser, Some ErrNoResult).
Proof.
  assert (Hsol : solution (db after_first_upload) = [first_solution])
    by (vm_compute; reflexivity).
  assert (Husr : user (db after_first_upload) = [])
    by (vm_compute; reflexivity).
  assert (Hc : connection after_first_upload = true)
    by (vm_compute; reflexivity).
  destruct (SolutionByHexId_visible_only "507f191e810c19729de860ea"
              after_first_upload Hc) as (_ & Hs & Hu).
  split; [rewrite Hsol; left; reflexivity|]. split.
  - apply Hs. rewrite Hsol. intros s [<-|[]] _. reflexivity.
  - apply Hu. rewrite Husr. intros u [].
Defined.

(** ** Uploads through the handler *)

Ltac run_upload :=
  cbv [UploadSolutionPOST UploadSolutionGET ReadAll WriteFile GetSolutionPath
       LeaveCommentPOST Validate CommentCreate SolutionCreate CrackmeByHexId
       NotificationAdd SolutionsByUserAndCrackMe FindOne InsertOne driver bind
       ret CheckConnection emit with_db standardizeError coll_get coll_set
       coll_name Collection_crackme Collection_comment Collection_solution
       Collection_notification NewObjectID Now AddFlash Println Println_err
       fst snd connection db crackme comment trace fresh clock config disk
       disk_ok flashes user solution notification cm_comment cm_recaptcha
       cm_name cm_hexid up_name up_hexidcrackme up_info up_file up_recaptcha
       negb].

Ltac run_upload_in H :=
  cbv [UploadSolutionPOST UploadSolutionGET ReadAll WriteFile GetSolutionPath
       LeaveCommentPOST Validate CommentCreate SolutionCreate CrackmeByHexId
       NotificationAdd SolutionsByUserAndCrackMe FindOne InsertOne driver bind
       ret CheckConnection emit with_db standardizeError coll_get coll_set
       coll_name Collection_crackme Collection_comment Collection_solution
       Collection_notification NewObjectID Now AddFlash Println Println_err
       fst snd connection db crackme comment trace fresh clock config disk
       disk_ok flashes user solution notification cm_comment cm_recaptcha
       cm_name cm_hexid up_name up_hexidcrackme up_info up_file up_recaptcha
       negb] in H.

Lemma zeroSolution_not_by_user (username : string) (objid : ObjectID) :
  by_user_on_crackme username objid zeroSolution = false.
Proof. reflexivity. Qed.

(** The lookup of [SolutionsByUserAndCrackMe] answered the zero record:
    there is no solution of the user for the crackme. *)
Lemma no_solution_by_user (username hexid : string) (w : World) (c : Crackme) :
  connection w = true ->
  fst (CrackmeByHexId hexid w) = (c, None) ->
  fst (fst (SolutionsByUserAndCrackMe username hexid w)) = zeroSolution ->
  find (by_user_on_crackme username (Crackme_ObjectId c)) (solution (db w))
    = None.
Proof.
  intros Hc Hfound Hzero.
  rewrite (SolutionsByUserAndCrackMe_connected username hexid w Hc) in Hzero.
  rewrite Hfound in Hzero. cbn [fst] in Hzero.
  destruct (find _ _) as [s|] eqn:Hfind; [|reflexivity].
  cbn [fst] in Hzero. subst s. apply find_some in Hfind.
  destruct Hfind as [_ Hf]. rewrite zeroSolution_not_by_user in Hf.
  discriminate Hf.
Qed.

(** The run of an upload that passes every check, on either answer of the
    disk. *)
Lemma accepted_upload_run
    (sanitize_HTML sanitize_Name : string -> string) (r : UploadRequest)
    (header : FileHeader) (data : string) (w : World) (c : Crackme) :
  connection w = true ->
  fst (CrackmeByHexId (up_hexidcrackme r) w) = (c, None) ->
  Crackme_ObjectId c <> NilObjectID ->
  up_name r <> "" ->
  fst (fst (SolutionsByUserAndCrackMe (up_name r) (up_hexidcrackme r) w))
    = zeroSolution ->
  up_recaptcha r = true ->
  up_file r = Some (header, Some data) ->
  (Size header <= 5000000)%Z ->
  HasPrefix
    (Clean (stored_path sanitize_Name (SolutionPath (config w)) (up_name r)
                        (Hex (fresh w)) (Filename header)))
    (SolutionPath (config w) ++ String Separator "") = true ->
  let stored := new_solution w (sanitize_HTML (up_info r)) (up_name r) c in
  let path :=
    stored_path sanitize_Name (SolutionPath (config w)) (up_name r)
                (Hex (fresh w)) (Filename header) in
  let reply := fst (UploadSolutionPOST sanitize_HTML sanitize_Name r w) in
  let w' := snd (UploadSolutionPOST sanitize_HTML sanitize_Name r w) in
  solution (db w') = solution (db w) ++ [stored] /\
  user (db w') = user (db w) /\ crackme (db w') = crackme (db w) /\
  comment (db w') = comment (db w) /\
  if disk_ok w then
    reply = Redirect ("/user/" ++ up_name r) /\
    disk w' = disk w ++ [(path, data)] /\
    notification (db w') =
      notification (db w) ++
      [mkNotification (up_name r)
         ("Your solution for '" ++ Crackme_Name c ++ "' is waiting approval!")
         (clock w + 1)%Z] /\
    flashes w' =
      flashes w ++
      [mkFlash "Solution uploaded! Should be available soon." FlashSuccess]
  else
    reply = Body (Error ErrIO) /\
    disk w' = disk w /\
    notification (db w') = notification (db w) /\
    flashes w' =
      flashes w ++
      [mkFlash "An error occurred on the server. Please try again later."
               FlashError] /\
    fst (SolutionsByUserAndCrackMe (up_name r) (up_hexidcrackme r) w')
      = (stored, None).
Proof.
  intros Hc Hfound Hnil Hname Hzero Hcaptcha Hfile Hsize Hguard.
  pose proof (no_solution_by_user _ _ w c Hc Hfound Hzero) as Hnone.
  destruct (CrackmeByHexId_found _ w c Hc Hfound) as (Hfind & _ & _).
  assert (Hnew : by_user_on_crackme (up_name r) (Crackme_ObjectId c)
                   (new_solution w (sanitize_HTML (up_info r)) (up_name r) c)
                 = true).
  { unfold by_user_on_crackme. cbn. apply andb_true_iff. split.
    - apply bson_oid_omitempty_true. auto.
    - apply bson_string_omitempty_true. auto. }
  destruct r as [name hexid info file captcha].
  cbn [up_name up_hexidcrackme up_info up_file up_recaptcha] in *.
  subst captcha file.
  destruct w as [conn [us cs ss cms ns] fr cl cfg dk ok fl tr].
  cbn [connection db solution crackme config fresh disk_ok clock] in *.
  subst conn.
  unfold by_user_on_crackme, crackme_with_hexid, new_solution in *.
  cbn [Solution_CrackmeId Solution_Author fresh clock] in Hnew.
  clear Hfound.
  cbv zeta. unfold UploadSolutionPOST. cbv zeta.
  cbn [up_name up_hexidcrackme up_info up_file up_recaptcha].
  rewrite bind_run.
  destruct (SolutionsByUserAndCrackMe name hexid _) as [[sol e] w1] eqn:Hrun.
  cbn [fst snd] in Hzero |- *. subst sol.
  destruct (Solution_eq_dec zeroSolution zeroSolution) as [_|Hne];
    [|contradiction].
  cbn [negb].
  destruct (Size header >? 5000000)%Z eqn:Hgt; [exfalso; lia|].
  run_upload_in Hrun. rewrite Hfind in Hrun. rewrite Hnone in Hrun.
  injection Hrun as _ <-.
  run_upload.
  destruct ok;
    repeat (first [ rewrite Hfind
                  | rewrite find_app, Hnone;
                    cbn [find Solution_CrackmeId Solution_Author];
                    rewrite Hnew
                  | progress cbn [Solution_HexId]; rewrite Hguard ];
            run_upload);
    repeat split; reflexivity.
Qed.

(** X12.  An upload that passes every check (no earlier solution of the
    user for the crackme, reCAPTCHA, file present and within the ceiling,
    payload readable, path under the storage root) and whose file can be
    written stores one pending solution record and one file, named after
    the user, the hex id of the new record and the sanitized file name.
    The submitter gets the notification that the solution waits for
    approval, the success flash is set and the answer is the redirect to
    the page of the user. *)
Theorem upload_stores_record_and_file
    (sanitize_HTML sanitize_Name : string -> string) (r : UploadRequest)
    (header : FileHeader) (data : string) (w : World) (c : Crackme) :
  connection w = true ->
  disk_ok w = true ->
  fst (CrackmeByHexId (up_hexidcrackme r) w) = (c, None) ->
  Crackme_ObjectId c <> NilObjectID ->
  up_name r <> "" ->
  fst (fst (SolutionsByUserAndCrackMe (up_name r) (up_hexidcrackme r) w))
    = zeroSolution ->
  up_recaptcha r = true ->
  up_file r = Some (header, Some data) ->
  (Size header <= 5000000)%Z ->
  HasPrefix
    (Clean (stored_path sanitize_Name (SolutionPath (config w)) (up_name r)
                        (Hex (fresh w)) (Filename header)))
    (SolutionPath (config w) ++ String Separator "") = true ->
  let w' := snd (UploadSolutionPOST sanitize_HTML sanitize_Name r w) in
  fst (UploadSolutionPOST sanitize_HTML sanitize_Name r w)
    = Redirect ("/user/" ++ up_name r) /\
  solution (db w') =
    solution (db w)
    ++ [new_solution w (sanitize_HTML (up_info r)) (up_name r) c] /\
  disk w' =
    disk w
    ++ [(stored_path sanitize_Name (SolutionPath (config w)) (up_name r)
                     (Hex (fresh w)) (Filename header), data)] /\
  notification (db w') =
    notification (db w) ++
    [mkNotification (up_name r)
       ("Your solution for '" ++ Crackme_Name c ++ "' is waiting approval!")
       (clock w + 1)%Z] /\
  flashes w' =
    flashes w ++
    [mkFlash "Solution uploaded! Should be available soon." FlashSuccess] /\
  user (db w') = user (db w) /\ crackme (db w') = crackme (db w) /\
  comment (db w') = comment (db w).
Proof.
  intros Hc Hok Hfound Hnil Hname Hzero Hcaptcha Hfile Hsize Hguard.
  pose proof (accepted_upload_run sanitize_HTML sanitize_Name r header data w
                c Hc Hfound Hnil Hname Hzero Hcaptcha Hfile Hsize Hguard)
    as H.
  cbv zeta in H |- *. rewrite Hok in H. tauto.
Qed.

Lemma upload_stores_record_and_file_witness :
  fst (UploadSolutionPOST (fun s => s) keep_allowed (upload_of_size 4)
                          sample_world) = Redirect "/user/alice" /\
  solution (db after_first_upload) = [first_solution] /\
  disk after_first_upload
    = [("tmp/solution/alice+++507f191e810c19729de860ea+++solve.zip", "data")] /\
  notification (db after_first_upload)
    = [mkNotification "alice"
         "Your solution for 'keygenme' is waiting approval!" 1001%Z].
Proof.
  pose proof (upload_stores_record_and_file (fun s => s) keep_allowed
                (upload_of_size 4) (mkFileHeader "solve.zip" 4) "data"
                sample_world sample_crackme eq_refl eq_refl eq_refl
                ltac:(discriminate) ltac:(discriminate) eq_refl eq_refl
                eq_refl ltac:(discriminate) eq_refl) as H.
  cbv zeta in H.
  destruct H as (Hreply & Hsol & Hdisk & Hnotif & _).
  split; [exact Hreply|]. unfold after_first_upload.
  rewrite Hsol, Hdisk, Hnotif. repeat split; vm_compute; reflexivity.
Defined.

Lemma new_solution_not_zero (w : World) (info username : string) (c : Crackme) :
  username <> "" -> new_solution w info username c <> zeroSolution.
Proof.
  intros Hname H. apply (f_equal Solution_Author) in H. cbn in H.
  contradiction.
Qed.

(** X13.  When such an upload passes every check and the file cannot be
    written, the solution record that [SolutionCreate] stored before the
    write stays in the store: the answer is the error text with an error
    flash, no file and no notification exist, and the pending record is
    what [SolutionsByUserAndCrackMe] finds from then on.  A second attempt
    of the same upload is therefore refused as a duplicate, with nothing
    read, stored or written. *)
Theorem failed_write_keeps_record
    (sanitize_HTML sanitize_Name : string -> string) (r : UploadRequest)
    (header : FileHeader) (data : string) (w : World) (c : Crackme) :
  connection w = true ->
  disk_ok w = false ->
  fst (CrackmeByHexId (up_hexidcrackme r) w) = (c, None) ->
  Crackme_ObjectId c <> NilObjectID ->
  up_name r <> "" ->
  fst (fst (SolutionsByUserAndCrackMe (up_name r) (up_hexidcrackme r) w))
    = zeroSolution ->
  up_recaptcha r = true ->
  up_file r = Some (header, Some data) ->
  (Size header <= 5000000)%Z ->
  HasPrefix
    (Clean (stored_path sanitize_Name (SolutionPath (config w)) (up_name r)
                        (Hex (fresh w)) (Filename header)))
    (SolutionPath (config w) ++ String Separator "") = true ->
  let stored := new_solution w (sanitize_HTML (up_info r)) (up_name r) c in
  let w' := snd (UploadSolutionPOST sanitize_HTML sanitize_Name r w) in
  let again := UploadSolutionPOST sanitize_HTML sanitize_Name r w' in
  fst (UploadSolutionPOST sanitize_HTML sanitize_Name r w)
    = Body (Error ErrIO) /\
  solution (db w') = solution (db w) ++ [stored] /\
  disk w' = disk w /\
  notification (db w') = notification (db w) /\
  flashes w' =
    flashes w ++
    [mkFlash "An error occurred on the server. Please try again later."
             FlashError] /\
  fst (SolutionsByUserAndCrackMe (up_name r) (up_hexidcrackme r) w')
    = (stored, None) /\
  (exists vars, fst again = Render "solution/create" vars) /\
  flashes (snd again) =
    flashes w' ++
    [mkFlash "You've already submitted a solution to this crackme"
             FlashError] /\
  solution (db (snd again)) = solution (db w') /\
  disk (snd again) = disk w' /\
  payload_reads (snd again) = payload_reads w'.
Proof.
  intros Hc Hok Hfound Hnil Hname Hzero Hcaptcha Hfile Hsize Hguard.
  pose proof (accepted_upload_run sanitize_HTML sanitize_Name r header data w
                c Hc Hfound Hnil Hname Hzero Hcaptcha Hfile Hsize Hguard)
    as H.
  cbv zeta in H |- *. rewrite Hok in H.
  destruct H as (Hsol & _ & _ & _ & Hreply & Hdisk & Hnotif & Hflash & Hlook).
  repeat (split; [assumption|]).
  set (w' := snd (UploadSolutionPOST sanitize_HTML sanitize_Name r w)) in *.
  assert (H : wp (UploadSolutionPOST sanitize_HTML sanitize_Name r)
                 (rejected_with
                    "You've already submitted a solution to this crackme" w')
                 w').
  { pose proof (keeps_upload_state_SolutionsByUserAndCrackMe
                  (up_name r) (up_hexidcrackme r) w') as Hkeep.
    unfold UploadSolutionPOST. cbv zeta. apply wp_bind. unfold wp at 1.
    destruct (SolutionsByUserAndCrackMe (up_name r) (up_hexidcrackme r) w')
      as [[sol e] w1].
    cbn [fst snd] in *. injection Hlook as -> _.
    destruct (Solution_eq_dec _ zeroSolution) as [Heq|_].
    - exfalso. exact (new_solution_not_zero _ _ _ _ Hname Heq).
    - apply reject_with, Hkeep. }
  unfold wp, rejected_with, upload_footprint in H.
  destruct H as (Hfp & Hrender & Hfl).
  injection Hfp as Hreads Hd Hs. auto.
Qed.

Lemma failed_write_keeps_record_witness :
  fst (UploadSolutionPOST (fun s => s) keep_allowed (upload_of_size 4)
                          full_disk_world) = Body (Error ErrIO) /\
  solution
    (db (snd (UploadSolutionPOST (fun s => s) keep_allowed (upload_of_size 4)
                                 full_disk_world))) = [first_solution] /\
  disk (snd (UploadSolutionPOST (fun s => s) keep_allowed (upload_of_size 4)
                                full_disk_world)) = [].
Proof.
  pose proof (failed_write_keeps_record (fun s => s) keep_allowed
                (upload_of_size 4) (mkFileHeader "solve.zip" 4) "data"
                full_disk_world sample_crackme eq_refl eq_refl eq_refl
                ltac:(discriminate) ltac:(discriminate) eq_refl eq_refl
                eq_refl ltac:(discriminate) eq_refl) as H.
  cbv zeta in H. destruct H as (Hreply & Hsol & Hdisk & _).
  split; [exact Hreply|]. rewrite Hsol, Hdisk. split; reflexivity.
Defined.

Lemma keeps_stored_CrackmeByHexId (hexid : string) :
  keeps stored_of (CrackmeByHexId hexid).
Proof. unfold CrackmeByHexId, stored_of. keeps_auto. Qed.

Lemma keeps_stored_SolutionsByUserAndCrackMe (username hexid : string) :
  keeps stored_of (SolutionsByUserAndCrackMe username hexid).
Proof.
  unfold SolutionsByUserAndCrackMe. apply keeps_bind;
    [apply keeps_stored_CrackmeByHexId|]. intros [c e]. unfold stored_of.
  keeps_auto.
Qed.

Lemma keeps_stored_UploadSolutionGET (hexid : string) :
  keeps stored_of (UploadSolutionGET hexid).
Proof.
  unfold UploadSolutionGET. apply keeps_bind;
    [apply keeps_stored_CrackmeByHexId|]. intros [c e]. apply keeps_ret.
Qed.

Lemma keeps_stored_AddFlash (f : Flash) : keeps stored_of (AddFlash f).
Proof. intros w. reflexivity. Qed.

Lemma keeps_stored_Println (line : string) : keeps stored_of (Println line).
Proof. intros w. reflexivity. Qed.

Lemma keeps_stored_ReadAll (file : option string) :
  keeps stored_of (ReadAll file).
Proof. intros w. destruct file; reflexivity. Qed.

(** X14.  Without a payload [UploadSolutionPOST] stores nothing: when the
    reCAPTCHA fails, when the request has no file, or when the file cannot
    be read, the five collections and the disk are as before and the answer
    is not the redirect of a success.  The payload is read before
    [SolutionCreate] is called. *)
Theorem upload_without_payload_stores_nothing
    (sanitize_HTML sanitize_Name : string -> string) (r : UploadRequest)
    (w : World) :
  up_recaptcha r = false \/ up_file r = None \/
  (exists header, up_file r = Some (header, None)) ->
  let reply := fst (UploadSolutionPOST sanitize_HTML sanitize_Name r w) in
  let w' := snd (UploadSolutionPOST sanitize_HTML sanitize_Name r w) in
  user (db w') = user (db w) /\ crackme (db w') = crackme (db w) /\
  solution (db w') = solution (db w) /\ comment (db w') = comment (db w) /\
  notification (db w') = notification (db w) /\ disk w' = disk w /\
  forall url, reply <> Redirect url.
Proof.
  intros Hcase. cbv zeta.
  assert (H : wp (UploadSolutionPOST sanitize_HTML sanitize_Name r)
                 (fun reply w' =>
                    stored_of w' = stored_of w /\
                    forall url, reply <> Redirect url) w).
  { unfold UploadSolutionPOST. cbv zeta. apply wp_bind.
    eapply wp_keeps; [apply keeps_stored_SolutionsByUserAndCrackMe|].
    intros [sol e] w1 Hw1.
    assert (Hform : forall f,
              wp (AddFlash f ;; UploadSolutionGET (up_hexidcrackme r))
                 (fun reply w' =>
                    stored_of w' = stored_of w /\
                    forall url, reply <> Redirect url) w1).
    { intros f. unfold wp. split.
      - rewrite <- Hw1.
        apply (keeps_bind stored_of _ _ (keeps_stored_AddFlash f)
                 (fun _ => keeps_stored_UploadSolutionGET _)).
      - intros url. apply flash_then_form_renders. }
    destruct (Solution_eq_dec sol zeroSolution); [|apply Hform].
    destruct (up_recaptcha r) eqn:Hcaptcha; cbn [negb]; [|apply Hform].
    destruct Hcase as [Hf|[Hnone|[header Hfile]]]; [discriminate Hf| |].
    - rewrite Hnone. unfold wp. split.
      + rewrite <- Hw1.
        apply (keeps_bind stored_of _ _ (keeps_stored_AddFlash _)).
        intros _.
        apply (keeps_bind stored_of _ _ (keeps_stored_Println _)
                 (fun _ => keeps_stored_UploadSolutionGET _)).
      + intros url. rewrite !bind_run. apply UploadSolutionGET_renders.
    - rewrite Hfile. destruct (Size header >? 5000000)%Z; [apply Hform|].
      unfold wp. rewrite bind_run. cbn. split; [exact Hw1 | discriminate]. }
  unfold wp, stored_of in H. destruct H as [Hst Hreply].
  injection Hst as Hu Hcr Hs Hcm Hn Hd. auto 10.
Qed.

Lemma upload_without_payload_stores_nothing_witness :
  solution
    (db (snd (UploadSolutionPOST (fun s => s) keep_allowed
                (mkUploadRequest "alice" "507f1f77bcf86cd799439011" "writeup"
                   (Some (mkFileHeader "solve.zip" 4, None)) true)
                sample_world))) = [] /\
  disk (snd (UploadSolutionPOST (fun s => s) keep_allowed
               (mkUploadRequest "alice" "507f1f77bcf86cd799439011" "writeup"
                  (Some (mkFileHeader "solve.zip" 4, None)) true)
               sample_world)) = [].
Proof.
  destruct (upload_without_payload_stores_nothing (fun s => s) keep_allowed
              (mkUploadRequest "alice" "507f1f77bcf86cd799439011" "writeup"
                 (Some (mkFileHeader "solve.zip" 4, None)) true)
              sample_world)
    as (_ & _ & Hs & _ & _ & Hd & _).
  { right. right. exists (mkFileHeader "solve.zip" 4). reflexivity. }
  rewrite Hs, Hd. split; reflexivity.
Defined.

(** ** Comments through the handler *)

(** X15.  [LeaveCommentPOST] has two outcomes.  Either the answer is the
    redirect to the page of the crackme: then the crackme exists, exactly
    one comment was stored for it, visible, with the sanitized text of the
    request, and the last flash is the success message.  Or the answer is
    the page of the crackme again: then one error flash was added and no
    comment and no notification was stored; this is what an empty comment,
    a failed reCAPTCHA, an unknown crackme and a missing connection give.
    Users, crackmes and solutions are never touched. *)
Theorem LeaveCommentPOST_outcomes (sanitize_HTML : string -> string)
    (r : CommentRequest) (w : World) :
  let reply := fst (LeaveCommentPOST sanitize_HTML r w) in
  let w' := snd (LeaveCommentPOST sanitize_HTML r w) in
  user (db w') = user (db w) /\ crackme (db w') = crackme (db w) /\
  solution (db w') = solution (db w) /\
  ((reply = Redirect ("/crackme/" ++ cm_hexid r) /\
    cm_comment r <> "" /\ cm_recaptcha r = true /\
    (exists c,
       fst (CrackmeByHexId (cm_hexid r) w) = (c, None) /\
       comment (db w') =
         comment (db w)
         ++ [new_comment w (sanitize_HTML (cm_comment r)) (cm_name r)
                         (cm_hexid r) c]) /\
    exists earlier,
      flashes w' = earlier ++ [mkFlash "Comment uploaded!" FlashSuccess]) \/
   (reply = CrackMePage (cm_hexid r) /\
    comment (db w') = comment (db w) /\
    notification (db w') = notification (db w) /\
    exists msg, flashes w' = flashes w ++ [mkFlash msg FlashError])).
Proof.
  destruct r as [name hexid text captcha].
  destruct w as [conn [us cs ss cms ns] fr cl cfg dk ok fl tr].
  cbv zeta. cbn [cm_comment cm_recaptcha cm_name cm_hexid].
  unfold new_comment.
  destruct (text =? "") eqn:Htext.
  { run_upload. cbn [find fst snd String.eqb Ascii.eqb Bool.eqb].
    rewrite Htext. cbn. repeat (split; [reflexivity|]). right.
    repeat (split; [reflexivity|]). eexists. reflexivity. }
  assert (Hne : text <> "") by (apply String.eqb_neq; exact Htext).
  destruct captcha.
  2: { run_upload. cbn [find fst snd String.eqb Ascii.eqb Bool.eqb].
       rewrite Htext. cbn. repeat (split; [reflexivity|]). right.
       repeat (split; [reflexivity|]). eexists. reflexivity. }
  destruct conn.
  2: { run_upload. cbn [find fst snd String.eqb Ascii.eqb Bool.eqb].
       rewrite Htext. cbn. repeat (split; [reflexivity|]). right.
       repeat (split; [reflexivity|]). eexists. reflexivity. }
  run_upload. cbn [find fst snd String.eqb Ascii.eqb Bool.eqb].
  rewrite Htext. cbn [negb].
  destruct (find (fun c => bson_string_omitempty (Crackme_HexId c) hexid) cs)
    as [c|] eqn:Hfind.
  - run_upload. rewrite Hfind. run_upload. cbn [andb negb].
    destruct (Crackme_Author c =? name); cbn;
      (repeat (split; [reflexivity|])); left;
      (repeat (split; [solve [reflexivity | assumption]|]));
      (split; [exists c; split; reflexivity|]); eexists; reflexivity.
  - cbn. repeat (split; [reflexivity|]). right.
    repeat (split; [reflexivity|]). eexists. reflexivity.
Qed.

(** ** Accounts *)

(** A lookup with a regular expression changes the trace only; it answers
    a stored document, and that only with a connection. *)
Lemma FindOne_regex_user_run (field : User -> string) (r : Regex) (w : World) :
  (exists t, snd (FindOne_regex Collection_user field r zeroUser w)
             = retrace w t) /\
  forall u, fst (FindOne_regex Collection_user field r zeroUser w) = (u, None) ->
            connection w = true /\ In u (user (db w)).
Proof.
  destruct w as [conn [us cs ss cms ns] fr cl cfg dk ok fl tr].
  unfold FindOne_regex. destruct (re_compile r) as [p|].
  - unfold FindOne, driver, bind, emit, ret, with_db, retrace. cbn.
    destruct conn; cbn.
    + destruct (find _ us) as [d|] eqn:Hfind; cbn.
      * split; [eexists; reflexivity|]. intros u H. injection H as <-.
        split; [reflexivity|]. apply find_some in Hfind. apply Hfind.
      * split; [eexists; reflexivity|]. intros u H. discriminate H.
    + split; [eexists; reflexivity|]. intros u H. discriminate H.
  - unfold bind, emit, ret, retrace. cbn.
    split; [eexists; reflexivity|]. intros u H. discriminate H.
Qed.

Lemma UserByName_run (name : string) (w : World) :
  (exists t, snd (UserByName name w) = retrace w t) /\
  forall u, fst (UserByName name w) = (u, None) ->
            connection w = true /\ In u (user (db w)).
Proof.
  destruct (FindOne_regex_user_run User_Name
              (mkRegex ("^" ++ name ++ "$") "i") w) as [[t Ht] Hfound].
  unfold UserByName, bind, CheckConnection, ret.
  destruct (connection w) eqn:Hc.
  - destruct (FindOne_regex _ _ _ _ w) as [[u e] w1]. cbn [fst snd] in *.
    split; [exists t; exact Ht|].
    intros u' H. destruct e as [e|]; [destruct e; discriminate H|].
    cbn in H. apply Hfound. congruence.
  - split.
    + exists (trace w). destruct w; cbn in *. subst. reflexivity.
    + intros u H. discriminate H.
Qed.

Lemma UserByMail_run (email : string) (w : World) :
  (exists t, snd (UserByMail email w) = retrace w t) /\
  forall u, fst (UserByMail email w) = (u, None) ->
            connection w = true /\ In u (user (db w)).
Proof.
  destruct (FindOne_regex_user_run User_Email
              (mkRegex ("^" ++ email ++ "$") "i") w) as [[t Ht] Hfound].
  unfold UserByMail, bind, CheckConnection, ret.
  destruct (connection w) eqn:Hc.
  - destruct (FindOne_regex _ _ _ _ w) as [[u e] w1]. cbn [fst snd] in *.
    split; [exists t; exact Ht|].
    intros u' H. destruct e as [e|]; [destruct e; discriminate H|].
    cbn in H. apply Hfound. congruence.
  - split.
    + exists (trace w). destruct w; cbn in *. subst. reflexivity.
    + intros u H. discriminate H.
Qed.

(** What [UpdateUserPassword] does to the users, with or without a
    connection. *)
Lemma UpdateUserPassword_cases (username hashedPassword : string) (w : World) :
  let err := fst (UpdateUserPassword username hashedPassword w) in
  let w' := snd (UpdateUserPassword username hashedPassword w) in
  crackme (db w') = crackme (db w) /\ solution (db w') = solution (db w) /\
  comment (db w') = comment (db w) /\
  notification (db w') = notification (db w) /\
  ((exists e, err = Some e) /\ user (db w') = user (db w) \/
   err = None /\
   exists before u after,
     user (db w) = before ++ u :: after /\
     Forall (fun v => User_Name v <> username) before /\
     User_Name u = username /\
     user (db w') = before ++ set_Password hashedPassword u :: after).
Proof.
  cbv zeta. unfold UpdateUserPassword.
  destruct (username =? "") eqn:Hu;
    [cbn; repeat (split; [reflexivity|]); left; split;
     [eexists; reflexivity | reflexivity]|].
  destruct (hashedPassword =? "") eqn:Hp;
    [cbn; repeat (split; [reflexivity|]); left; split;
     [eexists; reflexivity | reflexivity]|].
  apply String.eqb_neq in Hu.
  destruct w as [conn [us cs ss cms ns] fr cl cfg dk ok fl tr].
  unfold UpdateOne, driver, bind, emit, ret, with_db. cbn.
  destruct conn; cbn.
  2: { repeat (split; [reflexivity|]). left. split;
       [eexists; reflexivity | reflexivity]. }
  destruct (update_first_spec
              (fun u => bson_string_omitempty (User_Name u) username)
              (set_Password hashedPassword) us)
    as [[Hall Heq] | (l1 & u & l2 & Hl & Hall & Hfu & Heq)]; rewrite Heq; cbn.
  - repeat (split; [reflexivity|]). left. split;
      [eexists; reflexivity | reflexivity].
  - repeat (split; [reflexivity|]). right. split; [reflexivity|].
    exists l1, u, l2. apply bson_string_omitempty_true in Hfu.
    repeat split; try tauto. apply omitempty_name_false; assumption.
Qed.

Lemma retrace_db (w : World) (t : list Event) : db (retrace w t) = db w.
Proof. reflexivity. Qed.

Lemma lower_empty (s : string) : lower s = "" -> s = "".
Proof. destruct s; [reflexivity | discriminate]. Qed.

(** A lookup by name finds a user as soon as one stored name equals the
    name up to the case of its letters. *)
Lemma UserByName_finds_any_case (name : string) (u : User) (w : World) :
  connection w = true ->
  In u (user (db w)) ->
  literal_name name = true ->
  User_Name u <> "" ->
  lower name = lower (User_Name u) ->
  exists found, fst (UserByName name w) = (found, None).
Proof.
  intros Hconn Hin Hlit Hne Hlow.
  destruct w as [conn [us cs ss cms ns] fr cl cfg dk ok fl tr].
  cbn [connection db user] in *. subst conn.
  unfold UserByName, FindOne_regex, re_compile.
  cbn [Options Pattern String.eqb Ascii.eqb Bool.eqb].
  cbn [append re_anchored]. unfold re_body. rewrite (re_parse_literal name Hlit).
  unfold FindOne, driver, bind, CheckConnection, emit, ret. cbn.
  destruct (find _ us) as [found|] eqn:Hfind.
  - exists found. reflexivity.
  - exfalso. pose proof (find_none _ _ Hfind u Hin) as Hno.
    unfold bson_regex_omitempty, re_exec in Hno.
    cbn [re_bol re_icase re_items re_eol] in Hno.
    rewrite (re_here_literal name (User_Name u) Hlow) in Hno.
    apply String.eqb_neq in Hne. rewrite Hne in Hno. discriminate Hno.
Qed.

(** The answer of a lookup does not depend on the trace. *)
Lemma UserByName_retrace (name : string) (w : World) (t : list Event) :
  fst (UserByName name (retrace w t)) = fst (UserByName name w).
Proof.
  destruct w as [conn [us cs ss cms ns] fr cl cfg dk ok fl tr].
  unfold UserByName, FindOne_regex, retrace.
  destruct (re_compile _) as [p|];
    unfold FindOne, driver, bind, CheckConnection, emit, ret; cbn;
    destruct conn; cbn; [destruct (find _ us)| | |]; reflexivity.
Qed.

Lemma UserByMail_offline (email : string) (w : World) :
  connection w = false ->
  fst (UserByMail email w) = (zeroUser, Some ErrUnavailable).
Proof.
  intros Hc. unfold UserByMail, bind, CheckConnection, ret. rewrite Hc.
  reflexivity.
Qed.

Lemma UserByMail_not_found_connected (email : string) (w : World) :
  snd (fst (UserByMail email w)) = Some ErrNoResult -> connection w = true.
Proof.
  intros H. destruct (connection w) eqn:Hc; [reflexivity|].
  rewrite (UserByMail_offline email w Hc) in H. discriminate H.
Qed.

(** The three required fields of the registration form. *)
Lemma Validate_register (name email password : string) :
  Validate [("name", name); ("email", email); ("password", password)]
           ["name"; "email"; "password"]
  = if name =? "" then (false, "name")
    else if email =? "" then (false, "email")
    else if password =? "" then (false, "password")
    else (true, "").
Proof.
  unfold Validate. cbn.
  destruct (name =? ""); [reflexivity|].
  destruct (email =? ""); [reflexivity|].
  destruct (password =? ""); reflexivity.
Qed.

(** A branch of [RegisterPOST] that stops before the store is asked. *)
Ltac stopped Hlast :=
  cbn; rewrite ?filter_app; cbn; rewrite ?app_nil_r;
  split;
  [reflexivity
  |split;
   [reflexivity
   |split;
    [discriminate | let H := fresh in intros H; destruct (Hlast H)]]].

Lemma re_parse_dotted (s : string) :
  dotted_name s = true ->
  re_parse (s ++ "$") = Some (dotted_items s, true).
Proof.
  induction s as [|c s IH]; [reflexivity|].
  cbn [dotted_name dotted_items append re_parse].
  intros H. apply andb_true_iff in H. destruct H as [Hc Hs].
  destruct (c =? "$")%char eqn:E1.
  { apply Ascii.eqb_eq in E1. subst c. discriminate Hc. }
  destruct (c =? ".")%char eqn:E2; [rewrite (IH Hs); reflexivity|].
  cbn [orb] in Hc. apply negb_true_iff in Hc. rewrite Hc, (IH Hs).
  reflexivity.
Qed.

Lemma re_here_dotted (s : string) :
  re_here true (dotted_items s) true s = true.
Proof.
  induction s as [|c s IH]; cbn; [reflexivity|].
  rewrite IH, andb_true_r.
  destruct (c =? ".")%char eqn:E; cbn.
  - apply Ascii.eqb_eq in E. subst c. reflexivity.
  - unfold re_char. apply Ascii.eqb_refl.
Qed.

(** A lookup by address finds a user as soon as one stored address is the
    address itself. *)
Lemma UserByMail_finds_same (email : string) (u : User) (w : World) :
  connection w = true ->
  In u (user (db w)) ->
  dotted_name email = true ->
  email <> "" ->
  User_Email u = email ->
  exists found, fst (UserByMail email w) = (found, None).
Proof.
  intros Hconn Hin Hlit Hne Hmail.
  destruct w as [conn [us cs ss cms ns] fr cl cfg dk ok fl tr].
  cbn [connection db user] in *. subst conn.
  unfold UserByMail, FindOne_regex, re_compile.
  cbn [Options Pattern String.eqb Ascii.eqb Bool.eqb].
  cbn [append re_anchored]. unfold re_body.
  rewrite (re_parse_dotted email Hlit).
  unfold FindOne, driver, bind, CheckConnection, emit, ret. cbn.
  destruct (find _ us) as [found|] eqn:Hfind.
  - exists found. reflexivity.
  - exfalso. pose proof (find_none _ _ Hfind u Hin) as Hno.
    unfold bson_regex_omitempty, re_exec in Hno.
    cbn [re_bol re_icase re_items re_eol] in Hno.
    rewrite Hmail, (re_here_dotted email) in Hno.
    apply String.eqb_neq in Hne. rewrite Hne in Hno. discriminate Hno.
Qed.

(** *** The password handler *)

Section PasswordReset.

Variable MatchString : string -> string -> bool.
Variable HashString : string -> string * option error.

(** X16.  [ResetPasswordWithCurrentPOST] changes the store only when it
    answers 200.  Then the session holds a non-empty user name, the two
    copies of the new password are equal and at least eight bytes long, the
    user that [UserByName] found has a hash matching the current password,
    and the first stored user whose name is exactly the session name, and
    no other document, carries the hash of the new password.  Every other
    answer is an [http.Error] with a status of 400 or more, and the store
    is as before. *)
Theorem ResetPassword_changes_only_on_200 (r : PasswordRequest) (w : World) :
  let answer := fst (ResetPasswordWithCurrentPOST MatchString HashString r w) in
  let w' := snd (ResetPasswordWithCurrentPOST MatchString HashString r w) in
  crackme (db w') = crackme (db w) /\ solution (db w') = solution (db w) /\
  comment (db w') = comment (db w) /\
  notification (db w') = notification (db w) /\
  ((exists msg code,
      answer = HttpError msg code /\ (400 <= code)%Z) /\
   user (db w') = user (db w) \/
   answer = Written 200 "Password has been successfully updated" /\
   exists username found before u after,
     pw_name r = Some username /\ username <> "" /\
     pw_new r = pw_verify r /\ 8 <= String.length (pw_new r) /\
     fst (UserByName username w) = (found, None) /\
     MatchString (User_Password found) (pw_current r) = true /\
     snd (HashString (pw_new r)) = None /\
     user (db w) = before ++ u :: after /\
     Forall (fun v => User_Name v <> username) before /\
     User_Name u = username /\
     user (db w') =
       before ++ set_Password (fst (HashString (pw_new r))) u :: after).
Proof.
  cbv zeta. unfold ResetPasswordWithCurrentPOST.
  assert (Hstop : forall msg code (w0 : World),
            (400 <= code)%Z -> db w0 = db w ->
            crackme (db w0) = crackme (db w) /\
            solution (db w0) = solution (db w) /\
            comment (db w0) = comment (db w) /\
            notification (db w0) = notification (db w) /\
            ((exists msg' code',
                HttpError msg code = HttpError msg' code' /\ (400 <= code')%Z) /\
             user (db w0) = user (db w) \/
             HttpError msg code
               = Written 200 "Password has been successfully updated" /\
             exists username found before u after,
               pw_name r = Some username /\ username <> "" /\
               pw_new r = pw_verify r /\ 8 <= String.length (pw_new r) /\
               fst (UserByName username w) = (found, None) /\
               MatchString (User_Password found) (pw_current r) = true /\
               snd (HashString (pw_new r)) = None /\
               user (db w) = before ++ u :: after /\
               Forall (fun v => User_Name v <> username) before /\
               User_Name u = username /\
               user (db w0) =
                 before ++ set_Password (fst (HashString (pw_new r))) u
                        :: after)).
  { intros msg code w0 Hcode Hdb. rewrite Hdb.
    repeat (split; [reflexivity|]). left. split; [|reflexivity].
    exists msg, code. auto. }
  destruct (pw_name r) as [username|] eqn:Hname;
    [|apply Hstop; [lia | reflexivity]].
  destruct (username =? "") eqn:Hu; [apply Hstop; [lia | reflexivity]|].
  apply String.eqb_neq in Hu.
  destruct ((pw_new r =? "") || (pw_verify r =? "")) eqn:Hempty;
    [apply Hstop; [lia | reflexivity]|].
  destruct (pw_new r =? pw_verify r) eqn:Hsame; cbn [negb];
    [|apply Hstop; [lia | reflexivity]].
  apply String.eqb_eq in Hsame.
  destruct (String.length (pw_new r) <? 8)%nat eqn:Hlen;
    [apply Hstop; [lia | reflexivity]|].
  apply Nat.ltb_ge in Hlen.
  rewrite bind_run.
  destruct (UserByName_run username w) as [[t Ht] Hfound].
  destruct (UserByName username w) as [[found e] w1] eqn:Hrun.
  cbn [fst snd] in *. subst w1.
  destruct e as [e|].
  { rewrite bind_run. cbn [ret fst snd]. apply Hstop; [lia | reflexivity]. }
  destruct (MatchString (User_Password found) (pw_current r)) eqn:Hmatch;
    cbn [negb]; [|apply Hstop; [lia | reflexivity]].
  destruct (HashString (pw_new r)) as [hashed herr] eqn:Hhash.
  destruct herr as [e|].
  { rewrite bind_run. cbn [ret fst snd]. apply Hstop; [lia | reflexivity]. }
  rewrite bind_run.
  pose proof (UpdateUserPassword_cases username hashed (retrace w t)) as Hup.
  cbv zeta in Hup. rewrite !retrace_db in Hup.
  destruct (UpdateUserPassword username hashed (retrace w t)) as [err w2].
  cbn [fst snd] in *.
  destruct Hup as (Hcr & Hs & Hcm & Hn & Hup).
  destruct Hup as [[[e He] Husers] | [Herr Hupd]].
  - subst err. rewrite bind_run. cbn [Println emit ret fst snd db].
    repeat (split; [assumption|]). left. split; [|assumption].
    eexists. eexists. split; [reflexivity | lia].
  - subst err. cbn [ret fst snd]. repeat (split; [assumption|]). right.
    split; [reflexivity|].
    destruct Hupd as (before & u & after & Hl & Hall & Hnm & Hnew).
    exists username, found, before, u, after. rewrite Hrun.
    repeat split; auto.
Qed.

(** X17.  The password handler looks the user up with [UserByName], which
    ignores the case of letters, and updates with [UpdateUserPassword],
    which wants the exact name.  When the session name equals a stored name
    only up to case, and no stored name is exactly the session name, the
    user is found and the current password is checked against that user,
    but the update matches nobody: the answer is the status 500 and no
    password is changed. *)
Theorem ResetPassword_case_mismatch (r : PasswordRequest) (w : World)
    (username : string) (u : User) (rest : list User) :
  connection w = true ->
  user (db w) = u :: rest ->
  pw_name r = Some username ->
  literal_name username = true ->
  User_Name u <> "" ->
  lower username = lower (User_Name u) ->
  (forall v, In v (user (db w)) -> User_Name v <> username) ->
  pw_new r = pw_verify r ->
  8 <= String.length (pw_new r) ->
  MatchString (User_Password u) (pw_current r) = true ->
  snd (HashString (pw_new r)) = None ->
  fst (HashString (pw_new r)) <> "" ->
  fst (UserByName username w) = (u, None) /\
  fst (ResetPasswordWithCurrentPOST MatchString HashString r w)
    = HttpError "Could not update password" 500 /\
  user (db (snd (ResetPasswordWithCurrentPOST MatchString HashString r w)))
    = user (db w).
Proof.
  intros Hc Husers Hname Hlit Hne Hlow Hnone Hsame Hlen Hmatch Hherr Hhash.
  pose proof (UserByName_ignores_case username u rest w Hc Husers Hlit Hne
                Hlow) as Hfound.
  split; [exact Hfound|].
  assert (Hu : username <> "").
  { intros ->. symmetry in Hlow. apply lower_empty in Hlow. contradiction. }
  unfold ResetPasswordWithCurrentPOST. rewrite Hname.
  apply String.eqb_neq in Hu. rewrite Hu.
  assert (Hnew : pw_new r <> "").
  { intros E. rewrite E in Hlen. cbn in Hlen. lia. }
  apply String.eqb_neq in Hnew. rewrite <- Hsame, Hnew. cbn [orb].
  rewrite String.eqb_refl. cbn [negb].
  apply Nat.ltb_ge in Hlen. rewrite Hlen.
  rewrite bind_run.
  destruct (UserByName_run username w) as [[t Ht] _].
  destruct (UserByName username w) as [[found e] w1].
  cbn [fst snd] in *. injection Hfound as -> ->. subst w1.
  rewrite Hmatch. cbn [negb].
  destruct (HashString (pw_new r)) as [hashed herr]. cbn [fst snd] in *.
  subst herr. rewrite bind_run.
  apply String.eqb_neq in Hu.
  rewrite (UpdateUserPassword_connected username hashed (retrace w t) Hc Hu
             Hhash).
  cbv zeta. cbn [db retrace user fst snd].
  destruct (update_first_spec
              (fun v => bson_string_omitempty (User_Name v) username)
              (set_Password hashed) (user (db w)))
    as [[Hall Heq] | (l1 & v & l2 & Hl & Hall & Hfv & Heq)]; rewrite Heq.
  - cbn. split; reflexivity.
  - exfalso. apply bson_string_omitempty_true in Hfv. destruct Hfv as [Hv _].
    apply (Hnone v); [|exact Hv]. rewrite Hl. apply in_or_app. right. left.
    reflexivity.
Qed.

End PasswordReset.

Lemma ResetPassword_case_mismatch_witness :
  fst (ResetPasswordWithCurrentPOST marked_match marked_hash
         (mkPasswordRequest (Some "Elvis") "old secret" "new secret"
                            "new secret") hashed_elvis_world)
    = HttpError "Could not update password" 500 /\
  fst (ResetPasswordWithCurrentPOST marked_match marked_hash
         (mkPasswordRequest (Some "elvis") "old secret" "new secret"
                            "new secret") hashed_elvis_world)
    = Written 200 "Password has been successfully updated".
Proof.
  split; [|vm_compute; reflexivity].
  apply (ResetPassword_case_mismatch marked_match marked_hash
           (mkPasswordRequest (Some "Elvis") "old secret" "new secret"
                              "new secret") hashed_elvis_world "Elvis"
           (set_Password "hash:old secret" elvis) []);
    try reflexivity; try discriminate.
  - intros v [<-|[]]. discriminate.
  - cbn. lia.
Defined.

(** *** Registration *)

Section Registration.

Variable HashString : string -> string * option error.
Variable AuthorizedCharsOnly : string -> bool.
Variable ToLower : string -> string.

Lemma RegisterPOST_run (r : RegisterRequest) (w : World) :
  registration_outcome HashString AuthorizedCharsOnly ToLower r w
    (fst (RegisterPOST HashString AuthorizedCharsOnly ToLower r w))
    (snd (RegisterPOST HashString AuthorizedCharsOnly ToLower r w)).
Proof.
  set (goal := registration_outcome HashString AuthorizedCharsOnly ToLower r w).
  assert (Hstop : forall answer w0,
            answer <> Found "/login" -> connection w0 = connection w ->
            db w0 = db w -> goal answer w0).
  { intros answer w0 Hans Hconn Hdb. unfold goal, registration_outcome.
    rewrite Hdb. split; [exact Hconn|].
    repeat (split; [reflexivity|]). left. split; [exact Hans | reflexivity]. }
  unfold RegisterPOST, RegisterGET.
  destruct (match reg_attempt r with Some n => (5 <=? n)%Z | None => false end)
    eqn:Ha.
  { cbv beta iota. rewrite ?bind_run.
    apply Hstop; [discriminate | reflexivity | reflexivity]. }
  assert (Hattempt : forall n, reg_attempt r = Some n -> (n < 5)%Z).
  { intros n Hn. rewrite Hn in Ha. apply Z.leb_gt in Ha. exact Ha. }
  rewrite Validate_register.
  destruct (reg_name r =? "") eqn:Hn;
    [cbv beta iota; rewrite ?bind_run;
     apply Hstop; [discriminate | reflexivity | reflexivity]|].
  destruct (reg_email r =? "") eqn:He;
    [cbv beta iota; rewrite ?bind_run;
     apply Hstop; [discriminate | reflexivity | reflexivity]|].
  destruct (reg_password r =? "") eqn:Hp;
    [cbv beta iota; rewrite ?bind_run;
     apply Hstop; [discriminate | reflexivity | reflexivity]|].
  cbn [negb].
  apply String.eqb_neq in Hn, He, Hp.
  destruct (reg_recaptcha r) eqn:Hcaptcha; cbn [negb];
    [|cbv beta iota; rewrite ?bind_run;
      apply Hstop; [discriminate | reflexivity | reflexivity]].
  destruct (HashString (reg_password r)) as [password errp] eqn:Hhash.
  destruct (AuthorizedCharsOnly (reg_name r)) eqn:Hcn; cbn [negb orb];
    [|cbv beta iota; rewrite ?bind_run;
      apply Hstop; [discriminate | reflexivity | reflexivity]].
  destruct (AuthorizedCharsOnly (ToLower (reg_email r))) eqn:Hce; cbn [negb];
    [|cbv beta iota; rewrite ?bind_run;
      apply Hstop; [discriminate | reflexivity | reflexivity]].
  destruct errp as [e|];
    [cbv beta iota; rewrite ?bind_run;
     apply Hstop; [discriminate | reflexivity | reflexivity]|].
  assert (Hform : well_formed_registration HashString AuthorizedCharsOnly
                    ToLower r).
  { unfold well_formed_registration. rewrite Hhash. repeat split; assumption. }
  rewrite bind_run.
  destruct (UserByMail_run (ToLower (reg_email r)) w) as [[t1 Ht1] _].
  pose proof (UserByMail_not_found_connected (ToLower (reg_email r)) w) as Hc.
  destruct (UserByMail (ToLower (reg_email r)) w) as [[um errmail] w1]
    eqn:Hmrun.
  cbn [fst snd] in *. subst w1.
  assert (Hexists : forall msg,
            goal (fst ((AddFlash (mkFlash msg FlashError) ;;
                        ret (RegisterForm (reg_name r) (reg_email r)))
                         (retrace w t1)))
                 (snd ((AddFlash (mkFlash msg FlashError) ;;
                        ret (RegisterForm (reg_name r) (reg_email r)))
                         (retrace w t1)))).
  { intros msg. rewrite bind_run.
    apply Hstop; [discriminate | reflexivity | reflexivity]. }
  destruct errmail as [e|]; [|apply Hexists].
  destruct e; try apply Hexists.
  specialize (Hc eq_refl).
  rewrite bind_run.
  destruct (UserByName_run (reg_name r) (retrace w t1)) as [[t2 Ht2] _].
  pose proof (UserByName_retrace (reg_name r) w t1) as Hsame.
  destruct (UserByName (reg_name r) (retrace w t1)) as [[un err] w2].
  cbn [fst snd] in *. subst w2.
  destruct err as [e|];
    [|cbv beta iota; rewrite ?bind_run;
      apply Hstop; [discriminate | reflexivity | reflexivity]].
  destruct e;
    try (cbv beta iota; rewrite ?bind_run;
         apply Hstop; [discriminate | reflexivity | reflexivity]).
  rewrite bind_run.
  rewrite (UserCreate_connected (reg_name r) (ToLower (reg_email r)) password
             (retrace (retrace w t1) t2) Hc).
  cbn [fst snd]. rewrite bind_run. cbn [AddFlash ret fst snd].
  unfold goal, registration_outcome.
  cbn [db crackme solution comment notification user flashes retrace
       connection].
  split; [symmetry; exact Hc|].
  repeat (split; [reflexivity|]). right.
  rewrite <- Hsame, Hmrun, Hhash. cbn [fst snd].
  repeat (split; [solve [reflexivity | assumption]|]). reflexivity.
Qed.

(** X18.  [RegisterPOST] stores a user exactly when it answers the
    redirect to the login page.  Then there is a connection, the form was
    complete with a valid reCAPTCHA and allowed characters, neither the
    lookup by the lowered address nor the lookup by the name found a user,
    and the one user appended has the name of the form, the address in
    lower case and the hash of the password, never the password itself;
    the success flash is set.  With every other answer the users are as
    before.  No other collection is ever touched. *)
Theorem RegisterPOST_creates_on_login_redirect (r : RegisterRequest)
    (w : World) :
  let answer :=
    fst (RegisterPOST HashString AuthorizedCharsOnly ToLower r w) in
  let w' := snd (RegisterPOST HashString AuthorizedCharsOnly ToLower r w) in
  crackme (db w') = crackme (db w) /\ solution (db w') = solution (db w) /\
  comment (db w') = comment (db w) /\
  notification (db w') = notification (db w) /\
  (answer <> Found "/login" /\ user (db w') = user (db w) \/
   answer = Found "/login" /\
   connection w = true /\
   well_formed_registration HashString AuthorizedCharsOnly ToLower r /\
   snd (fst (UserByMail (ToLower (reg_email r)) w)) = Some ErrNoResult /\
   snd (fst (UserByName (reg_name r) w)) = Some ErrNoResult /\
   user (db w') =
     user (db w)
     ++ [new_user w (reg_name r) (ToLower (reg_email r))
                  (fst (HashString (reg_password r)))] /\
   flashes w' =
     flashes w
     ++ [mkFlash ("Account created successfully for: " ++ reg_name r)
                 FlashSuccess]).
Proof.
  cbv zeta. apply (RegisterPOST_run r w).
Qed.

(** A well-formed registration reaches the lookup by address. *)
Lemma RegisterPOST_well_formed (r : RegisterRequest) (w : World) :
  well_formed_registration HashString AuthorizedCharsOnly ToLower r ->
  RegisterPOST HashString AuthorizedCharsOnly ToLower r w =
    ('(_, errmail) <- UserByMail (ToLower (reg_email r)) ;;
     if match errmail with
        | Some ErrNoResult => false
        | _ => true
        end
     then
       AddFlash
         (mkFlash ("Account already exists for: " ++ ToLower (reg_email r))
                  FlashError) ;;
       RegisterGET r
     else
       '(_, err) <- UserByName (reg_name r) ;;
       match err with
       | Some ErrNoResult =>
           ex <- UserCreate (reg_name r) (ToLower (reg_email r))
                            (fst (HashString (reg_password r))) ;;
           match ex with
           | Some e =>
               Println (Error e) ;;
               AddFlash
                 (mkFlash
                    "An error occurred on the server. Please try again later."
                    FlashError) ;;
               RegisterGET r
           | None =>
               AddFlash
                 (mkFlash ("Account created successfully for: " ++ reg_name r)
                          FlashSuccess) ;;
               ret (Found "/login")
           end
       | Some e =>
           Println (Error e) ;;
           AddFlash
             (mkFlash
                "An error occurred on the server. Please try again later."
                FlashError) ;;
           RegisterGET r
       | None =>
           AddFlash
             (mkFlash ("Account already exists for: " ++ reg_name r)
                      FlashError) ;;
           RegisterGET r
       end) w.
Proof.
  intros (Hattempt & Hn & He & Hp & Hcaptcha & Hcn & Hce & Hhash).
  unfold RegisterPOST.
  assert (Ha : match reg_attempt r with
               | Some n => (5 <=? n)%Z
               | None => false
               end = false).
  { destruct (reg_attempt r) as [n|]; [|reflexivity].
    specialize (Hattempt n eq_refl). lia. }
  rewrite Ha, Validate_register.
  apply String.eqb_neq in Hn, He, Hp. rewrite Hn, He, Hp, Hcaptcha.
  cbn [negb].
  destruct (HashString (reg_password r)) as [password errp].
  cbn [fst snd] in *. subst errp. rewrite Hcn, Hce. reflexivity.
Qed.

(** X19.  Without a connection a well-formed registration is answered with
    the flash that an account already exists for the address, whatever the
    store holds: [RegisterPOST] takes every error of [UserByMail] other
    than [ErrNoResult], the unavailability signal included, for a hit.
    Nothing is stored and no driver call is made. *)
Theorem RegisterPOST_offline_says_exists (r : RegisterRequest) (w : World) :
  well_formed_registration HashString AuthorizedCharsOnly ToLower r ->
  connection w = false ->
  let w' := snd (RegisterPOST HashString AuthorizedCharsOnly ToLower r w) in
  fst (RegisterPOST HashString AuthorizedCharsOnly ToLower r w)
    = RegisterForm (reg_name r) (reg_email r) /\
  flashes w' =
    flashes w
    ++ [mkFlash ("Account already exists for: " ++ ToLower (reg_email r))
                FlashError] /\
  db w' = db w /\ trace w' = trace w.
Proof.
  intros Hform Hc. cbv zeta. rewrite (RegisterPOST_well_formed r w Hform).
  unfold UserByMail, RegisterGET, bind, CheckConnection, ret, AddFlash.
  rewrite Hc. cbn. repeat split; reflexivity.
Qed.

(** X20.  Names are unique up to the case of their letters: when a stored
    user bears the name of a well-formed registration in another case (the
    name having no metacharacter of regular expressions), and the address
    is not in use, [RegisterPOST] creates no user and says that an account
    already exists for the name. *)
Theorem RegisterPOST_name_taken_any_case (r : RegisterRequest) (w : World)
    (u : User) :
  well_formed_registration HashString AuthorizedCharsOnly ToLower r ->
  connection w = true ->
  snd (fst (UserByMail (ToLower (reg_email r)) w)) = Some ErrNoResult ->
  In u (user (db w)) ->
  literal_name (reg_name r) = true ->
  User_Name u <> "" ->
  lower (reg_name r) = lower (User_Name u) ->
  let w' := snd (RegisterPOST HashString AuthorizedCharsOnly ToLower r w) in
  fst (RegisterPOST HashString AuthorizedCharsOnly ToLower r w)
    = RegisterForm (reg_name r) (reg_email r) /\
  flashes w' =
    flashes w
    ++ [mkFlash ("Account already exists for: " ++ reg_name r) FlashError] /\
  db w' = db w.
Proof.
  intros Hform Hc Hmail Hin Hlit Hne Hlow. cbv zeta.
  rewrite (RegisterPOST_well_formed r w Hform). rewrite bind_run.
  destruct (UserByMail_run (ToLower (reg_email r)) w) as [[t1 Ht1] _].
  destruct (UserByMail (ToLower (reg_email r)) w) as [[um errmail] w1].
  cbn [fst snd] in *. subst w1 errmail. rewrite bind_run.
  destruct (UserByName_finds_any_case (reg_name r) u w Hc Hin Hlit Hne Hlow)
    as [found Hfound].
  pose proof (UserByName_retrace (reg_name r) w t1) as Hsame.
  rewrite Hfound in Hsame.
  destruct (UserByName_run (reg_name r) (retrace w t1)) as [[t2 Ht2] _].
  destruct (UserByName (reg_name r) (retrace w t1)) as [[un err] w2].
  cbn [fst snd] in *. injection Hsame as -> ->. subst w2.
  unfold RegisterGET. rewrite bind_run. cbn. repeat split; reflexivity.
Qed.

(** X21.  [RegisterPOST] asks the store only for a well-formed
    registration.  With five or more attempts in the session, a missing
    field, a failed reCAPTCHA, a character that is not allowed or a failed
    hashing, no driver call is made and nothing is stored; at five attempts
    the answer is the redirect to the form, without a flash. *)
Theorem RegisterPOST_checks_before_store (r : RegisterRequest) (w : World) :
  ~ well_formed_registration HashString AuthorizedCharsOnly ToLower r ->
  let w' := snd (RegisterPOST HashString AuthorizedCharsOnly ToLower r w) in
  db w' = db w /\ driver_calls w' = driver_calls w /\
  fst (RegisterPOST HashString AuthorizedCharsOnly ToLower r w)
    <> Found "/login" /\
  ((exists n, reg_attempt r = Some n /\ (5 <= n)%Z) ->
   fst (RegisterPOST HashString AuthorizedCharsOnly ToLower r w)
     = Found "/register" /\ flashes w' = flashes w).
Proof.
  intros Hbad. cbv zeta. unfold RegisterPOST, RegisterGET, driver_calls.
  destruct (match reg_attempt r with
            | Some n => (5 <=? n)%Z
            | None => false
            end) eqn:Ha.
  { cbn. rewrite filter_app. cbn. rewrite app_nil_r.
    repeat split; try reflexivity. discriminate. }
  assert (Hlast : (exists n, reg_attempt r = Some n /\ (5 <= n)%Z) -> False).
  { intros (n & Hn1 & Hn2). rewrite Hn1 in Ha. apply Z.leb_gt in Ha. lia. }
  assert (Hattempt : forall n, reg_attempt r = Some n -> (n < 5)%Z).
  { intros n Hn. rewrite Hn in Ha. apply Z.leb_gt in Ha. exact Ha. }
  rewrite Validate_register.
  destruct (reg_name r =? "") eqn:Hn;
    [stopped Hlast|].
  destruct (reg_email r =? "") eqn:He;
    [stopped Hlast|].
  destruct (reg_password r =? "") eqn:Hp;
    [stopped Hlast|].
  apply String.eqb_neq in Hn, He, Hp.
  destruct (reg_recaptcha r) eqn:Hcaptcha;
    [|stopped Hlast].
  destruct (HashString (reg_password r)) as [password errp] eqn:Hhash.
  destruct (AuthorizedCharsOnly (reg_name r)) eqn:Hcn;
    [|stopped Hlast].
  destruct (AuthorizedCharsOnly (ToLower (reg_email r))) eqn:Hce;
    [|stopped Hlast].
  destruct errp as [e|].
  { stopped Hlast. }
  exfalso. apply Hbad. unfold well_formed_registration. rewrite Hhash.
  repeat split; assumption.
Qed.

(** X22.  Registering twice.  After a registration that was answered with
    the redirect to the login page, the same form sent again is refused:
    the lookup by address now finds a user, so the answer is the form with
    the flash that an account already exists for the address, and the users
    are the ones the first registration left.  (The lowered address has the
    dot as its only metacharacter and is not empty.) *)
Theorem RegisterPOST_twice_refused (r : RegisterRequest) (w : World) :
  fst (RegisterPOST HashString AuthorizedCharsOnly ToLower r w)
    = Found "/login" ->
  dotted_name (ToLower (reg_email r)) = true ->
  ToLower (reg_email r) <> "" ->
  let w' := snd (RegisterPOST HashString AuthorizedCharsOnly ToLower r w) in
  let again := RegisterPOST HashString AuthorizedCharsOnly ToLower r w' in
  fst again = RegisterForm (reg_name r) (reg_email r) /\
  flashes (snd again) =
    flashes w'
    ++ [mkFlash ("Account already exists for: " ++ ToLower (reg_email r))
                FlashError] /\
  db (snd again) = db w'.
Proof.
  intros Hfirst Hdot Hne. cbv zeta.
  destruct (RegisterPOST_run r w)
    as (Hconn & _ & _ & _ & _ & [[Hno _] | Hyes]); [contradiction|].
  destruct Hyes as (_ & Hc & Hform & _ & _ & Husers & _).
  set (w' := snd (RegisterPOST HashString AuthorizedCharsOnly ToLower r w))
    in *.
  rewrite Hc in Hconn.
  rewrite (RegisterPOST_well_formed r w' Hform).
  rewrite bind_run.
  destruct (UserByMail_finds_same (ToLower (reg_email r))
              (new_user w (reg_name r) (ToLower (reg_email r))
                        (fst (HashString (reg_password r)))) w' Hconn)
    as [found Hfound]; [| exact Hdot | exact Hne | reflexivity |].
  { rewrite Husers. apply in_or_app. right. left. reflexivity. }
  destruct (UserByMail_run (ToLower (reg_email r)) w') as [[t Ht] _].
  destruct (UserByMail (ToLower (reg_email r)) w') as [[um errmail] w1].
  cbn [fst snd] in *. injection Hfound as -> ->. subst w1.
  unfold RegisterGET. rewrite bind_run. cbn. repeat split; reflexivity.
Qed.

End Registration.

Lemma sample_registration_well_formed :
  well_formed_registration marked_hash any_chars lower sample_registration.
Proof.
  unfold well_formed_registration. cbn.
  repeat split; try reflexivity; try discriminate.
Qed.

Lemma RegisterPOST_offline_says_exists_witness :
  flashes (snd (RegisterPOST marked_hash any_chars lower sample_registration
                             offline_world))
    = [mkFlash "Account already exists for: king@example.com" FlashError].
Proof.
  destruct (RegisterPOST_offline_says_exists marked_hash any_chars lower
              sample_registration offline_world
              sample_registration_well_formed eq_refl) as (_ & Hflash & _).
  rewrite Hflash. reflexivity.
Defined.

Lemma RegisterPOST_name_taken_any_case_witness :
  flashes (snd (RegisterPOST marked_hash any_chars lower sample_registration
                             elvis_world))
    = [mkFlash "Account already exists for: Elvis" FlashError] /\
  user (db (snd (RegisterPOST marked_hash any_chars lower sample_registration
                              elvis_world))) = [elvis].
Proof.
  destruct (RegisterPOST_name_taken_any_case marked_hash any_chars lower
              sample_registration elvis_world elvis
              sample_registration_well_formed eq_refl eq_refl
              (or_introl eq_refl) eq_refl ltac:(discriminate) eq_refl)
    as (_ & Hflash & Hdb).
  rewrite Hflash, Hdb. split; reflexivity.
Defined.

Lemma RegisterPOST_checks_before_store_witness :
  fst (RegisterPOST marked_hash any_chars lower
         (mkRegisterRequest (Some 5%Z) "Elvis" "King@Example.com" "secret"
                            true) elvis_world) = Found "/register" /\
  flashes (snd (RegisterPOST marked_hash any_chars lower
                  (mkRegisterRequest (Some 5%Z) "Elvis" "King@Example.com"
                                     "secret" true) elvis_world)) = [].
Proof.
  destruct (RegisterPOST_checks_before_store marked_hash any_chars lower
              (mkRegisterRequest (Some 5%Z) "Elvis" "King@Example.com"
                                 "secret" true) elvis_world)
    as (_ & _ & _ & Hfive).
  { intros (Hattempt & _). specialize (Hattempt 5%Z eq_refl). lia. }
  destruct Hfive as [Hanswer Hflash];
    [exists 5%Z; split; [reflexivity | lia]|].
  split; [exact Hanswer | exact Hflash].
Defined.

Lemma RegisterPOST_twice_refused_witness :
  fst (RegisterPOST marked_hash any_chars lower sample_registration
                    sample_world) = Found "/login" /\
  fst (RegisterPOST marked_hash any_chars lower sample_registration
         (snd (RegisterPOST marked_hash any_chars lower sample_registration
                            sample_world)))
    = RegisterForm "Elvis" "King@Example.com".
Proof.
  assert (Hfirst : fst (RegisterPOST marked_hash any_chars lower
                          sample_registration sample_world) = Found "/login")
    by (vm_compute; reflexivity).
  split; [exact Hfirst|].
  exact (proj1 (RegisterPOST_twice_refused marked_hash any_chars lower
                  sample_registration sample_world Hfirst eq_refl
                  ltac:(discriminate))).
Defined.

(** ** The pages of the users *)

Lemma string_compare_trans (a b c : string) :
  (a ?= b) <> Gt -> (b ?= c) <> Gt -> (a ?= c) <> Gt.
Proof.
  revert b c. induction a as [|x a IH]; intros [|y b] [|z c]; cbn;
    try congruence.
  unfold Ascii.compare.
  destruct (N.compare_spec (N_of_ascii x) (N_of_ascii y)) as [Hxy|Hxy|Hxy];
    destruct (N.compare_spec (N_of_ascii y) (N_of_ascii z)) as [Hyz|Hyz|Hyz];
    destruct (N.compare_spec (N_of_ascii x) (N_of_ascii z)) as [Hxz|Hxz|Hxz];
    try congruence; try lia; try apply IH.
Qed.

Lemma name_order_total (p1 p2 : User) :
  negb (User_Name p2 <? User_Name p1) = true
  \/ negb (User_Name p1 <? User_Name p2) = true.
Proof.
  unfold String.ltb. rewrite (String.compare_antisym (User_Name p1)).
  destruct (User_Name p2 ?= User_Name p1); cbn; auto.
Qed.

Lemma name_order_trans (p1 p2 p3 : User) :
  negb (User_Name p2 <? User_Name p1) = true ->
  negb (User_Name p3 <? User_Name p2) = true ->
  negb (User_Name p3 <? User_Name p1) = true.
Proof.
  unfold String.ltb.
  rewrite (String.compare_antisym (User_Name p2) (User_Name p1)).
  rewrite (String.compare_antisym (User_Name p3) (User_Name p2)).
  rewrite (String.compare_antisym (User_Name p3) (User_Name p1)).
  intros H12 H23.
  pose proof (string_compare_trans (User_Name p1) (User_Name p2)
                (User_Name p3)) as Ht.
  destruct (User_Name p1 ?= User_Name p2); try discriminate H12;
    destruct (User_Name p2 ?= User_Name p3); try discriminate H23;
    destruct (User_Name p1 ?= User_Name p3); try reflexivity;
    exfalso; apply Ht; congruence.
Qed.

Lemma reads_CountSolutionsByUser : reads_only CountSolutionsByUser.
Proof.
  intros u w Hc. connected w Hc. do 2 eexists. reflexivity.
Qed.

Lemma reads_CountCommentsByUser : reads_only CountCommentsByUser.
Proof.
  intros u w Hc. connected w Hc. do 2 eexists. reflexivity.
Qed.

Lemma AllUsersVisible_run (w : World) :
  connection w = true ->
  exists t,
    AllUsersVisible w =
      ((filter (fun u => bson_bool (User_Visible u) true) (user (db w)), None),
       retrace w t).
Proof. intros Hc. connected w Hc. eexists. reflexivity. Qed.

Section UsersPage.

Variable CrackmesByUser : string -> M (list Crackme * option error).
Variable CountCrackmesByUser : string -> M (Z * option error).

Lemma UsersGET_counts_run (users : list User) (w : World) :
  reads_only CountCrackmesByUser ->
  connection w = true ->
  exists t, UsersGET_counts CountCrackmesByUser users w = (None, retrace w t).
Proof.
  intros Hreads. revert w. induction users as [|u users IH]; intros w Hc.
  - exists (trace w). destruct w; cbn in *. reflexivity.
  - cbn [UsersGET_counts]. rewrite bind_run.
    destruct (reads_CountSolutionsByUser (User_Name u) w Hc) as (n1 & t1 & ->).
    cbn [fst snd]. rewrite bind_run.
    destruct (reads_CountCommentsByUser (User_Name u) (retrace w t1) Hc)
      as (n2 & t2 & ->).
    cbn [fst snd]. rewrite bind_run.
    destruct (Hreads (User_Name u) (retrace (retrace w t1) t2) Hc)
      as (n3 & t3 & ->).
    cbn [fst snd].
    destruct (IH (retrace (retrace (retrace w t1) t2) t3) Hc) as [t ->].
    exists t. reflexivity.
Qed.

(** X23.  [UsersGET] shows the users as they are stored.  With a
    connection (and a count of crackmes that answers), the page lists
    exactly the visible users of the store, in the order of their names;
    each listed user is a stored document, counters included: the counts
    that the loop computes are assigned to the loop variable, a copy, and
    never reach the list. *)
Theorem UsersGET_shows_stored_users (w : World) :
  reads_only CountCrackmesByUser ->
  connection w = true ->
  exists users,
    fst (UsersGET CountCrackmesByUser w) = UsersRead users /\
    Permutation users
      (filter (fun u => bson_bool (User_Visible u) true) (user (db w))) /\
    (forall u, In u users -> In u (user (db w)) /\ User_Visible u = true) /\
    StronglySorted
      (fun p1 p2 => (User_Name p2 <? User_Name p1)%string = false) users.
Proof.
  intros Hreads Hc. unfold UsersGET. rewrite bind_run.
  destruct (AllUsersVisible_run w Hc) as [t0 ->]. cbn [fst snd].
  cbv zeta. rewrite bind_run.
  set (visible := filter _ (user (db w))).
  set (users := By_Sort _ visible).
  destruct (UsersGET_counts_run users (retrace w t0) Hreads Hc) as [t ->].
  cbn [fst snd ret].
  assert (Hperm : Permutation users visible) by apply sort_by_perm.
  exists users. split; [reflexivity|]. split; [exact Hperm|]. split.
  - intros u Hin. apply (Permutation_in _ Hperm) in Hin.
    apply filter_In in Hin. destruct Hin as [Hin Hv].
    apply eqb_prop in Hv. auto.
  - eapply StronglySorted_weaken;
      [|apply sort_by_sorted;
        [intros a b; apply name_order_total
        |intros a b c; apply name_order_trans]].
    intros a b Hab. cbv beta in Hab. apply negb_true_iff in Hab. exact Hab.
Qed.

End UsersPage.

Lemma reads_sample_CountCrackmesByUser : reads_only sample_CountCrackmesByUser.
Proof.
  intros u w Hc. destruct w. do 2 eexists. reflexivity.
Qed.

Lemma UsersGET_shows_stored_users_witness :
  fst (UsersGET sample_CountCrackmesByUser two_users_world)
    = UsersRead [elvis; zed] /\
  User_NbSolutions zed = 6%Z /\
  fst (CountSolutionsByUser "zed" two_users_world) = (0%Z, None).
Proof.
  destruct (UsersGET_shows_stored_users sample_CountCrackmesByUser
              two_users_world reads_sample_CountCrackmesByUser eq_refl)
    as (users & Hpage & _).
  split; [|split; reflexivity].
  rewrite Hpage. vm_compute in Hpage. injection Hpage as <-. reflexivity.
Defined.

Ltac plain_read_auto :=
  let a := fresh "a" in
  let w := fresh "w" in
  let Hc := fresh "Hc" in
  intros a w Hc; connected w Hc;
  split; [eexists; reflexivity | split; [reflexivity | intros; reflexivity]].

Lemma plain_CountSolutionsByUser : plain_read CountSolutionsByUser.
Proof. plain_read_auto. Qed.

Lemma plain_CountCommentsByUser : plain_read CountCommentsByUser.
Proof. plain_read_auto. Qed.

Lemma plain_SolutionsByUser : plain_read SolutionsByUser.
Proof. plain_read_auto. Qed.

Lemma plain_CommentsByUser : plain_read CommentsByUser.
Proof. plain_read_auto. Qed.

Lemma CrackmeByHexId_run (hexid : string) (w : World) :
  connection w = true ->
  exists t,
    CrackmeByHexId hexid w =
      (match find (crackme_with_hexid hexid) (crackme (db w)) with
       | Some c => (c, None)
       | None => (zeroCrackme, Some ErrNoResult)
       end, retrace w t).
Proof.
  intros Hc. connected w Hc. run_store. unfold crackme_with_hexid, retrace.
  cbn. destruct (find _ _); eexists; reflexivity.
Qed.

(** The loop over the solutions, when every crackme is found. *)
Lemma UserGET_solutions_found (solutions : list Solution) (w : World) :
  connection w = true ->
  (forall s, In s solutions -> crackme_stored w s) ->
  exists solutionsext t,
    UserGET_solutions solutions w = (Some solutionsext, retrace w t) /\
    map Ext_Solution solutionsext = solutions /\
    Forall (fun e =>
              Ext_Crackmeshexid e = Hex (Solution_CrackmeId (Ext_Solution e)) /\
              exists c, In c (crackme (db w)) /\
                        Crackme_HexId c = Ext_Crackmeshexid e /\
                        Crackme_Name c = Ext_Crackmename e)
           solutionsext.
Proof.
  revert w. induction solutions as [|s rest IH]; intros w Hc Hall.
  - exists [], (trace w). destruct w; cbn in *. repeat split. constructor.
  - cbn [UserGET_solutions]. cbv zeta. rewrite bind_run.
    destruct (CrackmeByHexId_run (Hex (Solution_CrackmeId s)) w Hc)
      as [t0 ->].
    destruct (Hall s (or_introl eq_refl)) as [c Hfind]. rewrite Hfind.
    cbn [fst snd]. rewrite bind_run.
    destruct (IH (retrace w t0) Hc) as (ext & t & Hrun & Hmap & Hext).
    { intros s' Hin. apply Hall. right. exact Hin. }
    rewrite Hrun. cbn [fst snd ret].
    exists (mkSolutionExtended s (Hex (Solution_CrackmeId s)) (Crackme_Name c)
              :: ext), t.
    split; [reflexivity|]. split; [cbn; rewrite Hmap; reflexivity|].
    constructor; [|exact Hext]. cbn. split; [reflexivity|].
    exists c. apply find_some in Hfind. destruct Hfind as [Hin Hf].
    apply bson_string_omitempty_true in Hf. tauto.
Qed.

(** The loop over the solutions, when one crackme is not found. *)
Lemma UserGET_solutions_dangling (solutions : list Solution) (w : World)
    (s : Solution) :
  connection w = true ->
  In s solutions -> ~ crackme_stored w s ->
  exists t, UserGET_solutions solutions w = (None, retrace w t).
Proof.
  revert w. induction solutions as [|s0 rest IH]; intros w Hc Hin Hno;
    [destruct Hin|].
  cbn [UserGET_solutions]. cbv zeta. rewrite bind_run.
  destruct (CrackmeByHexId_run (Hex (Solution_CrackmeId s0)) w Hc) as [t0 ->].
  destruct (find (crackme_with_hexid (Hex (Solution_CrackmeId s0)))
                 (crackme (db w))) as [c|] eqn:Hfind; cbn [fst snd].
  - rewrite bind_run. destruct Hin as [->|Hin].
    + exfalso. apply Hno. exists c. exact Hfind.
    + destruct (IH (retrace w t0) Hc Hin Hno) as [t ->].
      exists t. reflexivity.
  - rewrite bind_run. cbn. eexists. reflexivity.
Qed.

Section UserPage.

Variable CrackmesByUser : string -> M (list Crackme * option error).
Variable CountCrackmesByUser : string -> M (Z * option error).

Hypothesis reads_CrackmesByUser : reads_only CrackmesByUser.
Hypothesis reads_CountCrackmesByUser : reads_only CountCrackmesByUser.

(** The run of [UserGET] up to the loop over the solutions. *)
Lemma UserGET_run (name : string) (sess : option string) (w : World)
    (u : User) :
  connection w = true ->
  fst (UserByName name w) = (u, None) ->
  exists crackmes nbCrackmes t,
    UserGET CrackmesByUser CountCrackmesByUser name sess w =
      (solutionsext <-
         UserGET_solutions (fst (fst (SolutionsByUser (User_Name u) w))) ;;
       match solutionsext with
       | None => ret Error500
       | Some solutionsext =>
           ret (UserRead (User_Name u) nbCrackmes
                  (fst (fst (CountSolutionsByUser (User_Name u) w)))
                  (fst (fst (CountCommentsByUser (User_Name u) w)))
                  crackmes solutionsext
                  (fst (fst (CommentsByUser (User_Name u) w)))
                  (own_page sess (User_Name u)))
       end) (retrace w t).
Proof.
  intros Hc Hfound. unfold UserGET. rewrite bind_run.
  destruct (UserByName_run name w) as [[t1 Ht1] _].
  destruct (UserByName name w) as [[u' e] w1]. cbn [fst snd] in *.
  injection Hfound as -> ->. subst w1. cbv zeta.
  rewrite bind_run.
  destruct (reads_CrackmesByUser (User_Name u) (retrace w t1) Hc)
    as (crackmes & t2 & ->).
  cbn [fst snd]. change (retrace (retrace w t1) t2) with (retrace w t2).
  rewrite bind_run.
  destruct (reads_CountCrackmesByUser (User_Name u) (retrace w t2) Hc)
    as (nbCrackmes & t3 & ->).
  cbn [fst snd]. change (retrace (retrace w t2) t3) with (retrace w t3).
  exists crackmes, nbCrackmes.
  rewrite bind_run.
  destruct (plain_CountSolutionsByUser (User_Name u) w Hc) as (_ & He1 & Hs1).
  destruct (plain_CountSolutionsByUser (User_Name u) (retrace w t3) Hc)
    as ([t4 Ht4] & _ & _).
  specialize (Hs1 t3).
  destruct (CountSolutionsByUser (User_Name u) (retrace w t3))
    as [[n1 e1] w4].
  cbn [fst snd] in *. subst w4. rewrite <- Hs1 in *. cbn [fst snd] in *.
  subst e1. change (retrace (retrace w t3) t4) with (retrace w t4).
  rewrite bind_run.
  destruct (plain_CountCommentsByUser (User_Name u) w Hc) as (_ & He2 & Hs2).
  destruct (plain_CountCommentsByUser (User_Name u) (retrace w t4) Hc)
    as ([t5 Ht5] & _ & _).
  specialize (Hs2 t4).
  destruct (CountCommentsByUser (User_Name u) (retrace w t4))
    as [[n2 e2] w5].
  cbn [fst snd] in *. subst w5. rewrite <- Hs2 in *. cbn [fst snd] in *.
  subst e2. change (retrace (retrace w t4) t5) with (retrace w t5).
  rewrite bind_run.
  destruct (plain_SolutionsByUser (User_Name u) w Hc) as (_ & He3 & Hs3).
  destruct (plain_SolutionsByUser (User_Name u) (retrace w t5) Hc)
    as ([t6 Ht6] & _ & _).
  specialize (Hs3 t5).
  destruct (SolutionsByUser (User_Name u) (retrace w t5))
    as [[l3 e3] w6].
  cbn [fst snd] in *. subst w6. rewrite <- Hs3 in *. cbn [fst snd] in *.
  subst e3. change (retrace (retrace w t5) t6) with (retrace w t6).
  rewrite bind_run.
  destruct (plain_CommentsByUser (User_Name u) w Hc) as (_ & He4 & Hs4).
  destruct (plain_CommentsByUser (User_Name u) (retrace w t6) Hc)
    as ([t7 Ht7] & _ & _).
  specialize (Hs4 t6).
  destruct (CommentsByUser (User_Name u) (retrace w t6))
    as [[l4 e4] w7].
  cbn [fst snd] in *. subst w7. rewrite <- Hs4 in *. cbn [fst snd] in *.
  subst e4. change (retrace (retrace w t6) t7) with (retrace w t7).
  exists t7. unfold own_page. destruct sess; reflexivity.
Qed.

(** X24.  [UserGET] shows the page of the stored user.  The name of the
    request is looked up with [UserByName], which ignores case; everything
    after that is asked for the name as it is stored.  With a connection,
    when the user is found and the crackme of each listed solution is
    stored, the page has the stored name, the counts of
    [CountSolutionsByUser] and [CountCommentsByUser] for it, the listings of
    [SolutionsByUser] and [CommentsByUser] for it, each solution with the
    hex id and the name of its crackme, and the own-page flag is set
    exactly when the session name is not empty and is the stored name,
    letter for letter. *)
Theorem UserGET_page_of_stored_name (name : string) (sess : option string)
    (w : World) (u : User) :
  connection w = true ->
  fst (UserByName name w) = (u, None) ->
  (forall s, In s (fst (fst (SolutionsByUser (User_Name u) w))) ->
             crackme_stored w s) ->
  exists crackmes nbCrackmes solutionsext,
    fst (UserGET CrackmesByUser CountCrackmesByUser name sess w) =
      UserRead (User_Name u) nbCrackmes
               (fst (fst (CountSolutionsByUser (User_Name u) w)))
               (fst (fst (CountCommentsByUser (User_Name u) w)))
               crackmes solutionsext
               (fst (fst (CommentsByUser (User_Name u) w)))
               (own_page sess (User_Name u)) /\
    map Ext_Solution solutionsext
      = fst (fst (SolutionsByUser (User_Name u) w)) /\
    Forall (fun e =>
              Ext_Crackmeshexid e = Hex (Solution_CrackmeId (Ext_Solution e)) /\
              exists c, In c (crackme (db w)) /\
                        Crackme_HexId c = Ext_Crackmeshexid e /\
                        Crackme_Name c = Ext_Crackmename e)
           solutionsext.
Proof.
  intros Hc Hfound Hstored.
  destruct (UserGET_run name sess w u Hc Hfound)
    as (crackmes & nbCrackmes & t & ->).
  destruct (UserGET_solutions_found
              (fst (fst (SolutionsByUser (User_Name u) w))) (retrace w t) Hc
              Hstored) as (ext & t' & Hrun & Hmap & Hext).
  exists crackmes, nbCrackmes, ext. rewrite bind_run, Hrun.
  split; [reflexivity|]. split; [exact Hmap | exact Hext].
Qed.

(** X25.  One solution whose crackme is gone takes the page of its author
    down: with a connection, when the user is found and one of the listed
    solutions holds an identifier under whose hex form no crackme is
    stored, [UserGET] answers [Error500]. *)
Theorem UserGET_dangling_solution (name : string) (sess : option string)
    (w : World) (u : User) (s : Solution) :
  connection w = true ->
  fst (UserByName name w) = (u, None) ->
  In s (fst (fst (SolutionsByUser (User_Name u) w))) ->
  ~ crackme_stored w s ->
  fst (UserGET CrackmesByUser CountCrackmesByUser name sess w) = Error500.
Proof.
  intros Hc Hfound Hin Hno.
  destruct (UserGET_run name sess w u Hc Hfound)
    as (crackmes & nbCrackmes & t & ->).
  destruct (UserGET_solutions_dangling
              (fst (fst (SolutionsByUser (User_Name u) w))) (retrace w t) s
              Hc Hin Hno) as [t' Hrun].
  rewrite bind_run, Hrun. reflexivity.
Qed.

End UserPage.

Lemma reads_sample_CrackmesByUser : reads_only sample_CrackmesByUser.
Proof. intros u w Hc. destruct w. do 2 eexists. reflexivity. Qed.

Lemma UserGET_page_of_stored_name_witness :
  fst (UserGET sample_CrackmesByUser sample_CountCrackmesByUser "ELVIS"
               (Some "Elvis") elvis_world)
    = UserRead "elvis" 0 0 0 [] [] [] false /\
  fst (UserGET sample_CrackmesByUser sample_CountCrackmesByUser "ELVIS"
               (Some "elvis") elvis_world)
    = UserRead "elvis" 0 0 0 [] [] [] true.
Proof.
  split.
  - destruct (UserGET_page_of_stored_name sample_CrackmesByUser
                sample_CountCrackmesByUser reads_sample_CrackmesByUser
                reads_sample_CountCrackmesByUser "ELVIS" (Some "Elvis")
                elvis_world elvis eq_refl eq_refl)
      as (crackmes & nbCrackmes & ext & Hpage & _).
    { intros s []. }
    rewrite Hpage. vm_compute in Hpage. injection Hpage as <- <- <-.
    reflexivity.
  - vm_compute. reflexivity.
Defined.

Lemma UserGET_dangling_solution_witness :
  fst (UserGET sample_CrackmesByUser sample_CountCrackmesByUser "elvis" None
               dangling_world) = Error500 /\
  fst (CountSolutionsByUser "elvis" dangling_world) = (1%Z, None).
Proof.
  split; [|reflexivity].
  apply (UserGET_dangling_solution sample_CrackmesByUser
           sample_CountCrackmesByUser reads_sample_CrackmesByUser
           reads_sample_CountCrackmesByUser "elvis" None dangling_world elvis
           dangling_solution eq_refl eq_refl (or_introl eq_refl)).
  intros [c Hc]. vm_compute in Hc. discriminate Hc.
Defined.

(** ** The home page *)

Lemma CountUsers_run (w : World) :
  connection w = true ->
  exists t,
    CountUsers w = ((Z.of_nat (length (user (db w))), None), retrace w t).
Proof.
  intros Hc. connected w Hc. run_store. rewrite filter_all. eexists.
  reflexivity.
Qed.

Lemma CountSolutions_run (w : World) :
  connection w = true ->
  exists t,
    CountSolutions w
      = ((Z.of_nat (length (solution (db w))), None), retrace w t).
Proof. intros Hc. connected w Hc. eexists. reflexivity. Qed.

Section IndexPage.

Variable CountCrackmes : M (Z * option error).


End IndexPage.

Lemma reads_sample_CountCrackmes :
  reads_only (fun _ : unit => sample_CountCrackmes).
Proof. intros u w Hc. destruct w. do 2 eexists. reflexivity. Qed.

